(** * Snowflake AI-enablement analysis: candidate scoring and confirmation

    A shallow embedding of the decision logic of
    [scripts/snowflake_full_analysis.py] and
    [scripts/snowflake_ai_readiness_metadata.py]: classification of text
    columns, metadata-estimated column statistics, the two data-readiness
    scorers, candidate scoring and re-scoring, the confirmation rule, the
    table-level readiness score and the merge of candidate lists.

    Data model.  The Python code passes dictionaries with a fixed set of
    keys around; they are records here, one field per key the modelled
    functions read or write.  A field of type [option A] is [None] when the
    key is missing or holds Python's [None]: the readers use [d.get(k)],
    truthiness or [is not None], which treat both alike, and where a reader
    passes a default to [get] no producer writes [None] under that key.  A
    present entry holds a value of the type its producers write, so the
    type errors of ill-typed dictionaries are outside the model.  Identity
    keys of a candidate are [entry]s, because the f-strings that build keys
    tell a missing key from a [None] one.  Strings are ASCII.

    Numbers.  Python floats and ints are the rationals they denote ([Q]).
    The comparisons against thresholds are exact on floats, and the sums of
    the scoring functions (multiples of one half below twenty) are exact in
    binary64, so [Q] agrees with the float computation there.  Products with
    decimal constants such as [0.3] or [weight / 100] and [round(x, 2)] are
    computed on the decimal values the floats stand for. *)

From Stdlib Require Import ZArith QArith Qround Lqa Lia List Bool String Ascii.
From stdpp Require Import gmap strings list pretty.

Local Open Scope Z_scope.
Local Open Scope Q_scope.
Local Open Scope string_scope.

(** * Python primitives *)

Module Py.

(** A dictionary entry: key missing, key holding [None], key holding a value. *)
Inductive entry (A : Type) : Type :=
| Absent
| PyNone
| Val (a : A).
Arguments Absent {A}.
Arguments PyNone {A}.
Arguments Val {A} a.

(** A value fetched from a database row: SQL NULL arrives as [None]. *)
Definition of_row {A} (o : option A) : entry A :=
  match o with Some a => Val a | None => PyNone end.

(** [f"{d.get(k, '')}"] and [str(d.get(k, ''))] for a string-valued key. *)
Definition str_or_empty (e : entry string) : string :=
  match e with Absent => "" | PyNone => "None" | Val s => s end.

(** Truthiness of numbers, strings and optional values. *)
Definition truthyQ (q : Q) : bool := negb (Qeq_bool q 0).
Definition truthyZ (z : Z) : bool := negb (z =? 0)%Z.
Definition truthyS (s : string) : bool := negb (String.eqb s "").
Definition truthy_opt {A} (t : A -> bool) (o : option A) : bool :=
  match o with Some a => t a | None => false end.

(** Comparisons of numbers, as booleans. *)
Definition leq (a b : Q) : bool := Qle_bool a b.
Definition lt (a b : Q) : bool := negb (Qle_bool b a).
Definition geq (a b : Q) : bool := Qle_bool b a.
Definition gt (a b : Q) : bool := negb (Qle_bool a b).

(** [round(x)] to the nearest integer, ties to the even one. *)
Definition round_half_even (x : Q) : Z :=
  let f := Qfloor x in
  let d := x - inject_Z f in
  if lt d (1 # 2) then f
  else if gt d (1 # 2) then (f + 1)%Z
  else if Z.even f then f else (f + 1)%Z.

(** [round(x, 2)]. *)
Definition round2 (x : Q) : Q :=
  Qred (inject_Z (round_half_even (x * 100)) / 100).

(** [min(a, b)] on numbers. *)
Definition min (a b : Q) : Q := if lt b a then b else a.

(** [int(x)]: truncation towards zero. *)
Definition int (x : Q) : Z := if lt x 0 then Qceiling x else Qfloor x.

(** Digits of [n], padded with zeros on the left to [w] characters. *)
Fixpoint zero_pad (w : nat) (s : string) : string :=
  match w with
  | O => s
  | S w' => if (String.length s <? S w')%nat then zero_pad w' ("0" +:+ s) else s
  end.

(** [f"{x:.<d>f}"]: fixed-point formatting with [d] fractional digits. *)
Definition format_fixed (d : nat) (x : Q) : string :=
  let scale := (10 ^ Z.of_nat d)%Z in
  let n := Z.abs (round_half_even (x * inject_Z scale)) in
  let sign := if lt x 0 then "-" else "" in
  let whole := pretty (n / scale)%Z in
  match d with
  | O => sign +:+ whole
  | _ => sign +:+ whole +:+ "." +:+ zero_pad d (pretty (n mod scale)%Z)
  end.

(** [s.upper()] on ASCII text. *)
Definition upper_ascii (c : ascii) : ascii :=
  let n := nat_of_ascii c in
  if ((97 <=? n) && (n <=? 122))%nat then ascii_of_nat (n - 32) else c.

Fixpoint upper (s : string) : string :=
  match s with
  | EmptyString => EmptyString
  | String c s' => String (upper_ascii c) (upper s')
  end.

(** [sub in s]. *)
Fixpoint contains (sub s : string) : bool :=
  String.prefix sub s ||
  match s with
  | EmptyString => false
  | String _ s' => contains sub s'
  end.

(** [any(t in s for t in ts)]. *)
Definition any_in (ts : list string) (s : string) : bool :=
  existsb (fun t => contains t s) ts.

(** [x in ts] for a tuple or set of strings. *)
Definition mem (x : string) (ts : list string) : bool :=
  existsb (String.eqb x) ts.

(** ASCII whitespace removed by [str.strip()]. *)
Definition is_space (c : ascii) : bool :=
  let n := nat_of_ascii c in
  ((9 <=? n) && (n <=? 13) || (28 <=? n) && (n <=? 32))%nat.

Fixpoint lstrip (s : string) : string :=
  match s with
  | EmptyString => EmptyString
  | String c s' => if is_space c then lstrip s' else s
  end.

Fixpoint rstrip (s : string) : string :=
  match s with
  | EmptyString => EmptyString
  | String c s' =>
      let r := rstrip s' in
      if is_space c && String.eqb r "" then EmptyString else String c r
  end.

Definition strip (s : string) : string := rstrip (lstrip s).

(** [s.split('(')[0]]. *)
Fixpoint split_paren_head (s : string) : string :=
  match s with
  | EmptyString => EmptyString
  | String c s' => if Ascii.eqb c "(" then EmptyString else String c (split_paren_head s')
  end.

End Py.

(** * Data model *)

Module Model.
Import Py.

(** A row of the column catalogue, as the metadata queries return it:
    [(database, schema, table, column, ordinal, data_type, max_length,
    numeric_precision, numeric_scale, is_nullable, comment)]. *)
Record column_row := {
  r_database : option string;
  r_schema : option string;
  r_table : option string;
  r_column : option string;
  r_ordinal : option Z;
  r_data_type : option string;
  r_max_len : option Z;
  r_numeric_precision : option Z;
  r_numeric_scale : option Z;
  r_is_nullable : option string;
  r_comment : option string
}.

(** An entry of [build_column_metadata_lookup]: [data_type] is upper-cased
    and [column_comment] is [comment or ''], the rest is the raw row. *)
Record column_meta := {
  column_name : option string;
  cm_data_type : string;
  character_maximum_length : option Z;
  cm_numeric_precision : option Z;
  cm_numeric_scale : option Z;
  cm_is_nullable : option string;
  column_comment : string
}.

(** [datetime]: the wall-clock reading in microseconds since
    1970-01-01T00:00:00 and the UTC offset of its [tzinfo], if it has one. *)
Record datetime := {
  wall_us : Z;
  utcoffset_us : option Z
}.

(** The value under [last_altered]: nothing, an ISO string or a datetime. *)
Inductive last_altered_value : Type :=
| LA_none
| LA_str (s : string)
| LA_datetime (d : datetime).

(** An entry of [build_table_metadata_lookup]; the empty dictionary that
    [table_lookup.get(key, {})] falls back to is [no_table_meta]. *)
Record table_meta := {
  table_comment : string;
  last_altered : last_altered_value;
  clustering_key : string;
  tm_row_count : option Z
}.

Definition no_table_meta : table_meta :=
  {| table_comment := ""; last_altered := LA_none; clustering_key := "";
     tm_row_count := None |}.

(** An entry of [build_constraints_lookup]. *)
Record constraint_meta := {
  constraint_type : string;
  constraint_name : option string
}.

(** An entry of [build_storage_lookup]. *)
Record storage_meta := {
  active_bytes : Z;
  time_travel_bytes : Z;
  failsafe_bytes : Z;
  clone_bytes : Z
}.

(** Nested dictionaries of a deep profile. *)
Record sparsity_profile := { sp_null_percentage : option Q }.
Record content_type_profile := {
  ct_avg_length : option Q;
  ct_is_natural_language : option bool
}.
Record json_structure_profile := { js_is_valid_structure : option bool }.

(** Column statistics: the keys written by [compute_column_metadata_stats]
    and by the sampling queries, and the nested profile keys read by the
    confirmation rule. *)
Record stats := {
  st_row_count : option Z;
  st_data_type : option string;
  st_is_nullable : option string;
  st_has_comment : option bool;
  st_source : option string;
  st_null_percentage : option Q;
  st_non_null_count : option Z;
  st_max_length : option Z;
  st_avg_length : option Q;
  st_min_length : option Z;
  st_numeric_precision : option Z;
  st_numeric_scale : option Z;
  st_is_semi_structured : option bool;
  st_sparsity : option sparsity_profile;
  st_content_type : option content_type_profile;
  st_json_structure : option json_structure_profile
}.

(** The empty dictionary [{}]. *)
Definition no_stats : stats :=
  {| st_row_count := None; st_data_type := None; st_is_nullable := None;
     st_has_comment := None; st_source := None; st_null_percentage := None;
     st_non_null_count := None; st_max_length := None; st_avg_length := None;
     st_min_length := None; st_numeric_precision := None;
     st_numeric_scale := None; st_is_semi_structured := None;
     st_sparsity := None; st_content_type := None; st_json_structure := None |}.

(** The [scores] dictionary; a field is [None] while its key is missing. *)
Record scores := {
  business_potential : option Q;
  data_readiness : option Q;
  metadata_quality : option Q;
  governance_risk : option Q
}.

(** [sum(scores.values())]. *)
Definition sum_values (s : scores) : Q :=
  let v (o : option Q) := match o with Some q => q | None => 0 end in
  v (business_potential s) + v (data_readiness s)
  + v (metadata_quality s) + v (governance_risk s).

(** [not d] for a statistics dictionary: no key is set. *)
Definition stats_empty (st : stats) : bool :=
  let none {A} (o : option A) := match o with None => true | Some _ => false end in
  none (st_row_count st) && none (st_data_type st) && none (st_is_nullable st)
  && none (st_has_comment st) && none (st_source st)
  && none (st_null_percentage st) && none (st_non_null_count st)
  && none (st_max_length st) && none (st_avg_length st)
  && none (st_min_length st) && none (st_numeric_precision st)
  && none (st_numeric_scale st) && none (st_is_semi_structured st)
  && none (st_sparsity st) && none (st_content_type st)
  && none (st_json_structure st).

(** A candidate.  [c_statistics], [c_scores] and [c_total_score] are
    [None] while their key is missing. *)
Record candidate := {
  c_database : entry string;
  c_schema : entry string;
  c_table : entry string;
  c_column : entry string;
  c_data_type : option string;
  c_max_length : option Z;
  c_comment : option string;
  c_ai_feature : string;
  c_reason : string;
  c_statistics : option stats;
  c_scores : option scores;
  c_total_score : option Q;
  c_is_confirmed_candidate : option bool;
  c_confirmation_reasons : list string
}.

Definition set_scores (c : candidate) (s : scores) (t : Q) : candidate :=
  {| c_database := c_database c; c_schema := c_schema c; c_table := c_table c;
     c_column := c_column c; c_data_type := c_data_type c;
     c_max_length := c_max_length c; c_comment := c_comment c;
     c_ai_feature := c_ai_feature c; c_reason := c_reason c;
     c_statistics := c_statistics c;
     c_scores := Some s; c_total_score := Some t;
     c_is_confirmed_candidate := c_is_confirmed_candidate c;
     c_confirmation_reasons := c_confirmation_reasons c |}.

Definition set_statistics (c : candidate) (st : option stats) : candidate :=
  {| c_database := c_database c; c_schema := c_schema c; c_table := c_table c;
     c_column := c_column c; c_data_type := c_data_type c;
     c_max_length := c_max_length c; c_comment := c_comment c;
     c_ai_feature := c_ai_feature c; c_reason := c_reason c;
     c_statistics := st;
     c_scores := c_scores c; c_total_score := c_total_score c;
     c_is_confirmed_candidate := c_is_confirmed_candidate c;
     c_confirmation_reasons := c_confirmation_reasons c |}.

Definition set_confirmation (c : candidate) (b : bool) (rs : list string) : candidate :=
  {| c_database := c_database c; c_schema := c_schema c; c_table := c_table c;
     c_column := c_column c; c_data_type := c_data_type c;
     c_max_length := c_max_length c; c_comment := c_comment c;
     c_ai_feature := c_ai_feature c; c_reason := c_reason c;
     c_statistics := c_statistics c;
     c_scores := c_scores c; c_total_score := c_total_score c;
     c_is_confirmed_candidate := Some b;
     c_confirmation_reasons := rs |}.

Definition set_data_readiness (s : scores) (q : Q) : scores :=
  {| business_potential := business_potential s; data_readiness := Some q;
     metadata_quality := metadata_quality s;
     governance_risk := governance_risk s |}.

End Model.

(** * [snowflake_ai_readiness_metadata.py] *)

Module Metadata.
Import Py Model.

Definition UNSUPPORTED_AI_TYPES : gset string :=
  list_to_set ["BINARY"; "VARBINARY"; "GEOGRAPHY"; "GEOMETRY"].

Definition SEMI_STRUCTURED_TYPES : gset string :=
  list_to_set ["VARIANT"; "OBJECT"; "ARRAY"].

Definition TEXT_TYPES : gset string :=
  list_to_set ["VARCHAR"; "TEXT"; "STRING"; "CHAR"; "CHARACTER"].

Definition NUMERIC_TYPES : gset string :=
  list_to_set ["NUMBER"; "DECIMAL"; "NUMERIC"; "INT"; "INTEGER"; "BIGINT";
               "SMALLINT"; "TINYINT"; "BYTEINT"; "FLOAT"; "FLOAT4"; "FLOAT8";
               "DOUBLE"; "DOUBLE PRECISION"; "REAL"].

(** [x in s] for one of the frozen sets above. *)
Definition in_set (x : string) (s : gset string) : bool := bool_decide (x ∈ s).

(** Scoring weights (total = 100). *)
Definition WEIGHT_COMMENTS : Q := 25.
Definition WEIGHT_DATA_TYPES : Q := 20.
Definition WEIGHT_FRESHNESS : Q := 25.
Definition WEIGHT_CLUSTERING : Q := 15.
Definition WEIGHT_CONSTRAINTS : Q := 15.

(** [sum(1 for c in columns_meta if c.get('column_comment', '').strip())]. *)
Definition commented_columns (columns_meta : list column_meta) : nat :=
  List.length (List.filter (fun c => truthyS (strip (column_comment c))) columns_meta).

Definition of_nat (n : nat) : Q := inject_Z (Z.of_nat n).

Definition score_comments (tm : table_meta) (columns_meta : list column_meta) : Q :=
  let score := 0 in
  let score := if truthyS (strip (table_comment tm)) then score + 40 else score in
  let score :=
    match columns_meta with
    | [] => score
    | _ =>
        let commented := commented_columns columns_meta in
        let ratio := of_nat commented / of_nat (List.length columns_meta) in
        score + ratio * 60
    end in
  Py.min (round2 score) 100.

(** One turn of the loop of [score_data_types] over
    [(supported_count, partial_count)]. *)
Definition data_types_step (acc : nat * nat) (col : column_meta) : nat * nat :=
  let '(supported_count, partial_count) := acc in
  let dtype := upper (cm_data_type col) in
  let base_type := strip (split_paren_head dtype) in
  if in_set base_type UNSUPPORTED_AI_TYPES then acc
  else if in_set base_type SEMI_STRUCTURED_TYPES then (supported_count, S partial_count)
  else (S supported_count, partial_count).

Definition score_data_types (columns_meta : list column_meta) : Q :=
  match columns_meta with
  | [] => 0
  | _ =>
      let total := List.length columns_meta in
      let '(supported_count, partial_count) :=
        fold_left data_types_step columns_meta (O, O) in
      let effective := of_nat supported_count + of_nat partial_count * 0.5 in
      let ratio := if (0 <? total)%nat then effective / of_nat total else 0 in
      Py.min (round2 (ratio * 100)) 100
  end.

(** [s.replace('Z', '+00:00')]. *)
Fixpoint replace_Z (s : string) : string :=
  match s with
  | EmptyString => EmptyString
  | String c s' =>
      if Ascii.eqb c "Z" then "+00:00" +:+ replace_Z s' else String c (replace_Z s')
  end.

Definition us_per_day : Z := 86400000000.

(** The instant of a datetime on the UTC time line; a naive one is read as
    UTC ([replace(tzinfo=timezone.utc)]). *)
Definition utc_us (d : datetime) : Z :=
  match utcoffset_us d with
  | Some off => (wall_us d - off)%Z
  | None => wall_us d
  end.

(** [(now - last_altered).days]: whole days, rounded towards minus infinity. *)
Definition age_days (now_us : Z) (d : datetime) : Z :=
  ((now_us - utc_us d) / us_per_day)%Z.

Definition freshness_steps (age : Z) : Q :=
  if (age <=? 7)%Z then 100
  else if (age <=? 30)%Z then 80
  else if (age <=? 90)%Z then 50
  else if (age <=? 180)%Z then 25
  else 10.

Section Freshness.

(** [datetime.fromisoformat]: the parsed datetime, or [None] where it
    raises [ValueError]. *)
Variable fromisoformat : string -> option datetime.

(** [datetime.now(timezone.utc)], in microseconds since the epoch. *)
Variable now_us : Z.

Definition score_freshness (tm : table_meta) : Q :=
  match last_altered tm with
  | LA_none => 0
  | LA_str s =>
      if negb (truthyS s) then 0
      else match fromisoformat (replace_Z s) with
           | None => 0
           | Some d => freshness_steps (age_days now_us d)
           end
  | LA_datetime d => freshness_steps (age_days now_us d)
  end.

End Freshness.

Definition GIB : Z := 1073741824.

(** [storage] is [None] for the empty dictionary of a table without
    storage metrics. *)
Definition score_clustering (tm : table_meta) (storage : option storage_meta) : Q :=
  let score := 0 in
  let clustering_key := strip (clustering_key tm) in
  let score := if truthyS clustering_key then score + 70 else score in
  let score :=
    match storage with
    | None => score
    | Some sm =>
        let active := active_bytes sm in
        if truthyZ active && (GIB <? active)%Z && truthyS clustering_key
        then score + 30
        else if truthyZ active && (GIB <? active)%Z then score + 10
        else score
    end in
  Py.min (round2 score) 100.

Definition score_constraints (constraints_meta : list constraint_meta) : Q :=
  match constraints_meta with
  | [] => 0
  | _ =>
      let score := 0 in
      let types_found : gset string :=
        list_to_set (List.map (fun c => upper (constraint_type c)) constraints_meta) in
      let score := if in_set "PRIMARY KEY" types_found then score + 50 else score in
      let score := if in_set "FOREIGN KEY" types_found then score + 30 else score in
      let score := if in_set "UNIQUE" types_found then score + 20 else score in
      Py.min (round2 score) 100
  end.

Record dimension_scores := {
  ds_comments : Q;
  ds_data_types : Q;
  ds_freshness : Q;
  ds_clustering : Q;
  ds_constraints : Q
}.

(** The score part of the dictionary returned by
    [compute_table_readiness_score]; the [dimension_details] and [metadata]
    parts only echo the inputs for the report. *)
Record readiness_score := {
  rs_database : string;
  rs_schema : string;
  rs_table : string;
  rs_total_score : Q;
  rs_dimension_scores : dimension_scores
}.

Definition table_key : Type := string * string * string.

Section Readiness.

Variable fromisoformat : string -> option datetime.
Variable now_us : Z.

Definition compute_table_readiness_score
    (key : table_key)
    (table_lookup : gmap table_key table_meta)
    (column_lookup : gmap table_key (list column_meta))
    (constraints_lookup : gmap table_key (list constraint_meta))
    (storage_lookup : gmap table_key storage_meta) : readiness_score :=
  let tm := default no_table_meta (table_lookup !! key) in
  let columns_meta := default [] (column_lookup !! key) in
  let constraints_meta := default [] (constraints_lookup !! key) in
  let storage := storage_lookup !! key in
  let comments_score := score_comments tm columns_meta in
  let datatypes_score := score_data_types columns_meta in
  let freshness_score := score_freshness fromisoformat now_us tm in
  let clustering_score := score_clustering tm storage in
  let constraints_score := score_constraints constraints_meta in
  let total :=
    comments_score * (WEIGHT_COMMENTS / 100) +
    datatypes_score * (WEIGHT_DATA_TYPES / 100) +
    freshness_score * (WEIGHT_FRESHNESS / 100) +
    clustering_score * (WEIGHT_CLUSTERING / 100) +
    constraints_score * (WEIGHT_CONSTRAINTS / 100) in
  {| rs_database := key.1.1; rs_schema := key.1.2; rs_table := key.2;
     rs_total_score := round2 total;
     rs_dimension_scores :=
       {| ds_comments := round2 comments_score;
          ds_data_types := round2 datatypes_score;
          ds_freshness := round2 freshness_score;
          ds_clustering := round2 clustering_score;
          ds_constraints := round2 constraints_score |} |}.

End Readiness.

(** [base_type in TEXT_TYPES or any(t in base_type for t in [...])]. *)
Definition is_text_base (base_type : string) : bool :=
  in_set base_type TEXT_TYPES
  || any_in ["VARCHAR"; "TEXT"; "STRING"; "CHAR"] base_type.

Definition is_numeric_base (base_type : string) : bool :=
  in_set base_type NUMERIC_TYPES
  || any_in ["NUMBER"; "INT"; "FLOAT"; "DOUBLE"; "DECIMAL"] base_type.

(** Snowflake's default VARCHAR length. *)
Definition DEFAULT_VARCHAR_MAX : Z := 16777216.

Definition compute_column_metadata_stats (cm : column_meta) (tm : table_meta) : stats :=
  let data_type := upper (cm_data_type cm) in
  let base_type := strip (split_paren_head data_type) in
  let char_max_len := character_maximum_length cm in
  let is_nullable := cm_is_nullable cm in
  let has_comment := truthyS (strip (column_comment cm)) in
  let row_count :=
    match tm_row_count tm with
    | Some n => if truthyZ n then n else 0%Z
    | None => 0%Z
    end in
  let '(null_percentage, non_null_count) :=
    if bool_decide (is_nullable = Some "NO") then (0.0, row_count)
    else (20.0, if truthyZ row_count then Py.int (inject_Z row_count * 0.8) else 0%Z) in
  let is_text := is_text_base base_type in
  let is_numeric := negb is_text && is_numeric_base base_type in
  let is_semi := negb is_text && negb is_numeric && in_set base_type SEMI_STRUCTURED_TYPES in
  let text_part : option (Z * Q * Z) :=
    if is_text then
      match char_max_len with
      | Some n =>
          if truthyZ n then
            let estimated_avg := Py.min (inject_Z n * 0.3) 5000 in
            Some (n, round2 estimated_avg, 0%Z)
          else Some (DEFAULT_VARCHAR_MAX, 100.0, 0%Z)
      | None => Some (DEFAULT_VARCHAR_MAX, 100.0, 0%Z)
      end
    else None in
  {| st_row_count := Some row_count;
     st_data_type := Some data_type;
     st_is_nullable := is_nullable;
     st_has_comment := Some has_comment;
     st_source := Some "metadata_only";
     st_null_percentage := Some null_percentage;
     st_non_null_count := Some non_null_count;
     st_max_length := option_map (fun t => t.1.1) text_part;
     st_avg_length := option_map (fun t => t.1.2) text_part;
     st_min_length := option_map (fun t => t.2) text_part;
     st_numeric_precision := if is_numeric then cm_numeric_precision cm else None;
     st_numeric_scale := if is_numeric then cm_numeric_scale cm else None;
     st_is_semi_structured := if is_semi then Some true else None;
     st_sparsity := None;
     st_content_type := None;
     st_json_structure := None |}.

Definition enhance_data_readiness_score_metadata
    (cand : candidate) (column_stats : stats) : Q :=
  if stats_empty column_stats then 1.0
  else
    let score := 0.0 in
    (* Component 1: NULL rate impact (0-2 points) *)
    let null_pct := default 50.0 (st_null_percentage column_stats) in
    let score :=
      if leq null_pct 10 then score + 2.0
      else if leq null_pct 30 then score + 1.5
      else if leq null_pct 50 then score + 1.0
      else if leq null_pct 70 then score + 0.5
      else score in
    (* Component 2: content substantiality (0-2 points) *)
    let avg_length := st_avg_length column_stats in
    let score :=
      match avg_length with
      | Some avg_length =>
          if geq avg_length 200 then score + 2.0
          else if geq avg_length 100 then score + 1.5
          else if geq avg_length 50 then score + 1.0
          else if gt avg_length 0 then score + 0.5
          else score
      | None => score
      end in
    (* Component 3: data efficiency / quality indicators (0-1 point) *)
    let has_comment := default false (st_has_comment column_stats) in
    let is_not_nullable := bool_decide (st_is_nullable column_stats = Some "NO") in
    let score :=
      if has_comment && is_not_nullable then score + 1.0
      else if has_comment || is_not_nullable then score + 0.5
      else score in
    round2 (Py.min score 5.0).

End Metadata.

(** * [snowflake_full_analysis.py] *)

Module Analysis.
Import Py Model.

(** The module-level settings the modelled functions read. *)
Record config := {
  CONFIRM_MIN_DATA_READINESS : Q;
  CONFIRM_MAX_SPARSITY : Q;
  CONFIRM_MIN_AVG_TEXT_LENGTH : Q
}.

(** The defaults of [get_config_value]. *)
Definition default_config : config :=
  {| CONFIRM_MIN_DATA_READINESS := 3.5;
     CONFIRM_MAX_SPARSITY := 50;
     CONFIRM_MIN_AVG_TEXT_LENGTH := 30 |}.

(** ** Confirmation *)

(** [{**stats, **profile}]: the keys of [profile] win. *)
Definition merge_stats (a b : stats) : stats :=
  let over {A} (x y : option A) := match y with Some _ => y | None => x end in
  {| st_row_count := over (st_row_count a) (st_row_count b);
     st_data_type := over (st_data_type a) (st_data_type b);
     st_is_nullable := over (st_is_nullable a) (st_is_nullable b);
     st_has_comment := over (st_has_comment a) (st_has_comment b);
     st_source := over (st_source a) (st_source b);
     st_null_percentage := over (st_null_percentage a) (st_null_percentage b);
     st_non_null_count := over (st_non_null_count a) (st_non_null_count b);
     st_max_length := over (st_max_length a) (st_max_length b);
     st_avg_length := over (st_avg_length a) (st_avg_length b);
     st_min_length := over (st_min_length a) (st_min_length b);
     st_numeric_precision := over (st_numeric_precision a) (st_numeric_precision b);
     st_numeric_scale := over (st_numeric_scale a) (st_numeric_scale b);
     st_is_semi_structured := over (st_is_semi_structured a) (st_is_semi_structured b);
     st_sparsity := over (st_sparsity a) (st_sparsity b);
     st_content_type := over (st_content_type a) (st_content_type b);
     st_json_structure := over (st_json_structure a) (st_json_structure b) |}.

(** The two local variables [is_confirmed] and [reasons]. *)
Record verdict := {
  is_confirmed : bool;
  reasons : list string
}.

(** [is_confirmed = False; reasons.append(r)]. *)
Definition fail (r : string) (v : verdict) : verdict :=
  {| is_confirmed := false; reasons := reasons v ++ [r] |}.

(** [reasons.append(r)]. *)
Definition note (r : string) (v : verdict) : verdict :=
  {| is_confirmed := is_confirmed v; reasons := reasons v ++ [r] |}.

(** [stats.get('null_percentage') or
     stats.get('sparsity', {}).get('null_percentage', 100)]. *)
Definition sparsity_of (st : stats) : Q :=
  let nested :=
    match st_sparsity st with
    | Some sp => default 100 (sp_null_percentage sp)
    | None => 100
    end in
  match st_null_percentage st with
  | Some q => if truthyQ q then q else nested
  | None => nested
  end.

(** [stats.get('avg_length') or
     stats.get('content_type', {}).get('avg_length', 0)]. *)
Definition avg_len_of (st : stats) : Q :=
  let nested :=
    match st_content_type st with
    | Some ct => default 0 (ct_avg_length ct)
    | None => 0
    end in
  match st_avg_length st with
  | Some q => if truthyQ q then q else nested
  | None => nested
  end.

Section Confirmation.

Variable cfg : config.

(** Check 1: sparsity. *)
Definition check_sparsity (st : stats) (v : verdict) : verdict :=
  let null_pct := sparsity_of st in
  if gt null_pct (CONFIRM_MAX_SPARSITY cfg)
  then fail ("High sparsity (" +:+ format_fixed 1 null_pct +:+ "% NULL)") v
  else note ("Good completeness (" +:+ format_fixed 1 (100 - null_pct) +:+ "% populated)") v.

(** Check 2: content quality for text columns. *)
Definition check_content (ai_feature : string) (st : stats) (v : verdict) : verdict :=
  if mem ai_feature ["Cortex LLM"; "Cortex Search / RAG"] then
    let avg_len := avg_len_of st in
    let v :=
      if truthyQ avg_len && lt avg_len (CONFIRM_MIN_AVG_TEXT_LENGTH cfg)
      then fail ("Short content (avg " +:+ format_fixed 1 avg_len +:+ " chars)") v
      else if truthyQ avg_len
      then note ("Substantial content (avg " +:+ format_fixed 1 avg_len +:+ " chars)") v
      else v in
    let is_nl :=
      match st_content_type st with
      | Some ct => ct_is_natural_language ct
      | None => None
      end in
    match is_nl with
    | Some false => fail "Content appears to be codes/structured, not natural language" v
    | Some true => note "Natural language content detected" v
    | None => v
    end
  else v.

(** Check 3: JSON structure for VARIANT columns. *)
Definition check_structure (ai_feature : string) (st : stats) (v : verdict) : verdict :=
  if String.eqb ai_feature "Cortex Extract" then
    let json_valid :=
      match st_json_structure st with
      | Some js => js_is_valid_structure js
      | None => None
      end in
    match json_valid with
    | Some false => fail "Invalid JSON structure detected" v
    | Some true => note "Valid JSON structure confirmed" v
    | None => v
    end
  else v.

(** [candidate.get('scores', {}).get('data_readiness', 0)]. *)
Definition data_readiness_of (c : candidate) : Q :=
  match c_scores c with
  | Some s => default 0 (data_readiness s)
  | None => 0
  end.

(** Check 4: data readiness score. *)
Definition check_readiness (c : candidate) (v : verdict) : verdict :=
  let data_readiness := data_readiness_of c in
  if lt data_readiness (CONFIRM_MIN_DATA_READINESS cfg)
  then fail ("Low data readiness score (" +:+ format_fixed 2 data_readiness +:+ ")") v
  else note ("Good data readiness (" +:+ format_fixed 2 data_readiness +:+ ")") v.

(** [profile] is [None] for [None] or an empty dictionary. *)
Definition is_confirmed_candidate (c : candidate) (profile : option stats)
    : bool * list string :=
  let v := {| is_confirmed := true; reasons := [] |} in
  let st := default no_stats (c_statistics c) in
  let st :=
    match profile with
    | Some p => if stats_empty p then st else merge_stats st p
    | None => st
    end in
  let v := check_sparsity st v in
  let ai_feature := c_ai_feature c in
  let v := check_content ai_feature st v in
  let v := check_structure ai_feature st v in
  let v := check_readiness c v in
  (is_confirmed v, reasons v).

End Confirmation.

(** ** Data readiness from sampled statistics *)

Definition enhance_data_readiness_score (cand : candidate) (statistics : stats) : Q :=
  if stats_empty statistics then 1.0
  else
    let score := 0.0 in
    (* Component 1: NULL rate impact (0-2 points) *)
    let null_pct := default 100.0 (st_null_percentage statistics) in
    let score :=
      if leq null_pct 10 then score + 2.0
      else if leq null_pct 30 then score + 1.5
      else if leq null_pct 50 then score + 1.0
      else if leq null_pct 70 then score + 0.5
      else score in
    (* Component 2: content substantiality (0-2 points) *)
    let avg_length := st_avg_length statistics in
    let score :=
      match avg_length with
      | Some avg_length =>
          if geq avg_length 200 then score + 2.0
          else if geq avg_length 100 then score + 1.5
          else if geq avg_length 50 then score + 1.0
          else if gt avg_length 0 then score + 0.5
          else score
      | None => score
      end in
    (* Component 3: data efficiency (0-1 point), actual vs defined size *)
    let max_length := st_max_length statistics in
    let defined_length := c_max_length cand in
    let score :=
      match max_length, defined_length with
      | Some max_length, Some defined_length =>
          if truthyZ defined_length && (0 <? defined_length)%Z then
            let efficiency := (inject_Z max_length / inject_Z defined_length) * 100 in
            if gt efficiency 50 then score + 1.0
            else if geq efficiency 25 then score + 0.5
            else score
          else score
      | _, _ => score
      end in
    round2 score.

(** ** Classification of text columns *)

Definition text_indicators : list string :=
  ["DESCRIPTION"; "CONTENT"; "MESSAGE"; "NOTE"; "SUMMARY";
   "DETAIL"; "BODY"; "TEXT"; "COMMENT"; "FEEDBACK"; "REVIEW";
   "ABSTRACT"; "BIO"; "NARRATIVE"; "TITLE"; "SUBJECT"].

(** [any(t in dtype_upper for t in ['VARCHAR', 'TEXT', 'STRING', 'CHAR'])]. *)
Definition is_text_type (dtype_upper : string) : bool :=
  any_in ["VARCHAR"; "TEXT"; "STRING"; "CHAR"] dtype_upper.

(** [max_len and max_len >= 500], as a truth value. *)
Definition is_long_text (max_len : option Z) : bool :=
  match max_len with
  | Some n => truthyZ n && (500 <=? n)%Z
  | None => false
  end.

(** [any(ind in col_upper for ind in text_indicators)]. *)
Definition has_text_indicator (col_upper : string) : bool :=
  any_in text_indicators col_upper.

(** The dictionary appended for a flagged row. *)
Definition llm_candidate (row : column_row) (data_type : string) : candidate :=
  {| c_database := of_row (r_database row);
     c_schema := of_row (r_schema row);
     c_table := of_row (r_table row);
     c_column := of_row (r_column row);
     c_data_type := Some data_type;
     c_max_length := r_max_len row;
     c_comment := r_comment row;
     c_ai_feature := "Cortex LLM";
     c_reason :=
       "Text column (" +:+ data_type +:+ ") - "
       +:+ (if is_long_text (r_max_len row) then "long text" else "semantic name");
     c_statistics := None;
     c_scores := None;
     c_total_score := None;
     c_is_confirmed_candidate := None;
     c_confirmation_reasons := [] |}.

(** The body of the loop over [columns_data]. *)
Definition llm_step (candidates : list candidate) (row : column_row) : list candidate :=
  match r_data_type row with
  | None => candidates
  | Some data_type =>
      if negb (truthyS data_type) then candidates
      else
        let dtype_upper := upper data_type in
        let col_upper := upper (default "" (r_column row)) in
        if is_text_type dtype_upper
           && (is_long_text (r_max_len row) || has_text_indicator col_upper)
        then candidates ++ [llm_candidate row data_type]
        else candidates
  end.

Definition identify_llm_candidates (columns_data : list column_row) : list candidate :=
  fold_left llm_step columns_data [].

(** ** Scoring *)

(** A text profile of [profile_sample_text_columns]. *)
Record text_profile := {
  tp_database : option string;
  tp_schema : option string;
  tp_table : option string;
  tp_column : option string;
  tp_avg_length : Q;
  tp_non_null_count : Z;
  tp_total_rows_sampled : Z
}.

(** [candidate.get(k)] for an identity key. *)
Definition get_id (e : entry string) : option string :=
  match e with Val s => Some s | _ => None end.

Definition profile_matches (c : candidate) (p : text_profile) : bool :=
  bool_decide
    ((tp_database p, tp_schema p, tp_table p, tp_column p)
     = (get_id (c_database c), get_id (c_schema c),
        get_id (c_table c), get_id (c_column c))).

(** The loop over [text_profiles]: the first matching profile decides,
    then [break]. *)
Fixpoint readiness_from_profiles
    (c : candidate) (text_profiles : list text_profile) (data_readiness : Q) : Q :=
  match text_profiles with
  | [] => data_readiness
  | p :: rest =>
      if profile_matches c p then
        let data_readiness :=
          if gt (tp_avg_length p) 100 then 4 else data_readiness in
        if truthyZ (tp_non_null_count p) && truthyZ (tp_total_rows_sampled p) then
          let fill_rate :=
            inject_Z (tp_non_null_count p)
            / inject_Z (Z.max (tp_total_rows_sampled p) 1) in
          if gt fill_rate 0.9 then 5 else data_readiness
        else data_readiness
      else readiness_from_profiles c rest data_readiness
  end.

Definition pii_indicators : list string :=
  ["EMAIL"; "SSN"; "PHONE"; "ADDRESS"; "NAME"; "DOB"; "BIRTH"; "PASSWORD"; "SECRET"].

(** The third parameter of the source, [variant_profiles], is never read. *)
Definition score_candidate (c : candidate) (text_profiles : list text_profile) : candidate :=
  let business_potential := 3 in
  let data_readiness := 3 in
  let metadata_quality := 2 in
  let governance_risk := 2 in
  let ai_feature := c_ai_feature c in
  let business_potential :=
    if String.eqb ai_feature "Cortex LLM" then 4
    else if String.eqb ai_feature "Cortex ML (Forecasting/Anomaly)" then 5
    else if String.eqb ai_feature "Cortex Search / RAG" then 4
    else if String.eqb ai_feature "Cortex Extract" then 3
    else business_potential in
  let data_readiness := readiness_from_profiles c text_profiles data_readiness in
  let metadata_quality :=
    if truthy_opt truthyS (c_comment c) then 4 else metadata_quality in
  let col_name := upper (str_or_empty (c_column c)) in
  let table_name := upper (str_or_empty (c_table c)) in
  let governance_risk :=
    if existsb (fun ind => contains ind col_name || contains ind table_name) pii_indicators
    then 5 else governance_risk in
  let scores :=
    {| Model.business_potential := Some business_potential;
       Model.data_readiness := Some data_readiness;
       Model.metadata_quality := Some metadata_quality;
       Model.governance_risk := Some governance_risk |} in
  set_scores c scores (sum_values scores).

(** The dictionary a re-scoring pass creates when [scores] is missing. *)
Definition fallback_scores : scores :=
  {| business_potential := Some 3; data_readiness := None;
     metadata_quality := Some 2; governance_risk := Some 2 |}.

(** [cand['scores']['data_readiness'] = enhanced_score;
     cand['total_score'] = sum(cand['scores'].values())], after creating
    [scores] when it is missing. *)
Definition store_readiness (c : candidate) (enhanced_score : Q) : candidate :=
  let scores := default fallback_scores (c_scores c) in
  let scores := set_data_readiness scores enhanced_score in
  set_scores c scores (sum_values scores).

(** Phase 2E of [run_agent], for one candidate. *)
Definition rescore_metadata (c : candidate) : candidate :=
  let st := default no_stats (c_statistics c) in
  if stats_empty st then c
  else store_readiness c (Metadata.enhance_data_readiness_score_metadata c st).

(** Step 3 of [run_data_analysis_phase], for one candidate. *)
Definition rescore_sample (c : candidate) : candidate :=
  match c_statistics c with
  | Some st => store_readiness c (enhance_data_readiness_score c st)
  | None => c
  end.

(** The re-scoring of the full-scan pass, for one candidate whose exact
    statistics [st] were just computed. *)
Definition rescore_full_scan (c : candidate) (st : stats) : candidate :=
  let c := set_statistics c (Some st) in
  let enhanced_score := enhance_data_readiness_score c st in
  match c_scores c with
  | Some _ => store_readiness c enhanced_score
  | None => c
  end.

(** Phase 5B of [run_agent], for one candidate. *)
Definition flag_confirmed (cfg : config) (c : candidate) : candidate :=
  let '(b, rs) := is_confirmed_candidate cfg c None in
  set_confirmation c b rs.

(** ** Merge *)

(** [f"{c.get('database','')}.{c.get('schema','')}.{c.get('table','')}.{c.get('column','')}"]. *)
Definition candidate_key (c : candidate) : string :=
  str_or_empty (c_database c) +:+ "." +:+ str_or_empty (c_schema c) +:+ "."
  +:+ str_or_empty (c_table c) +:+ "." +:+ str_or_empty (c_column c).

(** The state of the second loop of [merge_candidates]. *)
Record merge_state := {
  m_existing : list candidate;
  m_existing_keys : gset string;
  m_added_count : nat;
  m_updated_count : nat
}.

Definition merge_step (m : merge_state) (c : candidate) : merge_state :=
  let key := candidate_key c in
  if bool_decide (key ∉ m_existing_keys m) then
    {| m_existing := m_existing m ++ [c];
       m_existing_keys := {[key]} ∪ m_existing_keys m;
       m_added_count := S (m_added_count m);
       m_updated_count := m_updated_count m |}
  else
    {| m_existing := m_existing m;
       m_existing_keys := m_existing_keys m;
       m_added_count := m_added_count m;
       m_updated_count := S (m_updated_count m) |}.

(** The first loop: the keys of the existing candidates. *)
Definition collect_keys (existing : list candidate) : gset string :=
  fold_left (fun keys c => {[candidate_key c]} ∪ keys) existing ∅.

(** The merged list, with the two counts of the printed line
    ["Merge results: <added> new, <updated> already existed"]. *)
Definition merge_candidates (existing new_candidates : list candidate)
    : list candidate * (nat * nat) :=
  let m :=
    fold_left merge_step new_candidates
      {| m_existing := existing; m_existing_keys := collect_keys existing;
         m_added_count := O; m_updated_count := O |} in
  (m_existing m, (m_added_count m, m_updated_count m)).

End Analysis.

(** * Notions used in the statements *)

Module Spec.
Import Py Model.

(** NULL-rate points of the readiness score: two for at most 10 percent,
    stepping down to none above 70 percent. *)
Definition null_rate_points (null_pct : Q) : Q :=
  if leq null_pct 10 then 2.0
  else if leq null_pct 30 then 1.5
  else if leq null_pct 50 then 1.0
  else if leq null_pct 70 then 0.5
  else 0.

(** Content points: two from an average length of 200, stepping down, a
    half for any positive length under 50. *)
Definition content_points (avg_length : option Q) : Q :=
  match avg_length with
  | Some l =>
      if geq l 200 then 2.0
      else if geq l 100 then 1.5
      else if geq l 50 then 1.0
      else if gt l 0 then 0.5
      else 0
  | None => 0
  end.

(** Quality points: one when the column has a comment and is not nullable,
    a half when exactly one of the two holds. *)
Definition quality_points (has_comment not_nullable : bool) : Q :=
  match has_comment, not_nullable with
  | true, true => 1.0
  | true, false | false, true => 0.5
  | false, false => 0
  end.

Definition has_comment (st : stats) : bool := default false (st_has_comment st).

Definition not_nullable (st : stats) : bool :=
  bool_decide (st_is_nullable st = Some "NO").

(** Efficiency points: the longest sampled value against the declared
    length of the column. *)
Definition efficiency_points (max_length defined_length : option Z) : Q :=
  match max_length, defined_length with
  | Some m, Some d =>
      if (0 <? d)%Z then
        let efficiency := inject_Z m / inject_Z d * 100 in
        if gt efficiency 50 then 1.0
        else if geq efficiency 25 then 0.5
        else 0
      else 0
  | _, _ => 0
  end.

(** The statistics [{null_percentage: 5, avg_length: 250,
    has_comment: true, is_nullable: "NO"}]. *)
Definition scenario_stats : stats :=
  {| st_row_count := None; st_data_type := None; st_is_nullable := Some "NO";
     st_has_comment := Some true; st_source := None;
     st_null_percentage := Some 5; st_non_null_count := None;
     st_max_length := None; st_avg_length := Some 250;
     st_min_length := None; st_numeric_precision := None;
     st_numeric_scale := None; st_is_semi_structured := None;
     st_sparsity := None; st_content_type := None; st_json_structure := None |}.

(** The candidate for column [DB.SCH.TBL.DESCRIPTION], a [VARCHAR] of
    declared length 2000, as the classifier creates it. *)
Definition scenario_candidate : candidate :=
  {| c_database := Val "DB"; c_schema := Val "SCH"; c_table := Val "TBL";
     c_column := Val "DESCRIPTION"; c_data_type := Some "VARCHAR";
     c_max_length := Some 2000%Z; c_comment := None;
     c_ai_feature := "Cortex LLM";
     c_reason := "Text column (VARCHAR) - long text";
     c_statistics := None; c_scores := None; c_total_score := None;
     c_is_confirmed_candidate := None; c_confirmation_reasons := [] |}.

(** ** Reading a check of the confirmation rule

    A check is a step on the verdict; started on the initial verdict it
    shows whether it passes and what it appends. *)

Definition start : Analysis.verdict :=
  {| Analysis.is_confirmed := true; Analysis.reasons := [] |}.

Definition passes (check : Analysis.verdict -> Analysis.verdict) : bool :=
  Analysis.is_confirmed (check start).

Definition said (check : Analysis.verdict -> Analysis.verdict) : list string :=
  Analysis.reasons (check start).

(** The statistics the rule evaluates: those of the candidate, overridden
    by the profile when one is passed. *)
Definition effective_stats (c : candidate) (profile : option stats) : stats :=
  let st := default no_stats (c_statistics c) in
  match profile with
  | Some p => if stats_empty p then st else Analysis.merge_stats st p
  | None => st
  end.

(** A check only ever lowers the verdict and appends to the reasons. *)
Definition accumulates (check : Analysis.verdict -> Analysis.verdict) : Prop :=
  forall v, check v =
    {| Analysis.is_confirmed := Analysis.is_confirmed v && passes check;
       Analysis.reasons := (Analysis.reasons v ++ said check)%list |}.

(** [stats.get('content_type', {}).get('is_natural_language')]. *)
Definition natural_language_flag (st : stats) : option bool :=
  match st_content_type st with
  | Some ct => ct_is_natural_language ct
  | None => None
  end.

(** [stats.get('json_structure', {}).get('is_valid_structure')]. *)
Definition valid_structure_flag (st : stats) : option bool :=
  match st_json_structure st with
  | Some js => js_is_valid_structure js
  | None => None
  end.

(** Statistics with a NULL percentage of exactly 50, and a candidate that
    carries them with a readiness score of 4. *)
Definition boundary_stats : stats :=
  {| st_row_count := Some 1000%Z; st_data_type := Some "VARCHAR";
     st_is_nullable := Some "YES"; st_has_comment := Some true;
     st_source := Some "sample"; st_null_percentage := Some 50.0;
     st_non_null_count := Some 500%Z; st_max_length := Some 900%Z;
     st_avg_length := Some 250; st_min_length := Some 0%Z;
     st_numeric_precision := None; st_numeric_scale := None;
     st_is_semi_structured := None; st_sparsity := None;
     st_content_type := None; st_json_structure := None |}.

Definition boundary_candidate : candidate :=
  {| c_database := Val "DB"; c_schema := Val "SCH"; c_table := Val "TBL";
     c_column := Val "DESCRIPTION"; c_data_type := Some "VARCHAR";
     c_max_length := Some 2000%Z; c_comment := None;
     c_ai_feature := "Cortex LLM";
     c_reason := "Text column (VARCHAR) - long text";
     c_statistics := Some boundary_stats;
     c_scores :=
       Some {| business_potential := Some 4; data_readiness := Some 4;
               metadata_quality := Some 2; governance_risk := Some 2 |};
     c_total_score := Some 12;
     c_is_confirmed_candidate := None; c_confirmation_reasons := [] |}.

(** The check of content quality applies to these features. *)
Definition text_feature (ai_feature : string) : bool :=
  mem ai_feature ["Cortex LLM"; "Cortex Search / RAG"].

(** One reason for a statistic that is there, none for a missing one. *)
Definition one_if (b : bool) : nat := if b then 1%nat else 0%nat.

(** A candidate that the LLM classifier flagged, with a good readiness
    score and statistics that lack every length and content entry. *)
Definition lengthless_stats : stats :=
  {| st_row_count := Some 1000%Z; st_data_type := Some "VARCHAR";
     st_is_nullable := Some "YES"; st_has_comment := Some true;
     st_source := Some "sample"; st_null_percentage := Some 5;
     st_non_null_count := Some 950%Z; st_max_length := None;
     st_avg_length := None; st_min_length := None;
     st_numeric_precision := None; st_numeric_scale := None;
     st_is_semi_structured := None; st_sparsity := None;
     st_content_type := None; st_json_structure := None |}.

Definition lengthless_candidate : candidate :=
  {| c_database := Val "DB"; c_schema := Val "SCH"; c_table := Val "TBL";
     c_column := Val "DESCRIPTION"; c_data_type := Some "VARCHAR";
     c_max_length := Some 2000%Z; c_comment := None;
     c_ai_feature := "Cortex LLM";
     c_reason := "Text column (VARCHAR) - long text";
     c_statistics := Some lengthless_stats;
     c_scores :=
       Some {| business_potential := Some 4; data_readiness := Some 4;
               metadata_quality := Some 2; governance_risk := Some 2 |};
     c_total_score := Some 12;
     c_is_confirmed_candidate := None; c_confirmation_reasons := [] |}.

(** ** Metadata-estimated statistics *)

(** The column counts as a text column. *)
Definition text_column (cm : column_meta) : bool :=
  Metadata.is_text_base (strip (split_paren_head (upper (cm_data_type cm)))).

(** A [VARCHAR] column whose catalogue entry declares the length [len]. *)
Definition varchar_column (len : option Z) : column_meta :=
  {| column_name := Some "DESCRIPTION"; cm_data_type := "VARCHAR";
     character_maximum_length := len; cm_numeric_precision := None;
     cm_numeric_scale := None; cm_is_nullable := Some "YES";
     column_comment := "" |}.

(** ** Freshness *)

(** The table was last altered at the datetime [d]: the entry is that
    datetime, or a non-empty string that parses to it. *)
Inductive altered_at (fromisoformat : string -> option datetime)
    (tm : table_meta) (d : datetime) : Prop :=
| altered_datetime :
    last_altered tm = LA_datetime d -> altered_at fromisoformat tm d
| altered_string (s : string) :
    last_altered tm = LA_str s -> s <> "" ->
    fromisoformat (Metadata.replace_Z s) = Some d ->
    altered_at fromisoformat tm d.

(** The entry is missing, empty or does not parse. *)
Definition unknown_altered (fromisoformat : string -> option datetime)
    (tm : table_meta) : Prop :=
  last_altered tm = LA_none
  \/ last_altered tm = LA_str ""
  \/ exists s, last_altered tm = LA_str s
               /\ fromisoformat (Metadata.replace_Z s) = None.

(** A naive datetime [k] days before [now_us]. *)
Definition days_ago (now_us k : Z) : datetime :=
  {| wall_us := (now_us - k * Metadata.us_per_day)%Z; utcoffset_us := None |}.

Definition altered_table (la : last_altered_value) : table_meta :=
  {| table_comment := ""; last_altered := la; clustering_key := "";
     tm_row_count := None |}.

(** ** Table readiness *)

(** A number with at most two decimal places. *)
Definition hundredths (x : Q) : Prop := exists n : Z, x * 100 == inject_Z n.


Definition in_percent_range (x : Q) : Prop := 0 <= x /\ x <= 100.

(** A table of seven [VARCHAR] columns of which one is commented, with no
    table entry, constraints or storage metrics. *)
Definition plain_column (comment : string) : column_meta :=
  {| column_name := Some "C"; cm_data_type := "VARCHAR";
     character_maximum_length := Some 100%Z; cm_numeric_precision := None;
     cm_numeric_scale := None; cm_is_nullable := Some "YES";
     column_comment := comment |}.

Definition seven_columns : list column_meta :=
  plain_column "order note" :: repeat (plain_column "") 6.

Definition orders_key : Metadata.table_key := ("DB", "SCH", "ORDERS").


(** What every dimension scorer returns: a percentage with at most two
    decimal places. *)
Definition scorer_ok (x : Q) : Prop := in_percent_range x /\ hundredths x.

(** ** The LLM classifier *)

(** [sub] occurs in [s]. *)
Definition substring_of (sub s : string) : Prop :=
  exists pre post, s = pre +:+ sub +:+ post.

(** The declared type is textual: its upper-cased name contains
    [VARCHAR], [TEXT], [STRING] or [CHAR]. *)
Definition textual_type (data_type : string) : Prop :=
  exists t, In t ["VARCHAR"; "TEXT"; "STRING"; "CHAR"]
            /\ substring_of t (upper data_type).

(** The declared maximal length is at least 500. *)
Definition long_declared (row : column_row) : Prop :=
  exists n, r_max_len row = Some n /\ (500 <= n)%Z.

(** The column name contains one of the text indicators, whatever its case. *)
Definition indicator_name (row : column_row) : Prop :=
  exists ind, In ind Analysis.text_indicators
              /\ substring_of ind (upper (default "" (r_column row))).

(** The classifier flags the row. *)
Definition llm_flagged (row : column_row) (data_type : string) : Prop :=
  r_data_type row = Some data_type
  /\ textual_type data_type
  /\ (long_declared row \/ indicator_name row).

(** The catalogue row of column [DB.SCH.TBL.DESCRIPTION]. *)
Definition description_row : column_row :=
  {| r_database := Some "DB"; r_schema := Some "SCH"; r_table := Some "TBL";
     r_column := Some "DESCRIPTION"; r_ordinal := Some 1%Z;
     r_data_type := Some "VARCHAR"; r_max_len := Some 2000%Z;
     r_numeric_precision := None; r_numeric_scale := None;
     r_is_nullable := Some "YES"; r_comment := None |}.

(** ** Merge *)

(** The candidates of [new] that a merge appends: those whose key is
    neither in [seen] nor the key of an earlier candidate of [new]. *)
Fixpoint fresh (seen : list string) (new : list candidate) : list candidate :=
  match new with
  | [] => []
  | c :: rest =>
      if bool_decide (Analysis.candidate_key c ∈ seen) then fresh seen rest
      else c :: fresh (Analysis.candidate_key c :: seen) rest
  end.

Definition keys_of (cs : list candidate) : list string :=
  List.map Analysis.candidate_key cs.

(** A column candidate [A.B.C.<column>]. *)
Definition column_candidate (column : string) : candidate :=
  {| c_database := Val "A"; c_schema := Val "B"; c_table := Val "C";
     c_column := Val column; c_data_type := Some "VARCHAR";
     c_max_length := Some 1000%Z; c_comment := None;
     c_ai_feature := "Cortex LLM";
     c_reason := "Text column (VARCHAR) - long text";
     c_statistics := None; c_scores := None; c_total_score := None;
     c_is_confirmed_candidate := None; c_confirmation_reasons := [] |}.

(** ** The life of a candidate *)

(** The candidates the pipeline can hold: a classified candidate has no
    scores and no total; every pass that touches a candidate is one of
    the steps below. *)
Inductive reachable : candidate -> Prop :=
| reach_classified (c : candidate) :
    c_scores c = None -> c_total_score c = None -> reachable c
| reach_score (c : candidate) (text_profiles : list Analysis.text_profile) :
    reachable c -> reachable (Analysis.score_candidate c text_profiles)
| reach_rescore_metadata (c : candidate) :
    reachable c -> reachable (Analysis.rescore_metadata c)
| reach_rescore_sample (c : candidate) :
    reachable c -> reachable (Analysis.rescore_sample c)
| reach_rescore_full_scan (c : candidate) (st : stats) :
    reachable c -> reachable (Analysis.rescore_full_scan c st)
| reach_statistics (c : candidate) (st : option stats) :
    reachable c -> reachable (set_statistics c st)
| reach_confirmation (cfg : Analysis.config) (c : candidate) :
    reachable c -> reachable (Analysis.flag_confirmed cfg c).

(** A score on the scale from 0 to 5. *)
Definition on_scale (q : Q) : Prop := 0 <= q /\ q <= 5.

(** The four dimensions are there and on the scale. *)
Definition scores_complete (s : scores) : Prop :=
  exists bp dr mq gr,
    s = {| business_potential := Some bp; data_readiness := Some dr;
           metadata_quality := Some mq; governance_risk := Some gr |}
    /\ on_scale bp /\ on_scale dr /\ on_scale mq /\ on_scale gr.

(** The total is there exactly when the scores are, and is their sum. *)
Definition scores_consistent (c : candidate) : Prop :=
  match c_scores c with
  | Some s => scores_complete s /\ c_total_score c = Some (sum_values s)
  | None => c_total_score c = None
  end.

End Spec.

(** * Stage gating, identifiers, database filters and profile classes *)

Module Stages.
Import Py.

(** Valid stages for the start-stage option, in execution order. *)
Definition VALID_STAGES : list string :=
  ["1"; "2"; "2A"; "2B"; "2C"; "2D"; "2E"; "2F"; "3"; "4"; "5"; "5B"; "6"].

(** [{stage: idx for idx, stage in enumerate(VALID_STAGES)}]. *)
Definition STAGE_ORDER : gmap string nat :=
  list_to_map (imap (fun idx stage => (stage, idx)) VALID_STAGES).

(** [STAGE_ORDER.get(stage, 0)]. *)
Definition stage_index (stage : string) : nat := default O (STAGE_ORDER !! stage).

(** [start_stage] is [None] when the option is not given. *)
Definition should_run_stage (current_stage : string) (start_stage : option string) : bool :=
  match start_stage with
  | None => true
  | Some start_stage =>
      if negb (truthyS start_stage) then true
      else
        let start_stage := upper start_stage in
        let current_stage := upper current_stage in
        (stage_index start_stage <=? stage_index current_stage)%nat
  end.

End Stages.

Module Identifiers.
Import Py.

(** What a call gives back: a value, or the message of the [ValueError] it
    raises. *)
Inductive outcome (A : Type) : Type :=
| Returned (a : A)
| Raised (message : string).
Arguments Returned {A} a.
Arguments Raised {A} message.

(** The character class [[A-Za-z0-9_$]]. *)
Definition identifier_char (c : ascii) : bool :=
  let n := nat_of_ascii c in
  ((65 <=? n) && (n <=? 90) || (97 <=? n) && (n <=? 122)
   || (48 <=? n) && (n <=? 57) || (n =? 95) || (n =? 36))%nat.

Definition newline : ascii := ascii_of_nat 10.

(** What is left of [s] after the longest run of class characters. *)
Fixpoint after_class_run (s : string) : string :=
  match s with
  | EmptyString => EmptyString
  | String c s' => if identifier_char c then after_class_run s' else s
  end.

(** [re.match(r'^[A-Za-z0-9_$]+$', s)]: at least one class character, then
    the end of the string; [$] also matches before a newline that ends the
    string. *)
Definition match_identifier (s : string) : bool :=
  match s with
  | EmptyString => false
  | String c _ =>
      identifier_char c
      && (let rest := after_class_run s in
          String.eqb rest "" || String.eqb rest (String newline ""))
  end.

Definition validate_snowflake_identifier (identifier name : string) : outcome string :=
  if negb (match_identifier identifier)
  then Raised ("Invalid " +:+ name +:+ ": " +:+ identifier)
  else Returned identifier.

End Identifiers.

Module Filters.
Import Py.

(** The two module-level lists of the database filter. *)
Record database_filter := {
  TARGET_DATABASES : list string;
  EXCLUDE_DATABASES : list string
}.

(** The defaults of [get_config_value]. *)
Definition default_filter : database_filter :=
  {| TARGET_DATABASES := [];
     EXCLUDE_DATABASES := ["SNOWFLAKE"; "SNOWFLAKE_SAMPLE_DATA"] |}.

Section Filter.

Variable f : database_filter.

Definition should_include_database (db_name : option string) : bool :=
  match db_name with
  | None => false
  | Some db_name =>
      if negb (truthyS db_name) then false
      else
        let db_upper := upper db_name in
        match TARGET_DATABASES f with
        | _ :: _ =>
            let target_upper := List.map upper (TARGET_DATABASES f) in
            mem db_upper target_upper
        | [] =>
            match EXCLUDE_DATABASES f with
            | _ :: _ =>
                let exclude_upper := List.map upper (EXCLUDE_DATABASES f) in
                if mem db_upper exclude_upper then false else true
            | [] => true
            end
        end
  end.

(** The rows of a query result and the entry [row[db_index]] of a row. *)
Variable Row : Type.
Variable db_of : Row -> option string.

Definition filter_by_database (rows : list Row) : list Row :=
  match TARGET_DATABASES f, EXCLUDE_DATABASES f with
  | [], [] => rows
  | _, _ => List.filter (fun row => should_include_database (db_of row)) rows
  end.

End Filter.

End Filters.

Module Profiling.
Import Py.

(** The profiling thresholds of the module. *)
Record profiling_config := {
  PROFILING_SPARSITY_LOW : Q;
  PROFILING_SPARSITY_MEDIUM : Q;
  PROFILING_SPARSITY_HIGH : Q;
  PROFILING_CARDINALITY_LOW : Q;
  PROFILING_CARDINALITY_HIGH : Q;
  PROFILING_MIN_MEANINGFUL_LENGTH : Q;
  PROFILING_MIN_RICH_LENGTH : Q
}.

(** The defaults of [get_config_value]. *)
Definition default_profiling : profiling_config :=
  {| PROFILING_SPARSITY_LOW := 10;
     PROFILING_SPARSITY_MEDIUM := 30;
     PROFILING_SPARSITY_HIGH := 70;
     PROFILING_CARDINALITY_LOW := 0.01;
     PROFILING_CARDINALITY_HIGH := 0.90;
     PROFILING_MIN_MEANINGFUL_LENGTH := 50;
     PROFILING_MIN_RICH_LENGTH := 200 |}.

Section Classes.

Variable cfg : profiling_config.

Definition classify_sparsity (null_percentage : option Q) : string :=
  match null_percentage with
  | None => "unknown"
  | Some null_percentage =>
      if leq null_percentage (PROFILING_SPARSITY_LOW cfg) then "low"
      else if leq null_percentage (PROFILING_SPARSITY_MEDIUM cfg) then "medium"
      else if leq null_percentage (PROFILING_SPARSITY_HIGH cfg) then "high"
      else "very_high"
  end.

Definition classify_cardinality (unique_ratio : option Q) : string :=
  match unique_ratio with
  | None => "unknown"
  | Some unique_ratio =>
      if leq unique_ratio (PROFILING_CARDINALITY_LOW cfg) then "low"
      else if geq unique_ratio (PROFILING_CARDINALITY_HIGH cfg) then "high"
      else "medium"
  end.

(** The dictionary returned by [classify_content_type]. *)
Record content_class_result := {
  content_class : string;
  is_natural_language : bool;
  is_structured : bool
}.

(** The second parameter of the source, [sample_values], is never read. *)
Definition classify_content_type (avg_length : option Q) : content_class_result :=
  let result :=
    {| content_class := "unknown"; is_natural_language := false;
       is_structured := false |} in
  match avg_length with
  | None => result
  | Some avg_length =>
      if lt avg_length 10 then
        {| content_class := "code"; is_natural_language := is_natural_language result;
           is_structured := true |}
      else if lt avg_length (PROFILING_MIN_MEANINGFUL_LENGTH cfg) then
        {| content_class := "short_text";
           is_natural_language := is_natural_language result;
           is_structured := is_structured result |}
      else if lt avg_length (PROFILING_MIN_RICH_LENGTH cfg) then
        {| content_class := "meaningful_text"; is_natural_language := true;
           is_structured := is_structured result |}
      else
        {| content_class := "rich_content"; is_natural_language := true;
           is_structured := is_structured result |}
  end.

End Classes.

End Profiling.

(** * The other classifiers, the ranking and the candidate flow *)

Module PyList.
Import Py.

Section Sorted.

Variable A : Type.
Variable key : A -> Q.

(** [sorted(l, key=key, reverse=True)] and [l.sort(key=key, reverse=True)]:
    descending, and stable, so that elements of equal key keep their
    order. *)
Fixpoint insert_desc (x : A) (l : list A) : list A :=
  match l with
  | [] => [x]
  | y :: rest => if lt (key x) (key y) then y :: insert_desc x rest else x :: l
  end.

Definition sorted_desc (l : list A) : list A := foldr insert_desc [] l.

End Sorted.

Arguments insert_desc {A} key x l.
Arguments sorted_desc {A} key l.

(** [l[:n]]: a negative [n] counts from the end. *)
Definition slice_to {A : Type} (n : Z) (l : list A) : list A :=
  if (0 <=? n)%Z then take (Z.to_nat n) l
  else take (Z.to_nat (Z.of_nat (List.length l) + n)) l.

End PyList.

Module Classify.
Import Py PyList Model Analysis.

(** A dictionary of [all_candidates]: the keys of a candidate, and for a
    table-level candidate the list under [numeric_columns] or
    [text_columns]. *)
Record any_candidate := {
  common : candidate;
  numeric_columns : option (list (option string));
  text_columns : option (list (option string))
}.

(** A column-level candidate has neither list. *)
Definition column_level (c : candidate) : any_candidate :=
  {| common := c; numeric_columns := None; text_columns := None |}.

(** An update of the candidate keys leaves the lists alone. *)
Definition on_common (f : candidate -> candidate) (a : any_candidate) : any_candidate :=
  {| common := f (common a); numeric_columns := numeric_columns a;
     text_columns := text_columns a |}.

(** ** Cortex Extract *)

(** The dictionary appended for a flagged row; it has no [max_length]. *)
Definition variant_candidate (row : column_row) (data_type : string) : candidate :=
  {| c_database := of_row (r_database row);
     c_schema := of_row (r_schema row);
     c_table := of_row (r_table row);
     c_column := of_row (r_column row);
     c_data_type := Some data_type;
     c_max_length := None;
     c_comment := r_comment row;
     c_ai_feature := "Cortex Extract";
     c_reason := "Semi-structured " +:+ data_type +:+ " column";
     c_statistics := None;
     c_scores := None;
     c_total_score := None;
     c_is_confirmed_candidate := None;
     c_confirmation_reasons := [] |}.

(** The body of the loop over [columns_data]. *)
Definition variant_step (candidates : list candidate) (row : column_row) : list candidate :=
  match r_data_type row with
  | None => candidates
  | Some data_type =>
      if truthyS data_type && mem (upper data_type) ["VARIANT"; "OBJECT"; "ARRAY"]
      then (candidates ++ [variant_candidate row data_type])%list
      else candidates
  end.

Definition identify_variant_candidates (columns_data : list column_row) : list candidate :=
  fold_left variant_step columns_data [].

(** ** Grouping by table *)

(** The key [(db, schema, table)] of a row. *)
Definition table_id : Type := option string * option string * option string.

Definition row_table (row : column_row) : table_id :=
  (r_database row, r_schema row, r_table row).

(** [d[key].append(v)] on a [defaultdict(list)]; the dictionary keeps its
    keys in the order of their first insertion. *)
Fixpoint group_append {V : Type} (key : table_id) (v : V)
    (d : list (table_id * list V)) : list (table_id * list V) :=
  match d with
  | [] => [(key, [v])]
  | (k, vs) :: rest =>
      if bool_decide (k = key) then (k, (vs ++ [v])%list) :: rest
      else (k, vs) :: group_append key v rest
  end.

(** A table-level candidate: no [column], [data_type], [max_length] or
    [comment]. *)
Definition table_level (key : table_id) (ai_feature reason : string) : candidate :=
  {| c_database := of_row key.1.1;
     c_schema := of_row key.1.2;
     c_table := of_row key.2;
     c_column := Absent;
     c_data_type := None;
     c_max_length := None;
     c_comment := None;
     c_ai_feature := ai_feature;
     c_reason := reason;
     c_statistics := None;
     c_scores := None;
     c_total_score := None;
     c_is_confirmed_candidate := None;
     c_confirmation_reasons := [] |}.

(** ** Cortex ML *)

(** The first loop: [(col_name, data_type or "")] under the table's key. *)
Definition ml_collect (table_columns : list (table_id * list (option string * string)))
    (row : column_row) : list (table_id * list (option string * string)) :=
  let data_type :=
    match r_data_type row with
    | Some data_type => if truthyS data_type then data_type else ""
    | None => ""
    end in
  group_append (row_table row) (r_column row, data_type) table_columns.

(** ['TIMESTAMP' in dtype.upper() or 'DATE' in dtype.upper()]. *)
Definition is_temporal (dtype : string) : bool :=
  contains "TIMESTAMP" (upper dtype) || contains "DATE" (upper dtype).

(** [any(t in dtype.upper() for t in [...])]. *)
Definition is_numeric_type (dtype : string) : bool :=
  any_in ["NUMBER"; "FLOAT"; "DECIMAL"; "INTEGER"; "DOUBLE"] (upper dtype).

Definition has_timestamp (cols : list (option string * string)) : bool :=
  existsb (fun col => is_temporal col.2) (List.filter (fun col => truthyS col.2) cols).

Definition num_cols (cols : list (option string * string)) : list (option string * string) :=
  List.filter (fun col => truthyS col.2 && is_numeric_type col.2) cols.

Definition ml_candidate (key : table_id) (num_cols : list (option string * string))
    : any_candidate :=
  {| common :=
       table_level key "Cortex ML (Forecasting/Anomaly)"
         ("Has timestamp + " +:+ pretty (List.length num_cols) +:+ " numeric columns");
     numeric_columns := Some (List.map fst (take 5 num_cols));
     text_columns := None |}.

(** The body of the loop over [table_columns.items()]. *)
Definition ml_step (candidates : list any_candidate)
    (item : table_id * list (option string * string)) : list any_candidate :=
  let '(key, cols) := item in
  let num_cols := num_cols cols in
  if has_timestamp cols && (1 <=? List.length num_cols)%nat
  then (candidates ++ [ml_candidate key num_cols])%list
  else candidates.

Definition identify_ml_candidates (columns_data : list column_row) : list any_candidate :=
  let table_columns := fold_left ml_collect columns_data [] in
  fold_left ml_step table_columns [].

(** ** Cortex Search *)

(** The first loop: [(col_name, max_len or 0)] under the table's key, for
    the rows of a text type. *)
Definition search_collect (table_text_cols : list (table_id * list (option string * Z)))
    (row : column_row) : list (table_id * list (option string * Z)) :=
  match r_data_type row with
  | None => table_text_cols
  | Some data_type =>
      if truthyS data_type && any_in ["VARCHAR"; "TEXT"; "STRING"] (upper data_type)
      then
        let max_len :=
          match r_max_len row with
          | Some n => if truthyZ n then n else 0%Z
          | None => 0%Z
          end in
        group_append (row_table row) (r_column row, max_len) table_text_cols
      else table_text_cols
  end.

(** [[c for c, length in text_cols if length >= 200]]. *)
Definition long_text (text_cols : list (option string * Z)) : list (option string) :=
  List.map fst (List.filter (fun col => (200 <=? col.2)%Z) text_cols).

Definition search_candidate (key : table_id) (long_text : list (option string))
    : any_candidate :=
  {| common :=
       table_level key "Cortex Search / RAG"
         (pretty (List.length long_text) +:+ " substantial text columns");
     numeric_columns := None;
     text_columns := Some (take 5 long_text) |}.

(** The body of the loop over [table_text_cols.items()]. *)
Definition search_step (candidates : list any_candidate)
    (item : table_id * list (option string * Z)) : list any_candidate :=
  let '(key, text_cols) := item in
  let long_text := long_text text_cols in
  if (2 <=? List.length long_text)%nat
  then (candidates ++ [search_candidate key long_text])%list
  else candidates.

Definition identify_search_candidates (columns_data : list column_row)
    : list any_candidate :=
  let table_text_cols := fold_left search_collect columns_data [] in
  fold_left search_step table_text_cols [].

(** ** The candidate list of a run *)

(** [llm_candidates + variant_candidates + ml_candidates + search_candidates]
    of Phase 2. *)
Definition all_candidates (columns : list column_row) : list any_candidate :=
  (List.map column_level (identify_llm_candidates columns)
   ++ List.map column_level (identify_variant_candidates columns)
   ++ identify_ml_candidates columns
   ++ identify_search_candidates columns)%list.

(** The four lists that a run restores from a saved candidate list when it
    skips Phase 2. *)
Record restored := {
  llm_candidates : list any_candidate;
  variant_candidates : list any_candidate;
  ml_candidates : list any_candidate;
  search_candidates : list any_candidate
}.

(** [[c for c in all_candidates if c.get('ai_feature') == label]]. *)
Definition with_feature (label : string) (all_candidates : list any_candidate)
    : list any_candidate :=
  List.filter (fun c => String.eqb (c_ai_feature (common c)) label) all_candidates.

Definition restore_lists (all_candidates : list any_candidate) : restored :=
  {| llm_candidates := with_feature "Cortex LLM" all_candidates;
     variant_candidates := with_feature "Cortex Extract" all_candidates;
     ml_candidates := with_feature "Cortex ML" all_candidates;
     search_candidates := with_feature "Cortex Search / RAG" all_candidates |}.

(** ** Ranking *)

(** ['total_score' in cand and
     all(k in cand for k in ['database', 'schema', 'table', 'column'])]. *)
Definition has_key {A : Type} (e : entry A) : bool :=
  match e with Absent => false | _ => true end.

Definition is_scorable (a : any_candidate) : bool :=
  let cand := common a in
  bool_decide (is_Some (c_total_score cand))
  && (has_key (c_database cand) && has_key (c_schema cand)
      && has_key (c_table cand) && has_key (c_column cand)).

(** [x.get('total_score', 0)]. *)
Definition sort_key (a : any_candidate) : Q := default 0 (c_total_score (common a)).

Definition identify_top_candidates (candidates : list any_candidate) (top_n : Z)
    : list any_candidate :=
  let scorable := List.filter is_scorable candidates in
  let sorted_candidates := sorted_desc sort_key scorable in
  slice_to top_n sorted_candidates.

End Classify.

(** * The candidate flow of [run_agent] *)

Module Pipeline.
Import Py PyList Model Analysis Classify.

Section Phase2B.

(** The lookups of [run_metadata_analysis]. *)
Variable meta_table_lookup : gmap Metadata.table_key table_meta.
Variable meta_column_lookup : gmap Metadata.table_key (list column_meta).

(** [(candidate.get('database'), candidate.get('schema'),
     candidate.get('table'))] as a key of the lookups, whose keys are
    triples of strings: a missing or [None] part matches no key. *)
Definition candidate_table_key (cand : candidate) : option Metadata.table_key :=
  match get_id (c_database cand), get_id (c_schema cand),
        get_id (c_table cand) with
  | Some db, Some schema, Some table => Some (db, schema, table)
  | _, _, _ => None
  end.

(** [candidate.get('column', '')]. *)
Definition col_name_of (cand : candidate) : option string :=
  match c_column cand with
  | Absent => Some ""
  | PyNone => None
  | Val s => Some s
  end.

(** [next((c for c in cols_meta if c.get('column_name') == col_name), {})];
    [None] stands for the empty dictionary. *)
Definition find_column (cols_meta : list column_meta) (col_name : option string)
    : option column_meta :=
  List.find (fun c => bool_decide (column_name c = col_name)) cols_meta.

(** [{'source': 'metadata_only', 'row_count': 0}]. *)
Definition default_statistics : stats :=
  {| st_row_count := Some 0%Z; st_data_type := None; st_is_nullable := None;
     st_has_comment := None; st_source := Some "metadata_only";
     st_null_percentage := None; st_non_null_count := None;
     st_max_length := None; st_avg_length := None; st_min_length := None;
     st_numeric_precision := None; st_numeric_scale := None;
     st_is_semi_structured := None; st_sparsity := None;
     st_content_type := None; st_json_structure := None |}.

(** The statistics that Phase 2B stores in a candidate. *)
Definition metadata_statistics (cand : candidate) : stats :=
  let table_key := candidate_table_key cand in
  let table_meta := default no_table_meta (table_key ≫= (meta_table_lookup !!.)) in
  let cols_meta := default [] (table_key ≫= (meta_column_lookup !!.)) in
  let col_name := col_name_of cand in
  match find_column cols_meta col_name with
  | Some col_meta => Metadata.compute_column_metadata_stats col_meta table_meta
  | None => default_statistics
  end.

(** Phase 2B, for one candidate. *)
Definition analyze_metadata (cand : candidate) : candidate :=
  set_statistics cand (Some (metadata_statistics cand)).

End Phase2B.

(** ** Phase 4: text profiles from metadata *)

(** A row of [find_text_rich_columns]:
    [(database, schema, table, column, data_type, max_length, comment)]. *)
Record text_rich_row := {
  tr_database : option string;
  tr_schema : option string;
  tr_table : option string;
  tr_column : option string;
  tr_data_type : option string;
  tr_max_len : option Z;
  tr_comment : option string
}.

(** [f"{db}.{schema}.{table}"]. *)
Definition profile_table_key (row : text_rich_row) : string :=
  str_or_empty (of_row (tr_database row)) +:+ "."
  +:+ str_or_empty (of_row (tr_schema row)) +:+ "."
  +:+ str_or_empty (of_row (tr_table row)).

(** [min((max_len or 1000) * 0.3, 5000) if max_len else 100.0]. *)
Definition estimated_avg (max_len : option Z) : Q :=
  match max_len with
  | Some n =>
      if truthyZ n
      then Py.min (inject_Z (if truthyZ n then n else 1000%Z) * 0.3) 5000
      else 100.0
  | None => 100.0
  end.

(** The profile appended for a row; its counts are zero, as nothing is
    sampled. *)
Definition metadata_profile (row : text_rich_row) : text_profile :=
  {| tp_database := tr_database row;
     tp_schema := tr_schema row;
     tp_table := tr_table row;
     tp_column := tr_column row;
     tp_avg_length := round2 (estimated_avg (tr_max_len row));
     tp_non_null_count := 0%Z;
     tp_total_rows_sampled := 0%Z |}.

(** The body of the loop over [text_rich_columns[:15]], on
    [(seen_tables, text_profiles)]. *)
Definition profile_step (state : gset string * list text_profile) (row : text_rich_row)
    : gset string * list text_profile :=
  let '(seen_tables, text_profiles) := state in
  let table_key := profile_table_key row in
  if bool_decide (table_key ∉ seen_tables)
  then ({[table_key]} ∪ seen_tables, (text_profiles ++ [metadata_profile row])%list)
  else state.

Definition metadata_text_profiles (text_rich_columns : list text_rich_row)
    : list text_profile :=
  (fold_left profile_step (slice_to 15 text_rich_columns) (∅, [])).2.

(** ** The flow of one candidate *)

(** Phases 2B, 2E, 5 and 5B of a run, for one candidate; [selected] tells
    whether the candidate is one of the top candidates, which Phase 2E
    re-scores in place. *)
Definition analyze_score_confirm
    (meta_table_lookup : gmap Metadata.table_key table_meta)
    (meta_column_lookup : gmap Metadata.table_key (list column_meta))
    (text_profiles : list text_profile) (cfg : config) (selected : bool)
    (cand : candidate) : candidate :=
  let cand := analyze_metadata meta_table_lookup meta_column_lookup cand in
  let cand := if selected then rescore_metadata cand else cand in
  let cand := score_candidate cand text_profiles in
  flag_confirmed cfg cand.


End Pipeline.

(** * Scores of all tables and their summary *)

Module MetadataAnalysis.
Import Py PyList Model Metadata.

Section AllScores.

Variable fromisoformat : string -> option datetime.
Variable now_us : Z.

(** The order in which a [for] loop visits a set; Python leaves it open. *)
Variable iteration : gset table_key -> list table_key.

Definition compute_all_readiness_scores
    (table_lookup : gmap table_key table_meta)
    (column_lookup : gmap table_key (list column_meta))
    (constraints_lookup : gmap table_key (list constraint_meta))
    (storage_lookup : gmap table_key storage_meta) : list readiness_score :=
  let all_table_keys : gset table_key := dom table_lookup ∪ dom column_lookup in
  let results :=
    List.map
      (fun table_key =>
         compute_table_readiness_score fromisoformat now_us table_key
           table_lookup column_lookup constraints_lookup storage_lookup)
      (iteration all_table_keys) in
  sorted_desc rs_total_score results.

End AllScores.

(** The [summary] dictionary of [run_metadata_analysis]. *)
Record summary := {
  total_tables : nat;
  average_score : Q;
  high_readiness_count : nat;
  medium_readiness_count : nat;
  low_readiness_count : nat;
  total_columns_analyzed : nat;
  total_constraints_found : nat;
  queries_executed : nat
}.

(** [sum(s['total_score'] for s in table_scores)]. *)
Definition sum_scores (table_scores : list readiness_score) : Q :=
  fold_left (fun acc s => acc + rs_total_score s) table_scores 0.

(** Step 4 of [run_metadata_analysis]: the summary of the scores, with the
    numbers of column and constraint rows fetched. *)
Definition summarize (table_scores : list readiness_score)
    (columns_rows constraints_rows : nat) : summary :=
  let '(avg_score, high_readiness, medium_readiness, low_readiness) :=
    match table_scores with
    | _ :: _ =>
        (sum_scores table_scores / of_nat (List.length table_scores),
         List.length (List.filter (fun s => geq (rs_total_score s) 70) table_scores),
         List.length
           (List.filter (fun s => leq 40 (rs_total_score s) && lt (rs_total_score s) 70)
              table_scores),
         List.length (List.filter (fun s => lt (rs_total_score s) 40) table_scores))
    | [] => (0, O, O, O)
    end in
  {| total_tables := List.length table_scores;
     average_score := round2 avg_score;
     high_readiness_count := high_readiness;
     medium_readiness_count := medium_readiness;
     low_readiness_count := low_readiness;
     total_columns_analyzed := columns_rows;
     total_constraints_found := constraints_rows;
     queries_executed := 4 |}.

End MetadataAnalysis.

(** * Adaptive sampling *)

Module Sampling.
Import Py Identifiers.

(** The row of the sampling query: the two counts and the six aggregates,
    each of which is [None] for SQL NULL. *)
Record sample_row := {
  res_row_count : Z;
  res_non_null_count : Z;
  res_max : option Q;
  res_min : option Q;
  res_avg : option Q;
  res_median : option Q;
  res_p95 : option Q;
  res_stddev : option Q
}.

(** What one sampling attempt does: the timeout statement or the query
    raises, [fetchone()] gives no row, or it gives the row. *)
Inductive attempt : Type :=
| Raises (error : string)
| NoRow
| Row (result : sample_row).

(** The statistics dictionary: its keys are [max_value], ... for a numeric
    column and [max_length], ... for any other. *)
Record sample_statistics := {
  is_numeric_stats : bool;
  row_count : Z;
  non_null_count : Z;
  null_percentage : Q;
  max_ : option Q;
  min_ : option Q;
  avg_ : option Q;
  median_ : option Q;
  p95_ : option Q;
  stddev_ : option Q
}.

(** [(success, statistics, sample_size, error_msg)]. *)
Inductive sample_outcome : Type :=
| Sampled (statistics : sample_statistics) (sample_size : Z)
| Failed (error_msg : string).

(** [round((1 - result[1] / result[0]) * 100, 2) if result[0] > 0 else 100.0]. *)
Definition null_percentage_of (result : sample_row) : Q :=
  if (0 <? res_row_count result)%Z
  then round2 ((1 - inject_Z (res_non_null_count result)
                    / inject_Z (res_row_count result)) * 100)
  else 100.0.

(** [round(x, 2) if x is not None else None]. *)
Definition round_some (x : option Q) : option Q := option_map round2 x.

Definition build_statistics (is_numeric : bool) (result : sample_row) : sample_statistics :=
  if is_numeric then
    {| is_numeric_stats := true;
       row_count := res_row_count result;
       non_null_count := res_non_null_count result;
       null_percentage := null_percentage_of result;
       max_ := res_max result;
       min_ := res_min result;
       avg_ := res_avg result;
       median_ := res_median result;
       p95_ := res_p95 result;
       stddev_ := res_stddev result |}
  else
    {| is_numeric_stats := false;
       row_count := res_row_count result;
       non_null_count := res_non_null_count result;
       null_percentage := null_percentage_of result;
       max_ := res_max result;
       min_ := res_min result;
       avg_ := round_some (res_avg result);
       median_ := round_some (res_median result);
       p95_ := round_some (res_p95 result);
       stddev_ := round_some (res_stddev result) |}.

Section Sample.

(** The database: what the attempt with the given sample size does for
    the column and the kind of query. *)
Variable run_query :
  string -> string -> string -> string -> bool -> Z -> attempt.

(** [SAMPLE_SIZES], by default [[10000, 1000, 100]]. *)
Variable SAMPLE_SIZES : list Z.

(** The loop over the sample sizes. *)
Fixpoint sample_loop (db schema table column : string) (is_numeric : bool)
    (sample_sizes : list Z) : sample_outcome :=
  match sample_sizes with
  | [] => Failed "All sampling attempts failed"
  | sample_size :: rest =>
      match run_query db schema table column is_numeric sample_size with
      | Row result => Sampled (build_statistics is_numeric result) sample_size
      | NoRow => sample_loop db schema table column is_numeric rest
      | Raises error_msg =>
          match rest with
          | [] => Failed error_msg
          | _ :: _ => sample_loop db schema table column is_numeric rest
          end
      end
  end.

Definition run_adaptive_sample (db schema table column data_type : string)
    : outcome sample_outcome :=
  match validate_snowflake_identifier db "database" with
  | Raised e => Raised e
  | Returned db =>
  match validate_snowflake_identifier schema "schema" with
  | Raised e => Raised e
  | Returned schema =>
  match validate_snowflake_identifier table "table" with
  | Raised e => Raised e
  | Returned table =>
  match validate_snowflake_identifier column "column" with
  | Raised e => Raised e
  | Returned column =>
      let is_numeric :=
        any_in ["NUMBER"; "INT"; "FLOAT"; "DOUBLE"; "DECIMAL"] (upper data_type) in
      Returned (sample_loop db schema table column is_numeric SAMPLE_SIZES)
  end end end end.

End Sample.

End Sampling.

(** * Enhanced candidates and the roadmap's first priority *)

Module Roadmap.
Import Py PyList Model Analysis Classify Pipeline.

(** ** Phase 3: candidates from the text-rich columns *)

(** The dictionary appended to [enhanced_llm] for a text-rich row. *)
Definition enhanced_llm_candidate (row : text_rich_row) : candidate :=
  {| c_database := of_row (tr_database row);
     c_schema := of_row (tr_schema row);
     c_table := of_row (tr_table row);
     c_column := of_row (tr_column row);
     c_data_type := tr_data_type row;
     c_max_length := tr_max_len row;
     c_comment := tr_comment row;
     c_ai_feature := "Cortex LLM";
     c_reason := "Text column '" +:+ str_or_empty (of_row (tr_column row)) +:+ "'";
     c_statistics := None;
     c_scores := None;
     c_total_score := None;
     c_is_confirmed_candidate := None;
     c_confirmation_reasons := [] |}.

Definition enhanced_llm (text_rich_columns : list text_rich_row) : list any_candidate :=
  List.map (fun row => column_level (enhanced_llm_candidate row)) text_rich_columns.

(** [table_text_cols[(db, schema, table)].append(col)]. *)
Definition enhanced_collect (table_text_cols : list (table_id * list (option string)))
    (row : text_rich_row) : list (table_id * list (option string)) :=
  group_append (tr_database row, tr_schema row, tr_table row) (tr_column row)
    table_text_cols.

(** The body of the loop over [table_text_cols.items()]. *)
Definition enhanced_search_step (enhanced_search : list any_candidate)
    (item : table_id * list (option string)) : list any_candidate :=
  let '(key, cols) := item in
  if (2 <=? List.length cols)%nat
  then (enhanced_search
        ++ [{| common :=
                 table_level key "Cortex Search / RAG"
                   (pretty (List.length cols) +:+ " text columns");
               numeric_columns := None;
               text_columns := Some (take 10 cols) |}])%list
  else enhanced_search.

Definition enhanced_search (text_rich_columns : list text_rich_row) : list any_candidate :=
  fold_left enhanced_search_step (fold_left enhanced_collect text_rich_columns []) [].

(** ** The candidates of the roadmap *)

(** Phase 5 scores the enhanced candidates as well. *)
Definition score_all (text_profiles : list text_profile) (candidates : list any_candidate)
    : list any_candidate :=
  List.map (on_common (fun c => score_candidate c text_profiles)) candidates.

(** [all_candidates + enhanced_llm[:100] + enhanced_search[:50]]. *)
Definition roadmap_candidates (all_candidates enhanced_llm enhanced_search
                                 : list any_candidate) : list any_candidate :=
  (all_candidates ++ slice_to 100 enhanced_llm ++ slice_to 50 enhanced_search)%list.

(** [c.get('scores', {}).get('governance_risk', 5)]. *)
Definition governance_risk_of (c : candidate) : Q :=
  match c_scores c with
  | Some s => default 5 (governance_risk s)
  | None => 5
  end.

(** The first priority group of [generate_roadmap]. *)
Definition priority_1 (all_candidates : list any_candidate) : list any_candidate :=
  let sorted_cands := sorted_desc sort_key all_candidates in
  List.filter
    (fun c => geq (sort_key c) 15 && leq (governance_risk_of (common c)) 3)
    sorted_cands.

End Roadmap.

(** * Further notions used in the statements *)

Module Notions.
Import Py Model Analysis Classify.

(** Every character of [s] is in the identifier class. *)
Fixpoint all_class (s : string) : bool :=
  match s with
  | EmptyString => true
  | String c s' => Identifiers.identifier_char c && all_class s'
  end.

(** The string made of the one character [c]. *)
Definition char_string (c : ascii) : string := String c EmptyString.

(** ** Classifiers *)

(** The row is of a semi-structured type: its upper-cased type is
    [VARIANT], [OBJECT] or [ARRAY]. *)
Definition variant_flagged (row : column_row) (data_type : string) : Prop :=
  r_data_type row = Some data_type
  /\ In (upper data_type) ["VARIANT"; "OBJECT"; "ARRAY"].

(** The keys of [ks] without repetitions, in the order of their first
    occurrence. *)
Fixpoint first_seen (ks : list table_id) : list table_id :=
  match ks with
  | [] => []
  | k :: rest => k :: List.filter (fun k' => negb (bool_decide (k' = k))) (first_seen rest)
  end.

(** The elements of [xs] that fall under [key]. *)
Definition members {X : Type} (k : X -> table_id) (key : table_id) (xs : list X) : list X :=
  List.filter (fun x => bool_decide (k x = key)) xs.

(** The table of a candidate. *)
Definition table_of (a : any_candidate) : table_id :=
  (get_id (c_database (common a)), get_id (c_schema (common a)),
   get_id (c_table (common a))).

(** The upper-cased type of the row contains [TIMESTAMP] or [DATE]. *)
Definition temporal_row (row : column_row) : Prop :=
  exists dt, r_data_type row = Some dt
             /\ (Spec.substring_of "TIMESTAMP" (upper dt)
                 \/ Spec.substring_of "DATE" (upper dt)).

(** The upper-cased type of the row contains one of the numeric names. *)
Definition numeric_row (row : column_row) : Prop :=
  exists dt t, r_data_type row = Some dt
               /\ In t ["NUMBER"; "FLOAT"; "DECIMAL"; "INTEGER"; "DOUBLE"]
               /\ Spec.substring_of t (upper dt).

Definition is_numeric_row (row : column_row) : bool :=
  match r_data_type row with
  | Some dt => is_numeric_type dt
  | None => false
  end.

(** The value that [ml_collect] files for a row. *)
Definition ml_entry (row : column_row) : option string * string :=
  (r_column row,
   match r_data_type row with
   | Some data_type => if truthyS data_type then data_type else ""
   | None => ""
   end).

(** The table [key] has what the ML classifier asks for. *)
Definition ml_flag (rows : list column_row) (key : table_id) : bool :=
  has_timestamp (List.map ml_entry (members row_table key rows))
  && (1 <=? List.length (List.filter is_numeric_row (members row_table key rows)))%nat.

(** The upper-cased type of the row contains [VARCHAR], [TEXT] or
    [STRING]. *)
Definition is_search_text_row (row : column_row) : bool :=
  match r_data_type row with
  | Some dt => any_in ["VARCHAR"; "TEXT"; "STRING"] (upper dt)
  | None => false
  end.

(** The upper-cased type of the row contains [VARCHAR], [TEXT] or
    [STRING], and its declared length is at least 200. *)
Definition is_long_text_row (row : column_row) : bool :=
  match r_data_type row, r_max_len row with
  | Some dt, Some n => any_in ["VARCHAR"; "TEXT"; "STRING"] (upper dt) && (200 <=? n)%Z
  | _, _ => false
  end.

(** The value that [search_collect] files for a row. *)
Definition search_entry (row : column_row) : option string * Z :=
  (r_column row,
   match r_max_len row with
   | Some n => if truthyZ n then n else 0%Z
   | None => 0%Z
   end).

(** The long text rows of the table [key]. *)
Definition long_text_rows (rows : list column_row) (key : table_id) : list column_row :=
  List.filter is_long_text_row (members row_table key rows).

Definition long_text_row (row : column_row) : Prop :=
  exists dt t n, r_data_type row = Some dt
                 /\ In t ["VARCHAR"; "TEXT"; "STRING"]
                 /\ Spec.substring_of t (upper dt)
                 /\ r_max_len row = Some n /\ (200 <= n)%Z.

(** ** Keys *)

(** The string holds no dot. *)
Fixpoint dotless (s : string) : bool :=
  match s with
  | EmptyString => true
  | String c s' => negb (Ascii.eqb c ".") && dotless s'
  end.

(** The identity part is a string without a dot. *)
Definition dotless_part (e : entry string) : Prop :=
  exists s, e = Val s /\ dotless s = true.

(** The identity part is a string. *)
Definition named_part (e : entry string) : Prop := exists s, e = Val s.

(** The four identity parts are strings, the first three without a dot. *)
Definition plain_identity (c : candidate) : Prop :=
  dotless_part (c_database c) /\ dotless_part (c_schema c)
  /\ dotless_part (c_table c) /\ named_part (c_column c).

Definition same_identity (c1 c2 : candidate) : Prop :=
  c_database c1 = c_database c2 /\ c_schema c1 = c_schema c2
  /\ c_table c1 = c_table c2 /\ c_column c1 = c_column c2.

(** A column candidate [database.schema.table.column]. *)
Definition identified (database schema table column : string) : candidate :=
  {| c_database := Val database; c_schema := Val schema; c_table := Val table;
     c_column := Val column; c_data_type := Some "VARCHAR";
     c_max_length := Some 1000%Z; c_comment := None;
     c_ai_feature := "Cortex LLM";
     c_reason := "Text column (VARCHAR) - long text";
     c_statistics := None; c_scores := None; c_total_score := None;
     c_is_confirmed_candidate := None; c_confirmation_reasons := [] |}.

(** The catalogue rows of a table [DB.SCH.EVENTS] with a timestamp, a
    number and two long text columns. *)
Definition events_row (column data_type : string) (max_len : option Z) : column_row :=
  {| r_database := Some "DB"; r_schema := Some "SCH"; r_table := Some "EVENTS";
     r_column := Some column; r_ordinal := None;
     r_data_type := Some data_type; r_max_len := max_len;
     r_numeric_precision := None; r_numeric_scale := None;
     r_is_nullable := Some "YES"; r_comment := None |}.

Definition events_rows : list column_row :=
  [events_row "CREATED_AT" "TIMESTAMP_NTZ" None;
   events_row "AMOUNT" "NUMBER" None;
   events_row "BODY" "VARCHAR" (Some 1000%Z);
   events_row "NOTES" "VARCHAR" (Some 500%Z)].

Definition events_key : table_id := (Some "DB", Some "SCH", Some "EVENTS").

Definition events_ml : any_candidate :=
  ml_candidate events_key [(Some "AMOUNT", "NUMBER")].

Definition events_search : any_candidate :=
  search_candidate events_key [Some "BODY"; Some "NOTES"].

(** ** Ranking *)

(** The keys of [l] never increase. *)
Fixpoint descending {A : Type} (key : A -> Q) (l : list A) : Prop :=
  match l with
  | [] => True
  | a :: rest => (forall b, In b rest -> key b <= key a) /\ descending key rest
  end.

(** The elements of [l] whose key is [q]. *)
Definition keyed {A : Type} (key : A -> Q) (q : Q) (l : list A) : list A :=
  List.filter (fun a => Qeq_bool (key a) q) l.

(** ** Profiles and confirmation *)





(** ** Sampling *)

(** The message of a failed sampling: the error of the last attempt when
    that attempt raised, and the fixed message otherwise. *)
Definition failure_message (query : Z -> Sampling.attempt) (sample_sizes : list Z)
    : string :=
  match last sample_sizes with
  | Some sample_size =>
      match query sample_size with
      | Sampling.Raises error_msg => error_msg
      | _ => "All sampling attempts failed"
      end
  | None => "All sampling attempts failed"
  end.

(** No attempt with one of the sizes gives a row. *)
Definition no_row (query : Z -> Sampling.attempt) (sample_sizes : list Z) : Prop :=
  forall s, In s sample_sizes -> forall r, query s <> Sampling.Row r.

(** [any(t in data_type.upper() for t in [...])] of the sampling. *)
Definition sampled_as_numeric (data_type : string) : bool :=
  any_in ["NUMBER"; "INT"; "FLOAT"; "DOUBLE"; "DECIMAL"] (upper data_type).

(** ** Table scores *)

(** The table a score record is about. *)
Definition scored_table (r : Metadata.readiness_score) : Metadata.table_key :=
  (Metadata.rs_database r, Metadata.rs_schema r, Metadata.rs_table r).

(** The loop visits every element of a set once. *)
Definition visits_once (iteration : gset Metadata.table_key -> list Metadata.table_key)
    : Prop :=
  forall s, NoDup (iteration s) /\ forall k, k ∈ iteration s <-> k ∈ s.

End Notions.
(** * Facts about the Python primitives *)

Section Comparisons.
Import Py.

Lemma leq_spec (a b : Q) : leq a b = true <-> a <= b.
Proof. unfold leq. apply Qle_bool_iff. Qed.

Lemma geq_spec (a b : Q) : geq a b = true <-> b <= a.
Proof. unfold geq. apply Qle_bool_iff. Qed.

Lemma lt_spec (a b : Q) : lt a b = true <-> a < b.
Proof.
  unfold lt. rewrite negb_true_iff. split.
  - intros H. apply Qnot_le_lt. intros Hle.
    apply Qle_bool_iff in Hle. congruence.
  - intros H. destruct (Qle_bool b a) eqn:E; [|reflexivity].
    apply Qle_bool_iff in E. exfalso. apply (Qlt_not_le _ _ H E).
Qed.

Lemma gt_spec (a b : Q) : gt a b = true <-> b < a.
Proof. unfold gt. apply (lt_spec b a). Qed.

Lemma lt_false (a b : Q) : lt a b = false <-> b <= a.
Proof.
  split.
  - intros H. apply Qnot_lt_le. intros Hlt. apply lt_spec in Hlt. congruence.
  - intros H. destruct (lt a b) eqn:E; [|reflexivity].
    apply lt_spec in E. exfalso. apply (Qlt_not_le _ _ E H).
Qed.

Lemma gt_false (a b : Q) : gt a b = false <-> a <= b.
Proof. unfold gt. apply (lt_false b a). Qed.

Lemma leq_false (a b : Q) : leq a b = false <-> b < a.
Proof.
  split.
  - intros H. apply Qnot_le_lt. intros Hle. apply leq_spec in Hle. congruence.
  - intros H. destruct (leq a b) eqn:E; [|reflexivity].
    apply leq_spec in E. exfalso. apply (Qlt_not_le _ _ H E).
Qed.

Lemma geq_false (a b : Q) : geq a b = false <-> a < b.
Proof. unfold geq. apply (leq_false b a). Qed.

Lemma truthyQ_false (q : Q) : truthyQ q = false <-> q == 0.
Proof.
  unfold truthyQ. rewrite negb_false_iff. apply Qeq_bool_iff.
Qed.

Lemma truthyQ_true (q : Q) : truthyQ q = true <-> ~ q == 0.
Proof.
  unfold truthyQ. rewrite negb_true_iff. split.
  - intros H E. apply Qeq_bool_iff in E. congruence.
  - intros H. destruct (Qeq_bool q 0) eqn:E; [|reflexivity].
    apply Qeq_bool_iff in E. contradiction.
Qed.

Lemma min_spec (a b : Q) : (b < a /\ Py.min a b = b) \/ (a <= b /\ Py.min a b = a).
Proof.
  unfold Py.min. destruct (lt b a) eqn:E.
  - left. split; [apply lt_spec; exact E | reflexivity].
  - right. split; [apply lt_false; exact E | reflexivity].
Qed.

Lemma round_half_even_bounds (x : Q) (a b : Z) :
  inject_Z a <= x -> x <= inject_Z b ->
  (a <= round_half_even x <= b)%Z.
Proof.
  intros Ha Hb.
  assert (Hfa : (a <= Qfloor x)%Z).
  { rewrite <- (Qfloor_Z a). apply Qfloor_resp_le. exact Ha. }
  assert (Hfb : (Qfloor x <= b)%Z).
  { rewrite <- (Qfloor_Z b). apply Qfloor_resp_le. exact Hb. }
  assert (Hup : x - inject_Z (Qfloor x) < 1 # 2 \/ (Qfloor x + 1 <= b)%Z).
  { destruct (Z.eq_dec (Qfloor x) b) as [E | NE].
    - left. pose proof (Qfloor_le x) as Hl. rewrite E in *. lra.
    - right. lia. }
  unfold round_half_even.
  destruct (lt (x - inject_Z (Qfloor x)) (1 # 2)) eqn:E1; [lia|].
  apply lt_false in E1.
  assert (Hb' : (Qfloor x + 1 <= b)%Z) by (destruct Hup as [H | H]; [lra | exact H]).
  destruct (gt _ _); [lia|]. destruct (Z.even _); lia.
Qed.

Lemma round_half_even_comp (x y : Q) : x == y -> round_half_even x = round_half_even y.
Proof.
  intros E. unfold round_half_even, lt, gt.
  rewrite (Qfloor_comp x y E).
  assert (Ed : x - inject_Z (Qfloor y) == y - inject_Z (Qfloor y)) by (rewrite E; reflexivity).
  rewrite !Ed. reflexivity.
Qed.

Lemma round_half_even_Z (n : Z) : round_half_even (inject_Z n) = n.
Proof.
  unfold round_half_even. rewrite Qfloor_Z.
  assert (E : lt (inject_Z n - inject_Z n) (1 # 2) = true) by (apply lt_spec; lra).
  rewrite E. reflexivity.
Qed.


Lemma round2_bounds (x : Q) (a b : Z) :
  inject_Z a <= x -> x <= inject_Z b ->
  inject_Z a <= round2 x /\ round2 x <= inject_Z b.
Proof.
  intros Ha Hb. unfold round2. rewrite Qred_correct.
  destruct (round_half_even_bounds (x * 100) (a * 100) (b * 100)) as [H1 H2].
  - rewrite inject_Z_mult. change (inject_Z 100) with 100. lra.
  - rewrite inject_Z_mult. change (inject_Z 100) with 100. lra.
  - rewrite Zle_Qle in H1, H2. rewrite inject_Z_mult in H1, H2.
    change (inject_Z 100) with 100 in H1, H2.
    set (r := inject_Z (round_half_even (x * 100))) in *.
    split.
    + apply Qle_shift_div_l; lra.
    + apply Qle_shift_div_r; lra.
Qed.

(** Rounding to two places leaves a number of hundredths alone. *)
Lemma round2_exact (x : Q) (n : Z) : x * 100 == inject_Z n -> round2 x == x.
Proof.
  intros E. unfold round2. rewrite Qred_correct.
  rewrite (round_half_even_comp _ _ E), round_half_even_Z.
  rewrite <- E. field.
Qed.

Lemma round2_idem (x : Q) : round2 (round2 x) = round2 x.
Proof.
  unfold round2 at 1 3.
  apply Qred_complete.
  set (n := round_half_even (x * 100)).
  rewrite (round_half_even_comp (round2 x * 100) (inject_Z n)).
  - rewrite round_half_even_Z. reflexivity.
  - unfold round2. rewrite Qred_correct. fold n. field.
Qed.

End Comparisons.

Example format_fixed_one_place : Py.format_fixed 1 100 = "100.0".
Proof. reflexivity. Qed.

Example format_fixed_two_places : Py.format_fixed 2 3.5 = "3.50".
Proof. reflexivity. Qed.

Example round2_seventh : Py.round2 (1 / 7 * 60) = 8.57.
Proof. reflexivity. Qed.

Example base_type_of_varchar :
  Py.strip (Py.split_paren_head (Py.upper "varchar (20)")) = "VARCHAR".
Proof. reflexivity. Qed.

(** * Data readiness scorers *)

Section ReadinessScorers.
Import Py Model Spec.

(** The sampled-statistics scorer gives the scenario statistics 4.0,
    the metadata scorer gives them 5.0. *)
Lemma scorers_differ_on_scenario :
  Analysis.enhance_data_readiness_score scenario_candidate scenario_stats == 4
  /\ Metadata.enhance_data_readiness_score_metadata scenario_candidate scenario_stats == 5
  /\ ~ Analysis.enhance_data_readiness_score scenario_candidate scenario_stats
       == Metadata.enhance_data_readiness_score_metadata scenario_candidate scenario_stats.
Proof.
  repeat split; try (vm_compute; reflexivity).
  vm_compute. discriminate.
Qed.

Lemma metadata_score_components (c : candidate) (st : stats) :
  stats_empty st = false ->
  Metadata.enhance_data_readiness_score_metadata c st
  == null_rate_points (default 50 (st_null_percentage st))
     + content_points (st_avg_length st)
     + quality_points (has_comment st) (not_nullable st).
Proof.
  intros Hne.
  unfold Metadata.enhance_data_readiness_score_metadata, null_rate_points,
    content_points, quality_points, has_comment, not_nullable.
  rewrite Hne.
  (destruct (st_null_percentage st) as [null_pct|]; simpl default;
    [destruct (leq null_pct 10); [|destruct (leq null_pct 30);
      [|destruct (leq null_pct 50); [|destruct (leq null_pct 70)]]]|]);
  (destruct (st_avg_length st) as [l|];
    [destruct (geq l 200); [|destruct (geq l 100);
      [|destruct (geq l 50); [|destruct (gt l 0)]]]|]);
  destruct (default false (st_has_comment st));
  destruct (bool_decide (st_is_nullable st = Some "NO"));
  vm_compute; reflexivity.
Qed.

Lemma sample_score_components (c : candidate) (st : stats) :
  stats_empty st = false ->
  Analysis.enhance_data_readiness_score c st
  == null_rate_points (default 100 (st_null_percentage st))
     + content_points (st_avg_length st)
     + efficiency_points (st_max_length st) (c_max_length c).
Proof.
  intros Hne.
  unfold Analysis.enhance_data_readiness_score, null_rate_points,
    content_points, efficiency_points.
  rewrite Hne.
  assert (Htr : forall d : Z, truthyZ d && (0 <? d)%Z = (0 <? d)%Z).
  { intros d. unfold truthyZ. destruct (Z.ltb_spec 0 d), (Z.eqb_spec d 0); simpl; try reflexivity; lia. }
  (destruct (st_null_percentage st) as [null_pct|]; simpl default;
    [destruct (leq null_pct 10); [|destruct (leq null_pct 30);
      [|destruct (leq null_pct 50); [|destruct (leq null_pct 70)]]]|]);
  (destruct (st_avg_length st) as [l|];
    [destruct (geq l 200); [|destruct (geq l 100);
      [|destruct (geq l 50); [|destruct (gt l 0)]]]|]);
  (destruct (st_max_length st) as [m|]; [destruct (c_max_length c) as [d|];
    [rewrite Htr; destruct (0 <? d)%Z;
      [destruct (gt (inject_Z m / inject_Z d * 100) 50);
        [|destruct (geq (inject_Z m / inject_Z d * 100) 25)]|]|]|]);
  vm_compute; reflexivity.
Qed.

End ReadinessScorers.

Section ScenarioConfirmation.
Import Py Model Spec.

(** What the confirmation rule reads of a candidate. *)
Lemma is_confirmed_candidate_ext (cfg : Analysis.config) (c c' : candidate) (p : option stats) :
  c_statistics c = c_statistics c' ->
  c_ai_feature c = c_ai_feature c' ->
  Analysis.data_readiness_of c = Analysis.data_readiness_of c' ->
  Analysis.is_confirmed_candidate cfg c p = Analysis.is_confirmed_candidate cfg c' p.
Proof.
  intros Hs Ha Hd. unfold Analysis.is_confirmed_candidate, Analysis.check_readiness.
  rewrite Hs, Ha, Hd. reflexivity.
Qed.

Lemma scenario_confirmed (c : candidate) :
  c_statistics c = Some scenario_stats ->
  fst (Analysis.is_confirmed_candidate Analysis.default_config
         (Analysis.rescore_metadata c) None) = true.
Proof.
  intros Hst. unfold Analysis.rescore_metadata. rewrite Hst.
  change (stats_empty (default no_stats (Some scenario_stats))) with false.
  cbv iota.
  unfold Analysis.is_confirmed_candidate, Analysis.store_readiness.
  cbn [c_statistics c_ai_feature set_scores]. rewrite Hst.
  unfold Analysis.check_readiness, Analysis.data_readiness_of.
  cbn [c_scores set_scores data_readiness set_data_readiness default].
  unfold Analysis.check_content, Analysis.check_structure.
  destruct (mem (c_ai_feature c) _); destruct (String.eqb (c_ai_feature c) _);
    vm_compute; reflexivity.
Qed.

End ScenarioConfirmation.

Section ReadinessClaim.
Import Py Model Spec.

Lemma null_rate_points_steps (p : Q) :
  (p <= 10 -> null_rate_points p == 2)
  /\ (10 < p -> p <= 30 -> null_rate_points p == 1.5)
  /\ (30 < p -> p <= 50 -> null_rate_points p == 1)
  /\ (50 < p -> p <= 70 -> null_rate_points p == 0.5)
  /\ (70 < p -> null_rate_points p == 0).
Proof.
  unfold null_rate_points.
  destruct (leq p 10) eqn:E1; [apply leq_spec in E1|apply leq_false in E1];
  (destruct (leq p 30) eqn:E2; [apply leq_spec in E2|apply leq_false in E2]);
  (destruct (leq p 50) eqn:E3; [apply leq_spec in E3|apply leq_false in E3]);
  (destruct (leq p 70) eqn:E4; [apply leq_spec in E4|apply leq_false in E4]);
  repeat split; intros; try lra; reflexivity.
Qed.

Lemma content_points_steps (l : Q) :
  (200 <= l -> content_points (Some l) == 2)
  /\ (100 <= l -> l < 200 -> content_points (Some l) == 1.5)
  /\ (50 <= l -> l < 100 -> content_points (Some l) == 1)
  /\ (0 < l -> l < 50 -> content_points (Some l) == 0.5)
  /\ (l <= 0 -> content_points (Some l) == 0).
Proof.
  unfold content_points.
  destruct (geq l 200) eqn:E1; [apply geq_spec in E1|apply geq_false in E1];
  (destruct (geq l 100) eqn:E2; [apply geq_spec in E2|apply geq_false in E2]);
  (destruct (geq l 50) eqn:E3; [apply geq_spec in E3|apply geq_false in E3]);
  (destruct (gt l 0) eqn:E4; [apply gt_spec in E4|apply gt_false in E4]);
  repeat split; intros; try lra; reflexivity.
Qed.

(** C2 (as amended).  On non-empty statistics the metadata scorer is the
    sum of the NULL-rate points (a missing percentage counts as 50), the
    content points and the quality points: +2 for at most 10 percent NULLs
    down to nothing above 70, +2 for an average length of at least 200
    down to +0.5 for a positive length under 50, +1 for a commented NOT
    NULL column and +0.5 when only one of the two holds.  The scorer of
    sampled statistics adds the same NULL-rate points (a missing
    percentage counts as 100) and content points, but its third component
    is the efficiency of the declared length, not the quality points.  The
    metadata scorer gives the scenario statistics exactly 5, and a
    candidate re-scored from them is confirmed. *)
Theorem readiness_score_components (c : candidate) (st : stats) :
  stats_empty st = false ->
  Metadata.enhance_data_readiness_score_metadata c st
  == null_rate_points (default 50 (st_null_percentage st))
     + content_points (st_avg_length st)
     + quality_points (has_comment st) (not_nullable st)
  /\ Analysis.enhance_data_readiness_score c st
     == null_rate_points (default 100 (st_null_percentage st))
        + content_points (st_avg_length st)
        + efficiency_points (st_max_length st) (c_max_length c)
  /\ (forall p, (p <= 10 -> null_rate_points p == 2)
                /\ (10 < p -> p <= 70 -> 0 < null_rate_points p < 2)
                /\ (70 < p -> null_rate_points p == 0))
  /\ (forall l, (200 <= l -> content_points (Some l) == 2)
                /\ (50 <= l -> l < 200 -> 0.5 < content_points (Some l) < 2)
                /\ (0 < l -> l < 50 -> content_points (Some l) == 0.5)
                /\ (l <= 0 -> content_points (Some l) == 0))
  /\ content_points None == 0
  /\ quality_points true true == 1
  /\ quality_points true false == 0.5
  /\ quality_points false true == 0.5
  /\ quality_points false false == 0
  /\ Metadata.enhance_data_readiness_score_metadata c scenario_stats == 5
  /\ (c_statistics c = Some scenario_stats ->
      fst (Analysis.is_confirmed_candidate Analysis.default_config
             (Analysis.rescore_metadata c) None) = true).
Proof.
  intros Hne.
  split; [apply metadata_score_components; exact Hne|].
  split; [apply sample_score_components; exact Hne|].
  split.
  { intros p. destruct (null_rate_points_steps p) as (H1 & H2 & H3 & H4 & H5).
    split; [exact H1|]. split; [|exact H5].
    intros Hlo Hhi.
    destruct (Qlt_le_dec 30 p) as [H30|H30];
      [destruct (Qlt_le_dec 50 p) as [H50|H50]|].
    - rewrite (H4 H50 Hhi). split; reflexivity.
    - rewrite (H3 H30 H50). split; reflexivity.
    - rewrite (H2 Hlo H30). split; reflexivity. }
  split.
  { intros l. destruct (content_points_steps l) as (H1 & H2 & H3 & H4 & H5).
    split; [exact H1|]. split; [|split; [exact H4|exact H5]].
    intros Hlo Hhi. destruct (Qlt_le_dec l 100) as [H100|H100].
    - rewrite (H3 Hlo H100). split; reflexivity.
    - rewrite (H2 H100 Hhi). split; reflexivity. }
  repeat split; try reflexivity.
  apply scenario_confirmed.
Qed.

Lemma readiness_score_components_witness :
  stats_empty scenario_stats = false
  /\ Metadata.enhance_data_readiness_score_metadata scenario_candidate scenario_stats
     == null_rate_points (default 50 (st_null_percentage scenario_stats))
        + content_points (st_avg_length scenario_stats)
        + quality_points (has_comment scenario_stats) (not_nullable scenario_stats).
Proof.
  split; [reflexivity|].
  apply (proj1 (readiness_score_components scenario_candidate scenario_stats eq_refl)).
Defined.

End ReadinessClaim.

(** * The confirmation rule *)

Section ConfirmationChecks.
Import Py Model Spec Analysis.

Variable cfg : config.

Lemma fail_accumulates (r : string) (v : verdict) :
  fail r v = {| is_confirmed := is_confirmed v && false; reasons := (reasons v ++ [r])%list |}.
Proof. unfold fail. rewrite andb_false_r. reflexivity. Qed.

Lemma note_accumulates (r : string) (v : verdict) :
  note r v = {| is_confirmed := is_confirmed v && true; reasons := (reasons v ++ [r])%list |}.
Proof. unfold note. rewrite andb_true_r. reflexivity. Qed.

Lemma skip_accumulates (v : verdict) :
  v = {| is_confirmed := is_confirmed v && true; reasons := (reasons v ++ [])%list |}.
Proof. destruct v; simpl. rewrite andb_true_r, app_nil_r. reflexivity. Qed.

Lemma check_sparsity_accumulates (st : stats) : accumulates (check_sparsity cfg st).
Proof.
  intros v. unfold passes, said, check_sparsity.
  destruct (gt _ _); [apply fail_accumulates | apply note_accumulates].
Qed.

Lemma check_content_accumulates (ai : string) (st : stats) :
  accumulates (check_content cfg ai st).
Proof.
  intros v. unfold passes, said, check_content.
  destruct (mem ai _); [|apply skip_accumulates].
  destruct (truthyQ (avg_len_of st) && lt (avg_len_of st) _);
    [|destruct (truthyQ (avg_len_of st))];
    (destruct (match st_content_type st with Some ct => _ | None => _ end) as [[|]|]);
    unfold fail, note; destruct v as [b rs]; simpl;
    rewrite ?andb_true_r, ?andb_false_r, <- ?app_assoc, ?app_nil_r; reflexivity.
Qed.

Lemma check_structure_accumulates (ai : string) (st : stats) :
  accumulates (check_structure ai st).
Proof.
  intros v. unfold passes, said, check_structure.
  destruct (String.eqb ai _); [|apply skip_accumulates].
  destruct (match st_json_structure st with Some js => _ | None => _ end) as [[|]|];
    [apply note_accumulates | apply fail_accumulates | apply skip_accumulates].
Qed.

Lemma check_readiness_accumulates (c : candidate) : accumulates (check_readiness cfg c).
Proof.
  intros v. unfold passes, said, check_readiness.
  destruct (lt _ _); [apply fail_accumulates | apply note_accumulates].
Qed.

(** The verdict is the conjunction of the four checks and the reasons are
    what they say, in the order of evaluation. *)
Lemma is_confirmed_candidate_checks (c : candidate) (profile : option stats) :
  let st := effective_stats c profile in
  let ai := c_ai_feature c in
  is_confirmed_candidate cfg c profile =
    (passes (check_sparsity cfg st) && passes (check_content cfg ai st)
     && passes (check_structure ai st) && passes (check_readiness cfg c),
     (said (check_sparsity cfg st) ++ said (check_content cfg ai st)
      ++ said (check_structure ai st) ++ said (check_readiness cfg c))%list).
Proof.
  intros st ai. unfold is_confirmed_candidate.
  change (match profile with
          | Some p => if stats_empty p then default no_stats (c_statistics c)
                      else merge_stats (default no_stats (c_statistics c)) p
          | None => default no_stats (c_statistics c)
          end) with st.
  fold ai.
  rewrite (check_readiness_accumulates c), (check_structure_accumulates ai st),
    (check_content_accumulates ai st), (check_sparsity_accumulates st).
  cbn [is_confirmed reasons]. rewrite <- !app_assoc. reflexivity.
Qed.

End ConfirmationChecks.

Section ConfirmationClaims.
Import Py Model Spec Analysis.

(** An LLM candidate without any average length is confirmed: the content
    check, though it applies and its statistic is missing, neither fails
    nor leaves a reason. *)
Lemma missing_length_passes_silently :
  ~ (text_feature (c_ai_feature lengthless_candidate) = true ->
     st_avg_length (effective_stats lengthless_candidate None) = None ->
     fst (is_confirmed_candidate default_config lengthless_candidate None) = false)
  /\ is_confirmed_candidate default_config lengthless_candidate None
     = (true, ["Good completeness (95.0% populated)"; "Good data readiness (4.00)"]).
Proof.
  split; [|reflexivity].
  intros H. specialize (H eq_refl eq_refl). discriminate H.
Qed.

Lemma said_sparsity_length (cfg : config) (st : stats) :
  List.length (said (check_sparsity cfg st)) = 1%nat.
Proof. unfold said, check_sparsity. destruct (gt _ _); reflexivity. Qed.

Lemma said_readiness_length (cfg : config) (c : candidate) :
  List.length (said (check_readiness cfg c)) = 1%nat.
Proof. unfold said, check_readiness. destruct (lt _ _); reflexivity. Qed.

Lemma said_content_length (cfg : config) (ai : string) (st : stats) :
  List.length (said (check_content cfg ai st))
  = if text_feature ai
    then (one_if (truthyQ (avg_len_of st))
          + one_if (bool_decide (is_Some (natural_language_flag st))))%nat
    else 0%nat.
Proof.
  unfold said, check_content, text_feature, natural_language_flag.
  destruct (mem ai _); [|reflexivity].
  destruct (truthyQ (avg_len_of st)); cbn [andb];
    [destruct (lt (avg_len_of st) _)|];
    (destruct (match st_content_type st with Some ct => _ | None => _ end) as [[|]|]);
    reflexivity.
Qed.

Lemma said_structure_length (ai : string) (st : stats) :
  List.length (said (check_structure ai st))
  = if String.eqb ai "Cortex Extract"
    then one_if (bool_decide (is_Some (valid_structure_flag st)))
    else 0%nat.
Proof.
  unfold said, check_structure, valid_structure_flag.
  destruct (String.eqb ai _); [|reflexivity].
  destruct (match st_json_structure st with Some js => _ | None => _ end) as [[|]|];
    reflexivity.
Qed.

Lemma missing_sparsity_fails (cfg : config) (st : stats) :
  st_null_percentage st = None ->
  (forall sp, st_sparsity st = Some sp -> sp_null_percentage sp = None) ->
  CONFIRM_MAX_SPARSITY cfg < 100 ->
  passes (check_sparsity cfg st) = false
  /\ said (check_sparsity cfg st) = ["High sparsity (100.0% NULL)"].
Proof.
  intros Hflat Hnested Hmax.
  assert (Hsp : sparsity_of st = 100).
  { unfold sparsity_of. rewrite Hflat.
    destruct (st_sparsity st) as [sp|]; [|reflexivity].
    rewrite (Hnested sp eq_refl). reflexivity. }
  unfold passes, said, check_sparsity. rewrite Hsp.
  assert (Hgt : gt 100 (CONFIRM_MAX_SPARSITY cfg) = true) by (apply gt_spec; exact Hmax).
  rewrite Hgt. split; reflexivity.
Qed.

Lemma missing_readiness_fails (cfg : config) (c : candidate) :
  (forall s, c_scores c = Some s -> data_readiness s = None) ->
  0 < CONFIRM_MIN_DATA_READINESS cfg ->
  passes (check_readiness cfg c) = false
  /\ said (check_readiness cfg c) = ["Low data readiness score (0.00)"].
Proof.
  intros Hmiss Hmin.
  assert (Hdr : data_readiness_of c = 0).
  { unfold data_readiness_of. destruct (c_scores c) as [s|]; [|reflexivity].
    rewrite (Hmiss s eq_refl). reflexivity. }
  unfold passes, said, check_readiness. rewrite Hdr.
  assert (Hlt : lt 0 (CONFIRM_MIN_DATA_READINESS cfg) = true) by (apply lt_spec; exact Hmin).
  rewrite Hlt. split; reflexivity.
Qed.

Lemma missing_content_passes (cfg : config) (ai : string) (st : stats) :
  st_avg_length st = None -> st_content_type st = None ->
  passes (check_content cfg ai st) = true /\ said (check_content cfg ai st) = [].
Proof.
  intros Havg Hct. unfold passes, said, check_content, avg_len_of.
  rewrite Havg, Hct. destruct (mem ai _); split; reflexivity.
Qed.

Lemma missing_structure_passes (ai : string) (st : stats) :
  st_json_structure st = None ->
  passes (check_structure ai st) = true /\ said (check_structure ai st) = [].
Proof.
  intros Hjs. unfold passes, said, check_structure. rewrite Hjs.
  destruct (String.eqb ai _); split; reflexivity.
Qed.

(** C3 (as amended).  The confirmation rule returns a verdict and a list
    of reasons for every candidate.  The verdict is the conjunction of the
    four checks, and the reasons are what the checks say in the order
    sparsity, content quality and natural language, structure validity,
    readiness score.  The sparsity and the readiness check always say
    exactly one reason; the content check says one reason for a non-zero
    average length and one for a natural-language flag that is there, the
    structure check one for a validity flag that is there.  A missing
    NULL percentage fails the sparsity check and a missing readiness score
    fails the readiness check, each with its reason; a missing average
    length with a missing content profile, or a missing structure
    profile, lets the check pass without a reason. *)
Theorem confirmation_checks_and_reasons
    (cfg : config) (c : candidate) (profile : option stats) :
  let st := effective_stats c profile in
  let ai := c_ai_feature c in
  let sparsity := check_sparsity cfg st in
  let content := check_content cfg ai st in
  let structure := check_structure ai st in
  let readiness := check_readiness cfg c in
  is_confirmed_candidate cfg c profile
  = (passes sparsity && passes content && passes structure && passes readiness,
     (said sparsity ++ said content ++ said structure ++ said readiness)%list)
  /\ List.length (said sparsity) = 1%nat
  /\ List.length (said readiness) = 1%nat
  /\ List.length (said content)
     = (if text_feature ai
        then (one_if (truthyQ (avg_len_of st))
              + one_if (bool_decide (is_Some (natural_language_flag st))))%nat
        else 0%nat)
  /\ List.length (said structure)
     = (if String.eqb ai "Cortex Extract"
        then one_if (bool_decide (is_Some (valid_structure_flag st)))
        else 0%nat)
  /\ (st_null_percentage st = None ->
      (forall sp, st_sparsity st = Some sp -> sp_null_percentage sp = None) ->
      CONFIRM_MAX_SPARSITY cfg < 100 ->
      passes sparsity = false /\ said sparsity = ["High sparsity (100.0% NULL)"])
  /\ ((forall s, c_scores c = Some s -> data_readiness s = None) ->
      0 < CONFIRM_MIN_DATA_READINESS cfg ->
      passes readiness = false
      /\ said readiness = ["Low data readiness score (0.00)"])
  /\ (st_avg_length st = None -> st_content_type st = None ->
      passes content = true /\ said content = [])
  /\ (st_json_structure st = None ->
      passes structure = true /\ said structure = []).
Proof.
  intros st ai sparsity content structure readiness.
  split; [apply is_confirmed_candidate_checks|].
  split; [apply said_sparsity_length|].
  split; [apply said_readiness_length|].
  split; [apply said_content_length|].
  split; [apply said_structure_length|].
  split; [apply missing_sparsity_fails|].
  split; [apply missing_readiness_fails|].
  split; [apply missing_content_passes | apply missing_structure_passes].
Qed.

(** The theorem at the candidate without lengths: both silent checks
    pass and the two reasons are the sparsity and the readiness one. *)
Lemma confirmation_checks_and_reasons_witness :
  st_avg_length (effective_stats lengthless_candidate None) = None
  /\ st_content_type (effective_stats lengthless_candidate None) = None
  /\ passes (check_content default_config "Cortex LLM"
               (effective_stats lengthless_candidate None)) = true
  /\ said (check_content default_config "Cortex LLM"
             (effective_stats lengthless_candidate None)) = [].
Proof.
  split; [reflexivity|]. split; [reflexivity|].
  apply (proj1 (proj2 (proj2 (proj2 (proj2 (proj2 (proj2 (proj2
           (confirmation_checks_and_reasons default_config lengthless_candidate None)))))))));
    reflexivity.
Defined.

End ConfirmationClaims.

Section SparsityClaims.
Import Py Model Spec Analysis.

Lemma sparsity_of_flat (st : stats) (q : Q) :
  st_null_percentage st = Some q -> ~ q == 0 -> sparsity_of st = q.
Proof.
  intros Hq Hnz. unfold sparsity_of. rewrite Hq.
  apply truthyQ_true in Hnz. rewrite Hnz. reflexivity.
Qed.

Lemma sparsity_of_zero (st : stats) (q : Q) :
  st_null_percentage st = Some q -> q == 0 -> st_sparsity st = None ->
  sparsity_of st = 100.
Proof.
  intros Hq Hz Hsp. unfold sparsity_of. rewrite Hq, Hsp.
  apply truthyQ_false in Hz. rewrite Hz. reflexivity.
Qed.

Lemma passes_sparsity (cfg : config) (st : stats) :
  passes (check_sparsity cfg st) = negb (gt (sparsity_of st) (CONFIRM_MAX_SPARSITY cfg)).
Proof. unfold passes, check_sparsity. destruct (gt _ _); reflexivity. Qed.

(** C4.  With a maximal sparsity of 50 the comparison is strict: a NULL
    percentage of exactly 50 passes the sparsity check, and the candidate
    is confirmed exactly when its other checks pass; a NULL percentage of
    50.01 fails the check and the candidate is not confirmed.  For any
    non-zero percentage the check passes exactly up to 50. *)
Theorem sparsity_boundary (cfg : config) (c : candidate) (st : stats) (q : Q) :
  CONFIRM_MAX_SPARSITY cfg == 50 ->
  c_statistics c = Some st ->
  st_null_percentage st = Some q ->
  let ai := c_ai_feature c in
  let others :=
    passes (check_content cfg ai st) && passes (check_structure ai st)
    && passes (check_readiness cfg c) in
  (q == 50 ->
   passes (check_sparsity cfg st) = true
   /\ fst (is_confirmed_candidate cfg c None) = others)
  /\ (q == 50.01 ->
      passes (check_sparsity cfg st) = false
      /\ fst (is_confirmed_candidate cfg c None) = false)
  /\ (~ q == 0 -> (passes (check_sparsity cfg st) = true <-> q <= 50)).
Proof.
  intros Hmax Hst Hq ai others.
  assert (Heff : effective_stats c None = st).
  { unfold effective_stats. rewrite Hst. reflexivity. }
  assert (Hiff : ~ q == 0 -> (passes (check_sparsity cfg st) = true <-> q <= 50)).
  { intros Hnz. rewrite passes_sparsity, (sparsity_of_flat st q Hq Hnz).
    rewrite negb_true_iff, gt_false, Hmax. reflexivity. }
  pose proof (is_confirmed_candidate_checks cfg c None) as Hall.
  cbv zeta in Hall. rewrite Heff in Hall. fold ai in Hall.
  split; [|split; [|exact Hiff]].
  - intros E.
    assert (Hp : passes (check_sparsity cfg st) = true).
    { apply Hiff; [rewrite E; discriminate | rewrite E; discriminate]. }
    split; [exact Hp|]. rewrite Hall, Hp. reflexivity.
  - intros E.
    assert (Hp : passes (check_sparsity cfg st) = false).
    { apply not_true_is_false. intros P.
      apply Hiff in P; [|rewrite E; discriminate].
      rewrite E in P. revert P. apply Qlt_not_le. reflexivity. }
    split; [exact Hp|]. rewrite Hall, Hp. reflexivity.
Qed.

Lemma sparsity_boundary_witness :
  CONFIRM_MAX_SPARSITY default_config == 50
  /\ c_statistics boundary_candidate = Some boundary_stats
  /\ st_null_percentage boundary_stats = Some 50.0
  /\ passes (check_sparsity default_config boundary_stats) = true
  /\ fst (is_confirmed_candidate default_config boundary_candidate None) = true.
Proof.
  split; [reflexivity|]. split; [reflexivity|]. split; [reflexivity|].
  assert (H50 : 50.0 == 50) by reflexivity.
  destruct (proj1 (sparsity_boundary default_config boundary_candidate
                     boundary_stats 50.0 (Qeq_refl _) eq_refl eq_refl) H50)
    as [Hp Hc].
  split; [exact Hp|]. rewrite Hc. reflexivity.
Defined.

Lemma metadata_stats_no_sparsity (cm : column_meta) (tm : table_meta) :
  st_sparsity (Metadata.compute_column_metadata_stats cm tm) = None.
Proof.
  unfold Metadata.compute_column_metadata_stats.
  destruct (bool_decide (cm_is_nullable cm = Some "NO")); reflexivity.
Qed.

(** C5.  Whenever the maximal sparsity is below 100: a candidate whose
    statistics hold a NULL percentage of zero and no nested sparsity
    profile is not confirmed, and its first reason reports a sparsity of
    100 percent, the default that the zero falls through to; so a
    candidate carrying the metadata-estimated statistics of a NOT NULL
    column, whose NULL percentage is zero, is never confirmed. *)
Theorem zero_null_percentage_not_confirmed (cfg : config) :
  CONFIRM_MAX_SPARSITY cfg < 100 ->
  (forall (c : candidate) (st : stats) (q : Q),
      c_statistics c = Some st ->
      st_null_percentage st = Some q -> q == 0 ->
      st_sparsity st = None ->
      sparsity_of st = 100
      /\ exists rest,
          is_confirmed_candidate cfg c None
          = (false, "High sparsity (100.0% NULL)" :: rest))
  /\ (forall (c : candidate) (cm : column_meta) (tm : table_meta),
         cm_is_nullable cm = Some "NO" ->
         c_statistics c = Some (Metadata.compute_column_metadata_stats cm tm) ->
         st_null_percentage (Metadata.compute_column_metadata_stats cm tm) = Some 0.0
         /\ fst (is_confirmed_candidate cfg c None) = false).
Proof.
  intros Hmax.
  assert (Hgen : forall (c : candidate) (st : stats) (q : Q),
      c_statistics c = Some st ->
      st_null_percentage st = Some q -> q == 0 ->
      st_sparsity st = None ->
      sparsity_of st = 100
      /\ exists rest,
          is_confirmed_candidate cfg c None
          = (false, "High sparsity (100.0% NULL)" :: rest)).
  { intros c st q Hst Hq Hz Hsp.
    pose proof (sparsity_of_zero st q Hq Hz Hsp) as H100.
    split; [exact H100|].
    pose proof (is_confirmed_candidate_checks cfg c None) as Hall.
    cbv zeta in Hall.
    assert (Heff : effective_stats c None = st).
    { unfold effective_stats. rewrite Hst. reflexivity. }
    rewrite Heff in Hall.
    assert (Hp : passes (check_sparsity cfg st) = false).
    { rewrite passes_sparsity, H100. apply negb_false_iff, gt_spec. exact Hmax. }
    assert (Hs : said (check_sparsity cfg st) = ["High sparsity (100.0% NULL)"]).
    { unfold said, check_sparsity. rewrite H100.
      assert (Hgt : gt 100 (CONFIRM_MAX_SPARSITY cfg) = true) by (apply gt_spec; exact Hmax).
      rewrite Hgt. reflexivity. }
    rewrite Hp, Hs in Hall. eexists. rewrite Hall. reflexivity. }
  split; [exact Hgen|].
  intros c cm tm Hnull Hst.
  assert (Hq : st_null_percentage (Metadata.compute_column_metadata_stats cm tm) = Some 0.0).
  { unfold Metadata.compute_column_metadata_stats. rewrite Hnull. reflexivity. }
  split; [exact Hq|].
  assert (Hz : 0.0 == 0) by reflexivity.
  destruct (Hgen c _ 0.0 Hst Hq Hz (metadata_stats_no_sparsity cm tm)) as [_ [rest Hr]].
  rewrite Hr. reflexivity.
Qed.

End SparsityClaims.

Section SparsityWitness.
Import Py Model Spec Analysis.

Lemma zero_null_percentage_not_confirmed_witness :
  CONFIRM_MAX_SPARSITY default_config < 100
  /\ forall (c : candidate) (cm : column_meta) (tm : table_meta),
       cm_is_nullable cm = Some "NO" ->
       c_statistics c = Some (Metadata.compute_column_metadata_stats cm tm) ->
       st_null_percentage (Metadata.compute_column_metadata_stats cm tm) = Some 0.0
       /\ fst (is_confirmed_candidate default_config c None) = false.
Proof.
  assert (H : CONFIRM_MAX_SPARSITY default_config < 100) by reflexivity.
  split; [exact H|].
  exact (proj2 (zero_null_percentage_not_confirmed default_config H)).
Defined.

End SparsityWitness.

(** * Metadata-estimated column statistics *)

Section MetadataStatistics.
Import Py Model Spec Metadata.

(** A declared length of zero is read as no declared length: the average
    is the fallback of 100, not [min(0 * 0.3, 5000)]. *)
Lemma zero_length_takes_fallback :
  text_column (varchar_column (Some 0%Z)) = true
  /\ st_avg_length (compute_column_metadata_stats (varchar_column (Some 0%Z)) no_table_meta)
     = Some 100.0
  /\ ~ 100.0 == Py.min (inject_Z 0 * 0.3) 5000.
Proof.
  split; [reflexivity|]. split; [reflexivity|].
  vm_compute. discriminate.
Qed.

Lemma estimated_average_exact (n : Z) :
  round2 (Py.min (inject_Z n * 0.3) 5000) == Py.min (inject_Z n * 0.3) 5000.
Proof.
  destruct (min_spec (inject_Z n * 0.3) 5000) as [[_ E] | [_ E]]; rewrite E.
  - apply (round2_exact _ 500000). reflexivity.
  - apply (round2_exact _ (30 * n)). rewrite inject_Z_mult. field.
Qed.

(** C7 (as amended).  The metadata-estimated statistics are tagged
    [metadata_only]; the NULL percentage is 0.0 when [is_nullable] is
    ['NO'] and 20.0 otherwise; for a text column with a non-zero declared
    length the average length is [min(length * 0.3, 5000)] and the maximal
    length is the declared one; for a text column without a declared
    length, or with a declared length of zero, the average length is 100.0
    and the maximal length 16777216. *)
Theorem metadata_statistics_estimates (cm : column_meta) (tm : table_meta) :
  let st := compute_column_metadata_stats cm tm in
  st_source st = Some "metadata_only"
  /\ (cm_is_nullable cm = Some "NO" -> st_null_percentage st = Some 0.0)
  /\ (cm_is_nullable cm <> Some "NO" -> st_null_percentage st = Some 20.0)
  /\ (text_column cm = true ->
      forall n, character_maximum_length cm = Some n -> n <> 0%Z ->
                st_max_length st = Some n
                /\ exists a, st_avg_length st = Some a
                             /\ a == Py.min (inject_Z n * 0.3) 5000)
  /\ (text_column cm = true ->
      character_maximum_length cm = None \/ character_maximum_length cm = Some 0%Z ->
      st_avg_length st = Some 100.0 /\ st_max_length st = Some 16777216%Z).
Proof.
  intros st. subst st. unfold compute_column_metadata_stats, text_column.
  set (is_text := is_text_base _).
  destruct (bool_decide (cm_is_nullable cm = Some "NO")) eqn:Enull;
    [apply bool_decide_eq_true in Enull | apply bool_decide_eq_false in Enull];
    cbn [st_source st_null_percentage st_avg_length st_max_length].
  all: split; [reflexivity|].
  all: split; [intros H; first [reflexivity | contradiction]|].
  all: split; [intros H; first [reflexivity | congruence]|].
  all: split.
  all: try (intros Htext n Hn Hnz; rewrite Htext, Hn;
            assert (Ht : truthyZ n = true)
              by (unfold truthyZ; apply negb_true_iff, Z.eqb_neq; exact Hnz);
            rewrite Ht; cbn [option_map fst snd]; split; [reflexivity|];
            eexists; split; [reflexivity | apply estimated_average_exact]).
  all: intros Htext [Hn | Hn]; rewrite Htext, Hn; split; reflexivity.
Qed.

Lemma metadata_statistics_estimates_witness :
  text_column (varchar_column (Some 2000%Z)) = true
  /\ st_max_length (compute_column_metadata_stats (varchar_column (Some 2000%Z)) no_table_meta)
     = Some 2000%Z
  /\ exists a,
      st_avg_length (compute_column_metadata_stats (varchar_column (Some 2000%Z)) no_table_meta)
      = Some a
      /\ a == Py.min (inject_Z 2000 * 0.3) 5000.
Proof.
  split; [reflexivity|].
  apply (proj1 (proj2 (proj2 (proj2
           (metadata_statistics_estimates (varchar_column (Some 2000%Z)) no_table_meta))))
           eq_refl 2000%Z eq_refl).
  discriminate.
Defined.

End MetadataStatistics.

(** * Freshness *)

Section FreshnessClaim.
Import Py Model Spec Metadata.

Variable fromisoformat : string -> option datetime.
Variable now_us : Z.

Lemma score_freshness_altered (tm : table_meta) (d : datetime) :
  altered_at fromisoformat tm d ->
  score_freshness fromisoformat now_us tm = freshness_steps (age_days now_us d).
Proof.
  intros [Hd | s Hs Hne Hp]; unfold score_freshness.
  - rewrite Hd. reflexivity.
  - rewrite Hs.
    assert (Ht : truthyS s = true).
    { unfold truthyS. apply negb_true_iff, String.eqb_neq. exact Hne. }
    rewrite Ht, Hp. reflexivity.
Qed.

Lemma age_days_ago (k : Z) : age_days now_us (days_ago now_us k) = k.
Proof.
  unfold age_days, days_ago, utc_us; cbn [utcoffset_us wall_us].
  replace (now_us - (now_us - k * us_per_day))%Z with (k * us_per_day)%Z by lia.
  apply Z.div_mul. discriminate.
Qed.

(** C9.  For a table last altered at a datetime, given as such or as an
    ISO string, the freshness score is the step function of the age in
    days: 100 up to 7 days, 80 up to 30, 50 up to 90, 25 up to 180 and 10
    beyond, where the age is the number of whole days elapsed since the
    alteration; a missing, empty or unparseable entry scores 0; a naive
    datetime is read as UTC; five days ago scores 100 and 45 days ago
    scores 50. *)
Theorem freshness_step_function (tm : table_meta) :
  (forall d, altered_at fromisoformat tm d ->
     let age := age_days now_us d in
     let score := score_freshness fromisoformat now_us tm in
     ((age <= 7)%Z -> score = 100)
     /\ ((7 < age <= 30)%Z -> score = 80)
     /\ ((30 < age <= 90)%Z -> score = 50)
     /\ ((90 < age <= 180)%Z -> score = 25)
     /\ ((180 < age)%Z -> score = 10))
  /\ (unknown_altered fromisoformat tm -> score_freshness fromisoformat now_us tm = 0)
  /\ (forall d,
        (age_days now_us d * us_per_day <= now_us - utc_us d
         < (age_days now_us d + 1) * us_per_day)%Z)
  /\ (forall d, utcoffset_us d = None ->
        age_days now_us d
        = age_days now_us {| wall_us := wall_us d; utcoffset_us := Some 0%Z |}
        /\ age_days now_us d = ((now_us - wall_us d) / us_per_day)%Z)
  /\ score_freshness fromisoformat now_us
       (altered_table (LA_datetime (days_ago now_us 5))) = 100
  /\ score_freshness fromisoformat now_us
       (altered_table (LA_datetime (days_ago now_us 45))) = 50.
Proof.
  split.
  { intros d Hd age score. subst score. rewrite (score_freshness_altered tm d Hd).
    fold age. unfold freshness_steps.
    destruct (Z.leb_spec age 7), (Z.leb_spec age 30), (Z.leb_spec age 90),
      (Z.leb_spec age 180); repeat split; intros; try lia; reflexivity. }
  split.
  { intros [H | [H | [s [Hs Hp]]]]; unfold score_freshness.
    - rewrite H. reflexivity.
    - rewrite H. reflexivity.
    - rewrite Hs, Hp. destruct (negb (truthyS s)); reflexivity. }
  split.
  { intros d. unfold age_days.
    assert (Hpos : (0 < us_per_day)%Z) by reflexivity.
    pose proof (Z.div_mod (now_us - utc_us d) us_per_day) as Hdm.
    pose proof (Z.mod_pos_bound (now_us - utc_us d) us_per_day Hpos) as Hb.
    lia. }
  split.
  { intros d Hd. unfold age_days, utc_us; cbn [utcoffset_us wall_us].
    rewrite Hd, Z.sub_0_r. split; reflexivity. }
  split.
  - unfold score_freshness, altered_table; cbn [last_altered].
    rewrite age_days_ago. reflexivity.
  - unfold score_freshness, altered_table; cbn [last_altered].
    rewrite age_days_ago. reflexivity.
Qed.

End FreshnessClaim.

Section FreshnessWitness.
Import Py Model Spec Metadata.

(** The theorem for an ISO string with a [Z] suffix, at a clock reading
    ten days after the parsed instant. *)
Lemma freshness_step_function_witness :
  let parse (s : string) :=
    if String.eqb s "1970-01-01T00:00:00+00:00"
    then Some {| wall_us := 0; utcoffset_us := Some 0%Z |} else None in
  let now := (10 * us_per_day)%Z in
  let tm := altered_table (LA_str "1970-01-01T00:00:00Z") in
  altered_at parse tm {| wall_us := 0; utcoffset_us := Some 0%Z |}
  /\ score_freshness parse now tm = 80.
Proof.
  intros parse now tm.
  assert (H : altered_at parse tm {| wall_us := 0; utcoffset_us := Some 0%Z |}).
  { apply (altered_string parse tm _ "1970-01-01T00:00:00Z");
      [reflexivity | discriminate | reflexivity]. }
  split; [exact H|].
  apply (proj1 (proj2 (proj1 (freshness_step_function parse now tm) _ H))).
  vm_compute. split; [reflexivity | intros E; discriminate E].
Defined.

End FreshnessWitness.

(** * Table readiness score *)

Section TableReadiness.
Import Py Model Spec Metadata.


Lemma round2_nonneg (x : Q) : 0 <= x -> 0 <= round2 x.
Proof.
  intros H. apply (round2_bounds x 0 (Qceiling x)); [exact H | apply Qle_ceiling].
Qed.

Lemma round2_hundredths (x : Q) : hundredths (round2 x).
Proof.
  exists (round_half_even (x * 100)). unfold round2. rewrite Qred_correct. field.
Qed.

Lemma round2_of_hundredths (x : Q) : hundredths x -> round2 x == x.
Proof. intros [n Hn]. exact (round2_exact x n Hn). Qed.

Lemma capped_range (x : Q) : 0 <= x -> in_percent_range (Py.min (round2 x) 100).
Proof.
  intros H. pose proof (round2_nonneg x H) as Hr.
  destruct (min_spec (round2 x) 100) as [[Hlt E] | [Hle E]]; rewrite E; split; lra.
Qed.

Lemma capped_hundredths (x : Q) : hundredths (Py.min (round2 x) 100).
Proof.
  destruct (min_spec (round2 x) 100) as [[_ E] | [_ E]]; rewrite E.
  - exists 10000%Z. reflexivity.
  - apply round2_hundredths.
Qed.

Lemma of_nat_nonneg (n : nat) : 0 <= of_nat n.
Proof.
  unfold of_nat. change 0 with (inject_Z 0). rewrite <- Zle_Qle. lia.
Qed.

Lemma ratio_nonneg (a b : Q) : 0 <= a -> 0 <= b -> 0 <= a / b.
Proof.
  intros Ha Hb. unfold Qdiv. apply Qmult_le_0_compat; [exact Ha|].
  apply Qinv_le_0_compat. exact Hb.
Qed.

Lemma capped_ok (x : Q) : 0 <= x -> scorer_ok (Py.min (round2 x) 100).
Proof. intros H. split; [apply capped_range; exact H | apply capped_hundredths]. Qed.

Lemma constant_ok (n : Z) : (0 <= n <= 100)%Z -> scorer_ok (inject_Z n).
Proof.
  intros [H0 H1]. split.
  - split.
    + change 0 with (inject_Z 0). rewrite <- Zle_Qle. exact H0.
    + change 100 with (inject_Z 100). rewrite <- Zle_Qle. exact H1.
  - exists (n * 100)%Z. rewrite inject_Z_mult. reflexivity.
Qed.

Lemma score_comments_ok (tm : table_meta) (cols : list column_meta) :
  scorer_ok (score_comments tm cols).
Proof.
  unfold score_comments. apply capped_ok.
  destruct cols as [|c cols']; [destruct (truthyS _); lra|].
  cbv zeta. set (ratio := of_nat _ / of_nat _).
  assert (Hr : 0 <= ratio) by (apply ratio_nonneg; apply of_nat_nonneg).
  clearbody ratio. destruct (truthyS _); lra.
Qed.

Lemma score_data_types_ok (cols : list column_meta) : scorer_ok (score_data_types cols).
Proof.
  unfold score_data_types. destruct cols as [|c cols']; [apply (constant_ok 0); lia|].
  destruct (fold_left data_types_step (c :: cols') (O, O)) as [sup par].
  apply capped_ok.
  pose proof (of_nat_nonneg sup) as Hs. pose proof (of_nat_nonneg par) as Hp.
  destruct (0 <? _)%nat; [|lra].
  assert (He : 0 <= of_nat sup + of_nat par * 0.5) by lra.
  set (ratio := _ / of_nat _).
  assert (Hr : 0 <= ratio) by (apply ratio_nonneg; [exact He | apply of_nat_nonneg]).
  clearbody ratio. lra.
Qed.

Lemma score_freshness_ok (parse : string -> option datetime) (now : Z) (tm : table_meta) :
  scorer_ok (score_freshness parse now tm).
Proof.
  assert (Hsteps : forall age, scorer_ok (freshness_steps age)).
  { intros age. unfold freshness_steps.
    destruct (age <=? 7)%Z; [apply (constant_ok 100); lia|].
    destruct (age <=? 30)%Z; [apply (constant_ok 80); lia|].
    destruct (age <=? 90)%Z; [apply (constant_ok 50); lia|].
    destruct (age <=? 180)%Z; [apply (constant_ok 25); lia|].
    apply (constant_ok 10); lia. }
  unfold score_freshness. destruct (last_altered tm) as [|s|d].
  - apply (constant_ok 0); lia.
  - destruct (negb (truthyS s)); [apply (constant_ok 0); lia|].
    destruct (parse _); [apply Hsteps | apply (constant_ok 0); lia].
  - apply Hsteps.
Qed.

Lemma score_clustering_ok (tm : table_meta) (storage : option storage_meta) :
  scorer_ok (score_clustering tm storage).
Proof.
  unfold score_clustering. apply capped_ok.
  destruct (truthyS _); destruct storage as [sm|];
    try destruct (truthyZ (active_bytes sm) && _ && _);
    try destruct (truthyZ (active_bytes sm) && _); lra.
Qed.

Lemma score_constraints_ok (cons : list constraint_meta) : scorer_ok (score_constraints cons).
Proof.
  unfold score_constraints. destruct cons as [|c cons']; [apply (constant_ok 0); lia|].
  apply capped_ok.
  destruct (in_set "PRIMARY KEY" _), (in_set "FOREIGN KEY" _), (in_set "UNIQUE" _); lra.
Qed.

Lemma reported_ok (x : Q) : scorer_ok x -> in_percent_range (round2 x) /\ round2 x == x.
Proof.
  intros [[H0 H1] Hh].
  pose proof (round2_of_hundredths x Hh) as E. split; [|exact E].
  split; rewrite E; assumption.
Qed.


End TableReadiness.

(** * The LLM classifier *)

Section LlmClassifier.
Import Py Model Spec Analysis.

Lemma prefix_spec (a b : string) :
  String.prefix a b = true <-> exists post, b = a +:+ post.
Proof.
  revert b. induction a as [|x a IH]; intros b.
  - split; [intros _; exists b; reflexivity | intros _; destruct b; reflexivity].
  - destruct b as [|y b]; simpl.
    + split; [discriminate | intros [post H]; discriminate H].
    + destruct (ascii_dec x y) as [E | NE].
      * subst y. rewrite IH. split.
        -- intros [post H]. exists post. rewrite H. reflexivity.
        -- intros [post H]. exists post. injection H as H. exact H.
      * split; [discriminate | intros [post H]; injection H as H1 H2; congruence].
Qed.

Lemma contains_spec (sub s : string) :
  contains sub s = true <-> substring_of sub s.
Proof.
  induction s as [|c s IH].
  - change (contains sub "") with (String.prefix sub "" || false).
    rewrite orb_true_iff, prefix_spec. split.
    + intros [[post H] | H]; [|discriminate H]. exists "", post. exact H.
    + intros [pre [post H]]. left.
      destruct pre; [exists post; exact H | discriminate H].
  - change (contains sub (String c s))
      with (String.prefix sub (String c s) || contains sub s).
    rewrite orb_true_iff, prefix_spec, IH. split.
    + intros [[post H] | [pre [post H]]].
      * exists "", post. exact H.
      * exists (String c pre), post. simpl. rewrite H. reflexivity.
    + intros [pre [post H]]. destruct pre as [|c' pre].
      * left. exists post. exact H.
      * right. simpl in H. injection H as _ H. exists pre, post. exact H.
Qed.

Lemma any_in_spec (ts : list string) (s : string) :
  any_in ts s = true <-> exists t, In t ts /\ substring_of t s.
Proof.
  unfold any_in. rewrite existsb_exists.
  split; intros [t [Hin H]]; exists t; (split; [exact Hin|]); apply contains_spec; exact H.
Qed.

Lemma is_long_text_spec (row : column_row) :
  is_long_text (r_max_len row) = true <-> long_declared row.
Proof.
  unfold is_long_text, long_declared. destruct (r_max_len row) as [n|].
  - rewrite andb_true_iff. unfold truthyZ. rewrite negb_true_iff, Z.eqb_neq, Z.leb_le.
    split.
    + intros [_ H]. exists n. split; [reflexivity | exact H].
    + intros [m [E H]]. injection E as E. subst m. split; lia.
  - split; [discriminate | intros [n [E _]]; discriminate E].
Qed.

Lemma llm_step_flagged (row : column_row) (c : candidate) :
  In c (llm_step [] row) <->
  exists dt, llm_flagged row dt /\ c = llm_candidate row dt.
Proof.
  unfold llm_step, llm_flagged.
  destruct (r_data_type row) as [dt|] eqn:Edt.
  - destruct (negb (truthyS dt)) eqn:Et.
    + split; [intros []|]. intros [dt' [[E [[t [Hin Hsub]] _]] _]].
      injection E as E. subst dt'.
      apply negb_true_iff in Et. unfold truthyS in Et.
      apply negb_false_iff, String.eqb_eq in Et. subst dt.
      destruct Hsub as [pre [post H]].
      simpl in Hin.
      destruct Hin as [<- | [<- | [<- | [<- | []]]]];
        destruct pre; discriminate H.
    + destruct (is_text_type (upper dt) && (is_long_text (r_max_len row)
                  || has_text_indicator (upper (default "" (r_column row))))) eqn:Ef.
      * apply andb_true_iff in Ef as [Ht Hl]. apply orb_true_iff in Hl.
        simpl. split.
        -- intros [<- | []]. exists dt. split; [|reflexivity].
           split; [reflexivity|]. split; [apply any_in_spec; exact Ht|].
           destruct Hl as [Hl | Hl];
             [left; apply is_long_text_spec | right; apply any_in_spec]; exact Hl.
        -- intros [dt' [[E _] ->]]. injection E as <-. left. reflexivity.
      * split; [intros []|]. intros [dt' [[E [Ht Hl]] _]]. injection E as <-.
        apply andb_false_iff in Ef. destruct Ef as [Ef | Ef].
        -- apply any_in_spec in Ht. unfold is_text_type in Ef. congruence.
        -- apply orb_false_iff in Ef as [E1 E2].
           destruct Hl as [Hl | Hl].
           ++ apply is_long_text_spec in Hl. congruence.
           ++ apply any_in_spec in Hl. unfold has_text_indicator in E2. congruence.
  - split; [intros []|]. intros [dt [[E _] _]]. discriminate E.
Qed.

Lemma llm_step_appends (acc : list candidate) (row : column_row) :
  llm_step acc row = (acc ++ llm_step [] row)%list.
Proof.
  unfold llm_step. destruct (r_data_type row) as [dt|]; [|rewrite app_nil_r; reflexivity].
  destruct (negb (truthyS dt)); [rewrite app_nil_r; reflexivity|].
  destruct (is_text_type _ && _); [reflexivity | rewrite app_nil_r; reflexivity].
Qed.

Lemma identify_llm_candidates_flat_map (rows : list column_row) :
  identify_llm_candidates rows = flat_map (llm_step []) rows.
Proof.
  unfold identify_llm_candidates.
  assert (H : forall acc, fold_left llm_step rows acc
                          = (acc ++ flat_map (llm_step []) rows)%list).
  { induction rows as [|row rows IH]; intros acc; simpl.
    - rewrite app_nil_r. reflexivity.
    - rewrite IH, (llm_step_appends acc row), <- app_assoc. reflexivity. }
  apply (H []).
Qed.

(** C6.  The LLM classifier returns, in the order of the rows, one
    candidate for every row it flags, and it flags a row if and only if
    its declared type is textual (the upper-cased type contains VARCHAR,
    TEXT, STRING or CHAR) and its declared maximal length is at least 500
    or its upper-cased name contains one of the sixteen indicators.  The
    reason of the candidate ends in "long text" when the length
    qualified and in "semantic name" otherwise.  A column DESCRIPTION of
    type VARCHAR and length 2000 is a candidate. *)
Theorem llm_classifier_flags (rows : list column_row) :
  identify_llm_candidates rows = flat_map (llm_step []) rows
  /\ (forall c, In c (identify_llm_candidates rows) <->
                exists row dt, In row rows /\ llm_flagged row dt
                               /\ c = llm_candidate row dt)
  /\ List.length text_indicators = 16%nat
  /\ (forall row dt,
        c_ai_feature (llm_candidate row dt) = "Cortex LLM"
        /\ (long_declared row ->
            c_reason (llm_candidate row dt)
            = "Text column (" +:+ dt +:+ ") - long text")
        /\ (~ long_declared row ->
            c_reason (llm_candidate row dt)
            = "Text column (" +:+ dt +:+ ") - semantic name"))
  /\ llm_flagged description_row "VARCHAR"
  /\ identify_llm_candidates [description_row] = [scenario_candidate].
Proof.
  split; [apply identify_llm_candidates_flat_map|].
  split.
  { intros c. rewrite identify_llm_candidates_flat_map, in_flat_map. split.
    - intros [row [Hin Hc]]. apply llm_step_flagged in Hc as [dt [Hf Hc]].
      exists row, dt. auto.
    - intros [row [dt [Hin [Hf Hc]]]]. exists row. split; [exact Hin|].
      apply llm_step_flagged. exists dt. auto. }
  split; [reflexivity|].
  split.
  { intros row dt. split; [reflexivity|]. unfold llm_candidate; cbn [c_reason].
    split; intros H.
    - apply is_long_text_spec in H. rewrite H. reflexivity.
    - destruct (is_long_text (r_max_len row)) eqn:E; [|reflexivity].
      apply is_long_text_spec in E. contradiction. }
  split; [|reflexivity].
  split; [reflexivity|]. split.
  - exists "VARCHAR". split; [left; reflexivity|]. exists "", "". reflexivity.
  - left. exists 2000%Z. split; [reflexivity | lia].
Qed.

Lemma llm_classifier_flags_witness :
  In description_row [description_row]
  /\ llm_flagged description_row "VARCHAR"
  /\ In (llm_candidate description_row "VARCHAR")
        (identify_llm_candidates [description_row]).
Proof.
  assert (Hin : In description_row [description_row]) by (left; reflexivity).
  assert (Hf : llm_flagged description_row "VARCHAR")
    by exact (proj1 (proj2 (proj2 (proj2 (proj2 (llm_classifier_flags [])))))).
  split; [exact Hin|]. split; [exact Hf|].
  apply (proj2 (proj1 (proj2 (llm_classifier_flags [description_row])) _)).
  exists description_row, "VARCHAR". split; [exact Hin|]. split; [exact Hf | reflexivity].
Defined.

End LlmClassifier.

(** * Merging candidate lists *)

Section Merge.
Import Py Model Spec Analysis.

Lemma collect_keys_spec (existing : list candidate) (k : string) :
  k ∈ collect_keys existing <-> k ∈ keys_of existing.
Proof.
  unfold collect_keys, keys_of.
  assert (H : forall (acc : gset string),
             k ∈ fold_left (fun keys c => {[candidate_key c]} ∪ keys) existing acc
             <-> k ∈ acc \/ k ∈ List.map candidate_key existing).
  { induction existing as [|c cs IH]; intros acc; simpl.
    - rewrite elem_of_nil. tauto.
    - rewrite IH, elem_of_union, elem_of_singleton, elem_of_cons. tauto. }
  rewrite H, elem_of_empty. tauto.
Qed.

Lemma fresh_sublist (seen : list string) (new : list candidate) :
  fresh seen new `sublist_of` new.
Proof.
  revert seen. induction new as [|c rest IH]; intros seen; simpl.
  - constructor.
  - case_bool_decide.
    + apply sublist_cons. apply IH.
    + apply sublist_skip. apply IH.
Qed.

Lemma fresh_not_seen (seen : list string) (new : list candidate) (c : candidate) :
  c ∈ fresh seen new -> candidate_key c ∉ seen.
Proof.
  revert seen. induction new as [|d rest IH]; intros seen; simpl.
  - intros H. apply elem_of_nil in H. contradiction.
  - case_bool_decide as Hd.
    + apply IH.
    + rewrite elem_of_cons. intros [-> | H]; [exact Hd|].
      apply IH in H. rewrite not_elem_of_cons in H. tauto.
Qed.

Lemma fresh_keys_nodup (seen : list string) (new : list candidate) :
  NoDup (keys_of (fresh seen new)).
Proof.
  revert seen. induction new as [|d rest IH]; intros seen; simpl.
  - constructor.
  - case_bool_decide as Hd; [apply IH|].
    unfold keys_of; simpl. constructor; [|apply IH].
    intros Hin. apply list_elem_of_fmap in Hin as [c [Hk Hc]].
    apply fresh_not_seen in Hc. rewrite <- Hk in Hc.
    apply Hc. left.
Qed.

Lemma fresh_covers (seen : list string) (new : list candidate) (c : candidate) :
  c ∈ new -> candidate_key c ∈ seen \/ candidate_key c ∈ keys_of (fresh seen new).
Proof.
  revert seen. induction new as [|d rest IH]; intros seen; simpl.
  - intros H. apply elem_of_nil in H. contradiction.
  - rewrite elem_of_cons. intros [-> | H].
    + case_bool_decide as Hd; [left; exact Hd|].
      right. unfold keys_of; simpl. left.
    + case_bool_decide as Hd; [apply IH; exact H|].
      destruct (IH (candidate_key d :: seen) H) as [Hs | Hf].
      * apply elem_of_cons in Hs as [-> | Hs]; [|left; exact Hs].
        right. unfold keys_of; simpl. left.
      * right. unfold keys_of; simpl. right. exact Hf.
Qed.

Lemma merge_step_seen (m : merge_state) (c : candidate) :
  candidate_key c ∈ m_existing_keys m ->
  merge_step m c =
    {| m_existing := m_existing m; m_existing_keys := m_existing_keys m;
       m_added_count := m_added_count m;
       m_updated_count := S (m_updated_count m) |}.
Proof.
  intros H. unfold merge_step.
  rewrite bool_decide_eq_false_2; [reflexivity|].
  intros Hn. exact (Hn H).
Qed.

Lemma merge_step_new (m : merge_state) (c : candidate) :
  candidate_key c ∉ m_existing_keys m ->
  merge_step m c =
    {| m_existing := m_existing m ++ [c];
       m_existing_keys := {[candidate_key c]} ∪ m_existing_keys m;
       m_added_count := S (m_added_count m);
       m_updated_count := m_updated_count m |}.
Proof.
  intros H. unfold merge_step. rewrite bool_decide_eq_true_2; [reflexivity | exact H].
Qed.

Lemma merge_fold (new : list candidate) :
  forall (m : merge_state) (seen : list string),
    (forall k, k ∈ m_existing_keys m <-> k ∈ seen) ->
    m_existing (fold_left merge_step new m) = (m_existing m ++ fresh seen new)%list
    /\ m_added_count (fold_left merge_step new m)
       = (m_added_count m + List.length (fresh seen new))%nat
    /\ (m_added_count (fold_left merge_step new m)
        + m_updated_count (fold_left merge_step new m)
        = m_added_count m + m_updated_count m + List.length new)%nat.
Proof.
  induction new as [|c rest IH]; intros m seen Hkeys.
  - simpl. rewrite app_nil_r. repeat split; lia.
  - cbn [fold_left fresh List.length].
    destruct (decide (candidate_key c ∈ seen)) as [Hin | Hnin].
    + rewrite (bool_decide_eq_true_2 _ Hin).
      rewrite (merge_step_seen m c (proj2 (Hkeys _) Hin)).
      destruct (IH {| m_existing := m_existing m;
                      m_existing_keys := m_existing_keys m;
                      m_added_count := m_added_count m;
                      m_updated_count := S (m_updated_count m) |} seen Hkeys)
        as (H1 & H2 & H3).
      cbn [m_existing m_added_count m_updated_count] in H1, H2, H3.
      split; [exact H1|]. split; lia.
    + rewrite (bool_decide_eq_false_2 _ Hnin).
      assert (Hn : candidate_key c ∉ m_existing_keys m)
        by (intros Hn; apply Hnin, Hkeys, Hn).
      rewrite (merge_step_new m c Hn).
      destruct (IH {| m_existing := m_existing m ++ [c];
                      m_existing_keys := {[candidate_key c]} ∪ m_existing_keys m;
                      m_added_count := S (m_added_count m);
                      m_updated_count := m_updated_count m |}
                   (candidate_key c :: seen))
        as (H1 & H2 & H3).
      { intros k. cbn [m_existing_keys].
        rewrite elem_of_union, elem_of_singleton, elem_of_cons, Hkeys. tauto. }
      cbn [m_existing m_added_count m_updated_count] in H1, H2, H3.
      split; [rewrite H1, <- app_assoc; reflexivity|]. cbn [List.length]. split; lia.
Qed.

(** C10.  The merge keeps the existing list as it is and appends, in
    input order, the new candidates whose key [database.schema.table.column]
    is not yet there (neither among the existing candidates nor earlier in
    the new list); it reports how many it added and how many already
    existed, the two counts adding up to the length of the new list.
    Merging one duplicate and one new key reports one added and one
    already existing, and the result is one longer than the existing
    list. *)
Theorem merge_candidates_contract (existing new : list candidate) :
  let result := merge_candidates existing new in
  let merged := result.1 in
  let added := result.2.1 in
  let already_existed := result.2.2 in
  let appended := fresh (keys_of existing) new in
  merged = (existing ++ appended)%list
  /\ appended `sublist_of` new
  /\ (forall c, c ∈ appended -> candidate_key c ∉ keys_of existing)
  /\ NoDup (keys_of appended)
  /\ (forall c, c ∈ new -> candidate_key c ∈ keys_of merged)
  /\ added = List.length appended
  /\ (added + already_existed = List.length new)%nat
  /\ List.length merged = (List.length existing + added)%nat
  /\ (forall d e,
        candidate_key d ∈ keys_of existing ->
        candidate_key e ∉ keys_of existing ->
        merge_candidates existing [d; e] = ((existing ++ [e])%list, (1%nat, 1%nat))
        /\ merge_candidates existing [e; d] = ((existing ++ [e])%list, (1%nat, 1%nat))).
Proof.
  set (m0 := {| m_existing := existing; m_existing_keys := collect_keys existing;
                m_added_count := O; m_updated_count := O |}).
  assert (Hfold : forall news,
    m_existing (fold_left merge_step news m0)
    = (existing ++ fresh (keys_of existing) news)%list
    /\ m_added_count (fold_left merge_step news m0)
       = List.length (fresh (keys_of existing) news)
    /\ (m_added_count (fold_left merge_step news m0)
        + m_updated_count (fold_left merge_step news m0) = List.length news)%nat).
  { intros news.
    apply (merge_fold news m0 (keys_of existing)).
    intros k. apply collect_keys_spec. }
  intros result merged added already_existed appended.
  destruct (Hfold new) as (H1 & H2 & H3).
  subst merged added already_existed result appended.
  unfold merge_candidates. fold m0. cbn [fst snd].
  split; [exact H1|].
  split; [apply fresh_sublist|].
  split; [intros c; apply fresh_not_seen|].
  split; [apply fresh_keys_nodup|].
  split.
  { intros c Hc. rewrite H1. unfold keys_of. rewrite map_app.
    apply elem_of_app. apply fresh_covers. exact Hc. }
  split; [exact H2|].
  split; [exact H3|].
  split; [rewrite H1, length_app, H2; reflexivity|].
  intros d e Hd He.
  assert (Hde : candidate_key d ∈ candidate_key e :: keys_of existing)
    by (right; exact Hd).
  split.
  - destruct (Hfold [d; e]) as (G1 & G2 & G3).
    simpl fresh in G1, G2.
    rewrite (bool_decide_eq_true_2 _ Hd), (bool_decide_eq_false_2 _ He) in G1, G2.
    cbn [List.length] in G2, G3. unfold merge_candidates. fold m0. rewrite G1.
    f_equal. f_equal; lia.
  - destruct (Hfold [e; d]) as (G1 & G2 & G3).
    simpl fresh in G1, G2.
    rewrite (bool_decide_eq_false_2 _ He), (bool_decide_eq_true_2 _ Hde) in G1, G2.
    cbn [List.length] in G2, G3. unfold merge_candidates. fold m0. rewrite G1.
    f_equal. f_equal; lia.
Qed.

(** Scenario E: the existing list holds [A.B.C.D], the new list [A.B.C.D]
    and [A.B.C.E]. *)
Lemma merge_candidates_contract_witness :
  (candidate_key (column_candidate "D") ∈ keys_of [column_candidate "D"])
  /\ (candidate_key (column_candidate "E") ∉ keys_of [column_candidate "D"])
  /\ merge_candidates [column_candidate "D"]
       [column_candidate "D"; column_candidate "E"]
     = (([column_candidate "D"] ++ [column_candidate "E"])%list, (1%nat, 1%nat)).
Proof.
  assert (Hd : candidate_key (column_candidate "D") ∈ keys_of [column_candidate "D"])
    by (left).
  assert (He : candidate_key (column_candidate "E") ∉ keys_of [column_candidate "D"]).
  { intros H. apply list_elem_of_singleton in H. discriminate H. }
  split; [exact Hd|]. split; [exact He|].
  exact (proj1 (proj2 (proj2 (proj2 (proj2 (proj2 (proj2 (proj2 (proj2
           (merge_candidates_contract [column_candidate "D"] []))))))))
           (column_candidate "D") (column_candidate "E") Hd He)).
Defined.

End Merge.

(** * Scores and total score *)

Section TotalScore.
Import Py Model Spec Analysis.

Lemma null_rate_points_range (p : Q) : 0 <= null_rate_points p /\ null_rate_points p <= 2.
Proof.
  unfold null_rate_points.
  destruct (leq p 10); [|destruct (leq p 30); [|destruct (leq p 50);
    [|destruct (leq p 70)]]]; split; vm_compute; discriminate.
Qed.

Lemma content_points_range (l : option Q) : 0 <= content_points l /\ content_points l <= 2.
Proof.
  unfold content_points. destruct l as [l|]; [|split; vm_compute; discriminate].
  destruct (geq l 200); [|destruct (geq l 100); [|destruct (geq l 50);
    [|destruct (gt l 0)]]]; split; vm_compute; discriminate.
Qed.

Lemma quality_points_range (a b : bool) : 0 <= quality_points a b /\ quality_points a b <= 1.
Proof. destruct a, b; split; vm_compute; discriminate. Qed.

Lemma efficiency_points_range (m d : option Z) :
  0 <= efficiency_points m d /\ efficiency_points m d <= 1.
Proof.
  unfold efficiency_points.
  destruct m as [m|]; [|split; vm_compute; discriminate].
  destruct d as [d|]; [|split; vm_compute; discriminate].
  destruct (0 <? d)%Z; [|split; vm_compute; discriminate].
  destruct (gt _ 50); [|destruct (geq _ 25)]; split; vm_compute; discriminate.
Qed.

Lemma metadata_score_on_scale (c : candidate) (st : stats) :
  on_scale (Metadata.enhance_data_readiness_score_metadata c st).
Proof.
  destruct (stats_empty st) eqn:E.
  - unfold Metadata.enhance_data_readiness_score_metadata. rewrite E.
    split; vm_compute; discriminate.
  - unfold on_scale. rewrite (metadata_score_components c st E).
    pose proof (null_rate_points_range (default 50 (st_null_percentage st))).
    pose proof (content_points_range (st_avg_length st)).
    pose proof (quality_points_range (has_comment st) (not_nullable st)).
    lra.
Qed.

Lemma sample_score_on_scale (c : candidate) (st : stats) :
  on_scale (enhance_data_readiness_score c st).
Proof.
  destruct (stats_empty st) eqn:E.
  - unfold enhance_data_readiness_score. rewrite E.
    split; vm_compute; discriminate.
  - unfold on_scale. rewrite (sample_score_components c st E).
    pose proof (null_rate_points_range (default 100 (st_null_percentage st))).
    pose proof (content_points_range (st_avg_length st)).
    pose proof (efficiency_points_range (st_max_length st) (c_max_length c)).
    lra.
Qed.

Lemma readiness_from_profiles_on_scale
    (c : candidate) (tps : list text_profile) (q : Q) :
  on_scale q -> on_scale (readiness_from_profiles c tps q).
Proof.
  intros Hq. induction tps as [|p rest IH]; simpl; [exact Hq|].
  destruct (profile_matches c p); [|exact IH].
  assert (H4 : on_scale 4) by (split; vm_compute; discriminate).
  assert (H5 : on_scale 5) by (split; vm_compute; discriminate).
  destruct (gt (tp_avg_length p) 100); destruct (truthyZ _ && truthyZ _);
    try destruct (gt _ 0.9); assumption.
Qed.

Lemma score_candidate_consistent (c : candidate) (tps : list text_profile) :
  scores_consistent (score_candidate c tps).
Proof.
  unfold scores_consistent, score_candidate. cbn [c_scores c_total_score set_scores].
  split; [|reflexivity].
  eexists _, _, _, _. split; [reflexivity|].
  assert (H2 : on_scale 2) by (split; vm_compute; discriminate).
  assert (H3 : on_scale 3) by (split; vm_compute; discriminate).
  assert (H4 : on_scale 4) by (split; vm_compute; discriminate).
  assert (H5 : on_scale 5) by (split; vm_compute; discriminate).
  split; [|split; [|split]].
  - destruct (String.eqb _ "Cortex LLM"); [exact H4|].
    destruct (String.eqb _ "Cortex ML (Forecasting/Anomaly)"); [exact H5|].
    destruct (String.eqb _ "Cortex Search / RAG"); [exact H4|].
    destruct (String.eqb _ "Cortex Extract"); exact H3.
  - apply readiness_from_profiles_on_scale. exact H3.
  - destruct (truthy_opt truthyS (c_comment c)); assumption.
  - destruct (existsb _ pii_indicators); assumption.
Qed.

Lemma store_readiness_consistent (c : candidate) (q : Q) :
  scores_consistent c -> on_scale q -> scores_consistent (store_readiness c q).
Proof.
  intros Hc Hq. unfold scores_consistent, store_readiness.
  cbn [c_scores c_total_score set_scores]. split; [|reflexivity].
  unfold scores_consistent in Hc. destruct (c_scores c) as [s|]; cbn [default].
  - destruct Hc as [(bp & dr & mq & gr & -> & Hbp & Hdr & Hmq & Hgr) _].
    exists bp, q, mq, gr. split; [reflexivity|]. auto.
  - exists 3, q, 2, 2. split; [reflexivity|].
    repeat split; try exact (proj1 Hq); try exact (proj2 Hq); vm_compute; discriminate.
Qed.

Lemma reachable_consistent (c : candidate) : reachable c -> scores_consistent c.
Proof.
  induction 1 as [c Hs Ht | c tps _ _ | c _ IH | c _ IH | c st _ IH | c st _ IH
                  | cfg c _ IH].
  - unfold scores_consistent. rewrite Hs. exact Ht.
  - apply score_candidate_consistent.
  - unfold rescore_metadata. destruct (stats_empty _); [exact IH|].
    apply store_readiness_consistent; [exact IH | apply metadata_score_on_scale].
  - unfold rescore_sample. destruct (c_statistics c) as [st|]; [|exact IH].
    apply store_readiness_consistent; [exact IH | apply sample_score_on_scale].
  - unfold rescore_full_scan.
    assert (Hc : scores_consistent (set_statistics c (Some st))) by exact IH.
    destruct (c_scores (set_statistics c (Some st))); [|exact Hc].
    apply store_readiness_consistent; [exact Hc | apply sample_score_on_scale].
  - exact IH.
  - unfold flag_confirmed. destruct (is_confirmed_candidate cfg c None). exact IH.
Qed.

(** C1.  For every candidate the pipeline can hold, once scores are
    assigned (by [score_candidate] or by a re-scoring pass that overwrites
    the data readiness) all four dimension scores are there, the total
    score is the sum of the score values and equals business potential +
    data readiness + metadata quality + governance risk, and it lies
    between 0 and 20; no step changes one without the other, and a
    candidate without scores has no total. *)
Theorem total_score_is_sum (c : candidate) :
  reachable c ->
  (forall s, c_scores c = Some s ->
     exists bp dr mq gr t,
       business_potential s = Some bp /\ data_readiness s = Some dr
       /\ metadata_quality s = Some mq /\ governance_risk s = Some gr
       /\ c_total_score c = Some t
       /\ t = sum_values s
       /\ t == bp + dr + mq + gr
       /\ 0 <= t /\ t <= 20)
  /\ (c_scores c = None -> c_total_score c = None).
Proof.
  intros Hr. apply reachable_consistent in Hr. unfold scores_consistent in Hr.
  split.
  - intros s Hs. rewrite Hs in Hr.
    destruct Hr as [(bp & dr & mq & gr & -> & [B0 B5] & [D0 D5] & [M0 M5] & [G0 G5]) Ht].
    exists bp, dr, mq, gr, (bp + dr + mq + gr).
    repeat split; try reflexivity; try exact Ht; try lra.
  - intros Hs. rewrite Hs in Hr. exact Hr.
Qed.

(** The scenario candidate, given its statistics, scored and re-scored
    from the metadata. *)
Lemma total_score_is_sum_witness :
  let c := rescore_metadata
             (score_candidate (set_statistics scenario_candidate (Some scenario_stats)) []) in
  reachable c
  /\ (c_scores c = None -> c_total_score c = None).
Proof.
  intros c.
  assert (Hr : reachable c).
  { apply reach_rescore_metadata, reach_score, reach_statistics, reach_classified;
      reflexivity. }
  split; [exact Hr|].
  exact (proj2 (total_score_is_sum c Hr)).
Defined.

End TotalScore.
(** * Stage gating *)

Section StageGating.
Import Py Stages.

Lemma valid_stage_index (i : nat) (s : string) :
  VALID_STAGES !! i = Some s ->
  s <> "" /\ upper s = s /\ stage_index s = i.
Proof.
  intros H.
  do 13 (destruct i as [|i];
         [injection H as <-; split; [discriminate|]; split; vm_compute; reflexivity|]).
  discriminate H.
Qed.

Lemma unknown_stage_index (s : string) : s ∉ VALID_STAGES -> stage_index s = O.
Proof.
  intros H. unfold stage_index, STAGE_ORDER.
  rewrite (not_elem_of_list_to_map_1 _ s); [reflexivity|exact H].
Qed.

Lemma upper_nonempty (s : string) : upper s <> "" -> truthyS s = true.
Proof. destruct s; [intros H; contradiction H; reflexivity | reflexivity]. Qed.

(** X1.  When a start stage is given, a stage runs exactly when it does not
    come before the start stage in the execution order; stage names are
    read without regard to case. *)
Theorem stages_run_from_start_on (i j : nat) (current_stage start_stage : string) :
  VALID_STAGES !! i = Some (upper current_stage) ->
  VALID_STAGES !! j = Some (upper start_stage) ->
  (should_run_stage current_stage (Some start_stage) = true <-> (j <= i)%nat).
Proof.
  intros Hi Hj.
  destruct (valid_stage_index i _ Hi) as (_ & _ & Ei).
  destruct (valid_stage_index j _ Hj) as (Hne & _ & Ej).
  unfold should_run_stage. rewrite (upper_nonempty _ Hne). cbn [negb].
  rewrite Ei, Ej. apply Nat.leb_le.
Qed.

Lemma stages_run_from_start_on_witness :
  VALID_STAGES !! 3%nat = Some (upper "2b")
  /\ VALID_STAGES !! 4%nat = Some (upper "2c")
  /\ (should_run_stage "2b" (Some "2c") = true <-> (4 <= 3)%nat).
Proof.
  split; [reflexivity|]. split; [reflexivity|].
  exact (stages_run_from_start_on 3 4 "2b" "2c" eq_refl eq_refl).
Defined.

(** X2.  Without a start stage every stage runs.  A start stage that is not
    a valid stage name counts as the first stage, so that every stage runs;
    a current stage that is not a valid name runs only when the start stage
    is the first one. *)
Theorem unknown_stages_count_as_first (current_stage start_stage : string) :
  should_run_stage current_stage None = true
  /\ should_run_stage current_stage (Some "") = true
  /\ (upper start_stage ∉ VALID_STAGES ->
      should_run_stage current_stage (Some start_stage) = true)
  /\ (upper current_stage ∉ VALID_STAGES ->
      forall j, VALID_STAGES !! j = Some (upper start_stage) ->
                (should_run_stage current_stage (Some start_stage) = true <-> j = O)).
Proof.
  split; [reflexivity|]. split; [reflexivity|]. split.
  - intros H. unfold should_run_stage.
    destruct (negb (truthyS start_stage)); [reflexivity|].
    rewrite (unknown_stage_index _ H). reflexivity.
  - intros H j Hj.
    destruct (valid_stage_index j _ Hj) as (Hne & _ & Ej).
    unfold should_run_stage. rewrite (upper_nonempty _ Hne). cbn [negb].
    rewrite Ej, (unknown_stage_index _ H), Nat.leb_le. lia.
Qed.

Lemma unknown_stages_count_as_first_witness :
  (upper "7" ∉ VALID_STAGES) /\ should_run_stage "1" (Some "7") = true.
Proof.
  assert (H : upper "7" ∉ VALID_STAGES).
  { intros H. repeat (apply elem_of_cons in H as [H | H]; [discriminate H|]).
    apply elem_of_nil in H. exact H. }
  split; [exact H|].
  exact (proj1 (proj2 (proj2 (unknown_stages_count_as_first "1" "7"))) H).
Defined.

End StageGating.

(** * Identifier validation *)

Section IdentifierValidation.
Import Py Identifiers Notions.

Lemma append_cons (c : ascii) (a b : string) : String c a +:+ b = String c (a +:+ b).
Proof. reflexivity. Qed.

Lemma append_empty_r (s : string) : s +:+ "" = s.
Proof.
  induction s as [|c s IH]; [reflexivity|]. rewrite append_cons, IH. reflexivity.
Qed.

Lemma after_class_run_split (s : string) :
  exists body, s = body +:+ after_class_run s /\ all_class body = true
               /\ (after_class_run s = ""
                   \/ exists c rest, after_class_run s = String c rest
                                     /\ identifier_char c = false).
Proof.
  induction s as [|c s IH]; simpl.
  - exists "". repeat split. left. reflexivity.
  - destruct (identifier_char c) eqn:E.
    + destruct IH as (body & Hs & Hb & Hr). exists (String c body).
      split; [change (String c s = String c (body +:+ after_class_run s));
              f_equal; exact Hs|].
      split; [simpl; rewrite E, Hb; reflexivity | exact Hr].
    + exists "". repeat split. right. exists c, s. split; [reflexivity | exact E].
Qed.

Lemma after_class_run_app (body rest : string) :
  all_class body = true ->
  (rest = "" \/ exists c r, rest = String c r /\ identifier_char c = false) ->
  after_class_run (body +:+ rest) = rest.
Proof.
  intros Hb Hr. induction body as [|c body IH]; simpl.
  - destruct Hr as [-> | (c & r & -> & E)]; [reflexivity|]. simpl. rewrite E. reflexivity.
  - simpl in Hb. apply andb_true_iff in Hb as [Hc Hb]. rewrite Hc. apply IH. exact Hb.
Qed.

Lemma newline_not_class : identifier_char newline = false.
Proof. reflexivity. Qed.

Lemma match_identifier_spec (s : string) :
  match_identifier s = true <->
  exists body, body <> "" /\ all_class body = true
               /\ (s = body \/ s = body +:+ char_string newline).
Proof.
  split.
  - intros H. destruct s as [|c s]; [discriminate H|].
    unfold match_identifier in H. apply andb_true_iff in H as [Hc Hr].
    destruct (after_class_run_split (String c s)) as (body & Hs & Hb & _).
    assert (Hne : body <> "").
    { intros ->. simpl in Hs. simpl after_class_run in Hs. rewrite Hc in Hs.
      assert (Hl : String.length (String c s) = String.length (after_class_run s))
        by (rewrite Hs at 1; reflexivity).
      clear - Hl. simpl in Hl.
      assert (Hle : forall t, (String.length (after_class_run t) <= String.length t)%nat).
      { induction t as [|d t IH]; simpl; [lia|]. destruct (identifier_char d); simpl; lia. }
      specialize (Hle s). lia. }
    exists body. split; [exact Hne|]. split; [exact Hb|].
    apply orb_true_iff in Hr as [Hr | Hr]; apply String.eqb_eq in Hr; rewrite Hr in Hs.
    + left. rewrite Hs. apply append_empty_r.
    + right. exact Hs.
  - intros (body & Hne & Hb & Hs).
    destruct body as [|c body]; [contradiction Hne; reflexivity|].
    assert (Hc : identifier_char c = true).
    { simpl in Hb. apply andb_true_iff in Hb as [Hc _]. exact Hc. }
    destruct Hs as [-> | ->].
    + unfold match_identifier. rewrite Hc. cbn [andb].
      rewrite <- (append_empty_r (String c body)).
      rewrite (after_class_run_app _ "" Hb); [reflexivity | left; reflexivity].
    + change (String c body +:+ char_string newline)
        with (String c (body +:+ char_string newline)).
      unfold match_identifier. rewrite Hc. cbn [andb].
      change (String c (body +:+ char_string newline))
        with (String c body +:+ char_string newline).
      rewrite (after_class_run_app _ _ Hb); [reflexivity|].
      right. exists newline, "". split; reflexivity.
Qed.

Lemma prefix_char (c x : ascii) (t : string) :
  String.prefix (char_string c) (String x t) = if ascii_dec c x then true else false.
Proof.
  unfold char_string. simpl. destruct (ascii_dec c x); [|reflexivity].
  destruct t; reflexivity.
Qed.

Lemma contains_cons (sub : string) (x : ascii) (t : string) :
  contains sub (String x t) = String.prefix sub (String x t) || contains sub t.
Proof. reflexivity. Qed.

Lemma contains_char_app (c : ascii) (a b : string) :
  contains (char_string c) (a +:+ b)
  = contains (char_string c) a || contains (char_string c) b.
Proof.
  induction a as [|x a IH].
  - reflexivity.
  - rewrite append_cons, !contains_cons, IH, !prefix_char, orb_assoc. reflexivity.
Qed.

Lemma all_class_no_other (c : ascii) (body : string) :
  all_class body = true -> identifier_char c = false ->
  contains (char_string c) body = false.
Proof.
  intros Hb Hc. induction body as [|x body IH]; [reflexivity|].
  simpl in Hb. apply andb_true_iff in Hb as [Hx Hb].
  rewrite contains_cons, (IH Hb), orb_false_r, prefix_char.
  destruct (ascii_dec c x) as [-> | _]; [congruence | reflexivity].
Qed.

(** X3.  An identifier is accepted, and handed back unchanged, exactly when
    it is a non-empty run of letters, digits, underscores and dollar signs,
    possibly followed by one newline at the very end; anything else raises
    the error naming the identifier.  An accepted identifier therefore holds
    no character outside that class other than a final newline: no quote,
    dot, blank or semicolon. *)
Theorem identifier_accepted_iff (identifier name : string) :
  (validate_snowflake_identifier identifier name = Returned identifier <->
   exists body, body <> "" /\ all_class body = true
                /\ (identifier = body \/ identifier = body +:+ char_string newline))
  /\ (validate_snowflake_identifier identifier name = Returned identifier
      \/ validate_snowflake_identifier identifier name
         = Raised ("Invalid " +:+ name +:+ ": " +:+ identifier))
  /\ (forall r, validate_snowflake_identifier identifier name = Returned r ->
        r = identifier
        /\ forall c, identifier_char c = false -> c <> newline ->
                     contains (char_string c) r = false).
Proof.
  unfold validate_snowflake_identifier.
  destruct (match_identifier identifier) eqn:E; cbn [negb].
  - apply match_identifier_spec in E. split; [split; [intros _; exact E | reflexivity]|].
    split; [left; reflexivity|].
    intros r Hr. injection Hr as <-. split; [reflexivity|].
    intros c Hc Hn. destruct E as (body & _ & Hb & [-> | ->]).
    + apply all_class_no_other; assumption.
    + rewrite contains_char_app, (all_class_no_other c body Hb Hc). cbn [orb].
      unfold char_string at 2. rewrite contains_cons, prefix_char.
      destruct (ascii_dec c newline) as [-> | _]; [contradiction Hn; reflexivity | reflexivity].
  - split.
    + split; [discriminate|]. intros H. apply match_identifier_spec in H. congruence.
    + split; [right; reflexivity | discriminate].
Qed.

(** The identifier [ORDERS] followed by a newline is accepted. *)
Lemma identifier_accepted_iff_witness :
  validate_snowflake_identifier ("ORDERS" +:+ char_string newline) "table"
  = Returned ("ORDERS" +:+ char_string newline)
  /\ contains (char_string (ascii_of_nat 34)) ("ORDERS" +:+ char_string newline) = false.
Proof.
  assert (H : validate_snowflake_identifier ("ORDERS" +:+ char_string newline) "table"
              = Returned ("ORDERS" +:+ char_string newline)) by reflexivity.
  split; [exact H|].
  apply (proj2 (proj2 (proj2 (identifier_accepted_iff
                                ("ORDERS" +:+ char_string newline) "table")) _ H)).
  - reflexivity.
  - discriminate.
Defined.

End IdentifierValidation.

(** * Database filter *)

Section DatabaseFilter.
Import Py Filters.

Lemma mem_In (x : string) (l : list string) : mem x l = true <-> In x l.
Proof.
  unfold mem. rewrite existsb_exists. split.
  - intros [y [Hin E]]. apply String.eqb_eq in E. subst y. exact Hin.
  - intros Hin. exists x. split; [exact Hin | apply String.eqb_refl].
Qed.

Lemma upper_ascii_idem (c : ascii) : upper_ascii (upper_ascii c) = upper_ascii c.
Proof.
  destruct c as [[] [] [] [] [] [] [] []]; reflexivity.
Qed.

Lemma upper_idem (s : string) : upper (upper s) = upper s.
Proof.
  induction s as [|c s IH]; [reflexivity|]. simpl. rewrite upper_ascii_idem, IH. reflexivity.
Qed.

Lemma truthyS_upper (s : string) : truthyS (upper s) = truthyS s.
Proof. destruct s; reflexivity. Qed.

Lemma truthyS_true (s : string) : truthyS s = true <-> s <> "".
Proof.
  unfold truthyS. rewrite negb_true_iff. split.
  - intros H ->. discriminate H.
  - intros H. apply String.eqb_neq. exact H.
Qed.

(** X4.  A database is included exactly when it has a non-empty name and,
    with a non-empty target list, its name is in the target list, otherwise
    its name is not in the exclude list; names are compared without regard
    to case.  With a non-empty target list the exclude list is not
    consulted at all. *)
Theorem database_included_iff (f : database_filter) (db_name : option string) :
  (should_include_database f db_name = true <->
   exists n, db_name = Some n /\ n <> ""
             /\ match TARGET_DATABASES f with
                | _ :: _ => exists t, In t (TARGET_DATABASES f) /\ upper t = upper n
                | [] => forall e, In e (EXCLUDE_DATABASES f) -> upper e <> upper n
                end)
  /\ (TARGET_DATABASES f <> [] ->
      forall excluded,
        should_include_database
          {| TARGET_DATABASES := TARGET_DATABASES f; EXCLUDE_DATABASES := excluded |}
          db_name
        = should_include_database f db_name)
  /\ (forall n, should_include_database f (Some (upper n))
                = should_include_database f (Some n)).
Proof.
  split; [|split].
  - unfold should_include_database. destruct db_name as [n|].
    + destruct (truthyS n) eqn:Et; cbn [negb].
      * apply truthyS_true in Et.
        destruct (TARGET_DATABASES f) as [|t0 ts] eqn:ET.
        -- destruct (EXCLUDE_DATABASES f) as [|e0 es] eqn:EE.
           ++ split; [|reflexivity]. intros _. exists n. repeat split; [exact Et|].
              intros e [].
           ++ destruct (mem (upper n) (List.map upper (e0 :: es))) eqn:Em.
              ** split; [discriminate|]. intros (m & E & _ & H). injection E as <-.
                 apply mem_In, in_map_iff in Em as (e & He & Hin).
                 exfalso. exact (H e Hin He).
              ** split; [|reflexivity]. intros _. exists n. repeat split; [exact Et|].
                 intros e Hin He.
                 assert (Hm : mem (upper n) (List.map upper (e0 :: es)) = true).
                 { apply mem_In, in_map_iff. exists e. split; assumption. }
                 congruence.
        -- rewrite mem_In, in_map_iff. split.
           ++ intros (t & He & Hin). exists n. repeat split; [exact Et|].
              exists t. split; assumption.
           ++ intros (m & E & _ & t & Hin & He). injection E as <-.
              exists t. split; assumption.
      * split; [discriminate|]. intros (m & E & Hne & _). injection E as <-.
        apply truthyS_true in Hne. congruence.
    + split; [discriminate|]. intros (m & E & _). discriminate E.
  - intros Hne excluded. unfold should_include_database. cbn [TARGET_DATABASES].
    destruct (TARGET_DATABASES f); [contradiction Hne; reflexivity | reflexivity].
  - intros n. unfold should_include_database. rewrite truthyS_upper, upper_idem.
    reflexivity.
Qed.

(** A database named in both lists is included. *)
Lemma database_included_iff_witness :
  TARGET_DATABASES {| TARGET_DATABASES := ["Sales"]; EXCLUDE_DATABASES := ["SALES"] |} <> []
  /\ should_include_database
       {| TARGET_DATABASES := ["Sales"]; EXCLUDE_DATABASES := ["SALES"] |} (Some "sales")
     = should_include_database
         {| TARGET_DATABASES := ["Sales"]; EXCLUDE_DATABASES := [] |} (Some "sales").
Proof.
  assert (H : TARGET_DATABASES
                {| TARGET_DATABASES := ["Sales"]; EXCLUDE_DATABASES := ["SALES"] |} <> [])
    by discriminate.
  split; [exact H|].
  exact (eq_sym (proj1 (proj2 (database_included_iff
           {| TARGET_DATABASES := ["Sales"]; EXCLUDE_DATABASES := ["SALES"] |}
           (Some "sales"))) H [])).
Defined.

Variable Row : Type.
Variable db_of : Row -> option string.

(** X5.  Filtering rows by database keeps the rows in their order and is
    idempotent.  With both lists empty every row is kept, also a row
    without a database name; with a list given exactly the rows of an
    included database are kept, so that a row without a database name is
    dropped. *)
Theorem filter_by_database_keeps_included (f : database_filter) (rows : list Row) :
  filter_by_database f Row db_of rows `sublist_of` rows
  /\ filter_by_database f Row db_of (filter_by_database f Row db_of rows)
     = filter_by_database f Row db_of rows
  /\ (TARGET_DATABASES f = [] -> EXCLUDE_DATABASES f = [] ->
      filter_by_database f Row db_of rows = rows)
  /\ (TARGET_DATABASES f <> [] \/ EXCLUDE_DATABASES f <> [] ->
      forall row, In row (filter_by_database f Row db_of rows) <->
                  In row rows /\ should_include_database f (db_of row) = true).
Proof.
  assert (Hsub : forall (p : Row -> bool) l, List.filter p l `sublist_of` l).
  { intros p l. induction l as [|x l IH]; simpl; [constructor|].
    destruct (p x); [apply sublist_skip | apply sublist_cons]; exact IH. }
  assert (Hidem : forall (p : Row -> bool) l,
             List.filter p (List.filter p l) = List.filter p l).
  { intros p l. induction l as [|x l IH]; simpl; [reflexivity|].
    destruct (p x) eqn:E; simpl; [rewrite E, IH; reflexivity | exact IH]. }
  unfold filter_by_database.
  destruct (TARGET_DATABASES f) as [|t ts]; [destruct (EXCLUDE_DATABASES f) as [|e es]|].
  - split; [reflexivity|]. split; [reflexivity|]. split; [reflexivity|].
    intros [H | H]; contradiction H; reflexivity.
  - split; [apply Hsub|]. split; [apply Hidem|]. split; [discriminate|].
    intros _ row. apply filter_In.
  - split; [apply Hsub|]. split; [apply Hidem|]. split; [discriminate|].
    intros _ row. apply filter_In.
Qed.

End DatabaseFilter.

Section DatabaseFilterWitness.
Import Py Filters.

Lemma filter_by_database_keeps_included_witness :
  EXCLUDE_DATABASES default_filter <> []
  /\ (In (None : option string)
         (filter_by_database default_filter (option string) (fun r => r)
            [Some "SALES"; None; Some "snowflake"])
      <-> In None [Some "SALES"; None; Some "snowflake"]
          /\ should_include_database default_filter None = true).
Proof.
  assert (H : EXCLUDE_DATABASES default_filter <> []) by discriminate.
  split; [exact H|].
  exact (proj2 (proj2 (proj2 (filter_by_database_keeps_included (option string)
           (fun r => r) default_filter [Some "SALES"; None; Some "snowflake"])))
           (or_intror H) None).
Defined.

End DatabaseFilterWitness.

(** * Profile classes *)

Section ProfileClasses.
Import Py Profiling.

Variable cfg : profiling_config.

(** X6.  With the three sparsity thresholds in ascending order the four
    sparsity classes are the intervals they cut, each threshold belonging
    to the better class, and [unknown] is given for a missing percentage
    only. *)
Theorem sparsity_classes_are_intervals (p : Q)
  (Hlm : PROFILING_SPARSITY_LOW cfg <= PROFILING_SPARSITY_MEDIUM cfg)
  (Hmh : PROFILING_SPARSITY_MEDIUM cfg <= PROFILING_SPARSITY_HIGH cfg) :
  (classify_sparsity cfg (Some p) = "low" <-> p <= PROFILING_SPARSITY_LOW cfg)
  /\ (classify_sparsity cfg (Some p) = "medium" <->
      PROFILING_SPARSITY_LOW cfg < p /\ p <= PROFILING_SPARSITY_MEDIUM cfg)
  /\ (classify_sparsity cfg (Some p) = "high" <->
      PROFILING_SPARSITY_MEDIUM cfg < p /\ p <= PROFILING_SPARSITY_HIGH cfg)
  /\ (classify_sparsity cfg (Some p) = "very_high" <-> PROFILING_SPARSITY_HIGH cfg < p)
  /\ (forall o, classify_sparsity cfg o = "unknown" <-> o = None).
Proof.
  assert (Hcases :
    (p <= PROFILING_SPARSITY_LOW cfg /\ classify_sparsity cfg (Some p) = "low")
    \/ (PROFILING_SPARSITY_LOW cfg < p /\ p <= PROFILING_SPARSITY_MEDIUM cfg
        /\ classify_sparsity cfg (Some p) = "medium")
    \/ (PROFILING_SPARSITY_MEDIUM cfg < p /\ p <= PROFILING_SPARSITY_HIGH cfg
        /\ classify_sparsity cfg (Some p) = "high")
    \/ (PROFILING_SPARSITY_HIGH cfg < p
        /\ classify_sparsity cfg (Some p) = "very_high")).
  { unfold classify_sparsity.
    destruct (leq p (PROFILING_SPARSITY_LOW cfg)) eqn:E1.
    { left. split; [apply leq_spec; exact E1 | reflexivity]. }
    apply leq_false in E1.
    destruct (leq p (PROFILING_SPARSITY_MEDIUM cfg)) eqn:E2.
    { right; left. split; [exact E1|]. split; [apply leq_spec; exact E2 | reflexivity]. }
    apply leq_false in E2.
    destruct (leq p (PROFILING_SPARSITY_HIGH cfg)) eqn:E3.
    { right; right; left. split; [exact E2|].
      split; [apply leq_spec; exact E3 | reflexivity]. }
    apply leq_false in E3.
    right; right; right. split; [exact E3 | reflexivity]. }
  repeat match goal with |- _ /\ _ => split end.
  - destruct Hcases as [[H E] | [(H1 & H2 & E) | [(H1 & H2 & E) | [H E]]]];
      rewrite E; split; intros H'; try discriminate H'; try reflexivity;
      try assumption; exfalso; lra.
  - destruct Hcases as [[H E] | [(H1 & H2 & E) | [(H1 & H2 & E) | [H E]]]];
      rewrite E; split; intros H'; try discriminate H'; try reflexivity;
      try (split; assumption); exfalso; lra.
  - destruct Hcases as [[H E] | [(H1 & H2 & E) | [(H1 & H2 & E) | [H E]]]];
      rewrite E; split; intros H'; try discriminate H'; try reflexivity;
      try (split; assumption); exfalso; lra.
  - destruct Hcases as [[H E] | [(H1 & H2 & E) | [(H1 & H2 & E) | [H E]]]];
      rewrite E; split; intros H'; try discriminate H'; try reflexivity;
      try assumption; exfalso; lra.
  - intros [q|]; [|split; reflexivity].
    split; [|discriminate]. unfold classify_sparsity.
    destruct (leq q _); [discriminate|].
    destruct (leq q _); [discriminate|].
    destruct (leq q _); discriminate.
Qed.

(** X7.  The content classifier never reports a column as both structured
    and natural language: structured goes with the class [code], natural
    language with the classes [meaningful_text] and [rich_content], and a
    missing average length leaves the class [unknown] with both flags
    off. *)
Theorem content_class_flags (avg_length : option Q) :
  let r := classify_content_type cfg avg_length in
  (is_structured r && is_natural_language r = false)
  /\ (is_structured r = true <-> content_class r = "code")
  /\ (is_natural_language r = true <->
      content_class r = "meaningful_text" \/ content_class r = "rich_content")
  /\ (content_class r = "unknown" <-> avg_length = None)
  /\ (is_structured r = true <-> exists a, avg_length = Some a /\ a < 10).
Proof.
  unfold classify_content_type. destruct avg_length as [a|]; cbn zeta.
  - destruct (lt a 10) eqn:E1.
    { cbn. apply lt_spec in E1. repeat split; try discriminate; try reflexivity.
      - intros [H | H]; discriminate H.
      - intros _. exists a. split; [reflexivity | exact E1]. }
    apply lt_false in E1.
    assert (Hno : ~ exists b, Some a = Some b /\ b < 10).
    { intros (b & Hb & Hlt). injection Hb as <-. lra. }
    destruct (lt a (PROFILING_MIN_MEANINGFUL_LENGTH cfg)).
    { cbn. repeat split; try discriminate; try reflexivity.
      - intros [H | H]; discriminate H.
      - intros H; contradiction (Hno H). }
    destruct (lt a (PROFILING_MIN_RICH_LENGTH cfg)); cbn;
      repeat split; try discriminate; try reflexivity;
      try (intros H; contradiction (Hno H)).
    + intros _. left. reflexivity.
    + intros _. right. reflexivity.
  - cbn. repeat split; try discriminate; try reflexivity.
    + intros [H | H]; discriminate H.
    + intros (a & H & _). discriminate H.
Qed.

End ProfileClasses.

Section ProfileClassesWitness.
Import Py Profiling.

Lemma sparsity_classes_are_intervals_witness :
  PROFILING_SPARSITY_LOW default_profiling <= PROFILING_SPARSITY_MEDIUM default_profiling
  /\ PROFILING_SPARSITY_MEDIUM default_profiling <= PROFILING_SPARSITY_HIGH default_profiling
  /\ (classify_sparsity default_profiling (Some 30) = "medium" <->
      PROFILING_SPARSITY_LOW default_profiling < 30
      /\ 30 <= PROFILING_SPARSITY_MEDIUM default_profiling).
Proof.
  assert (H1 : PROFILING_SPARSITY_LOW default_profiling
               <= PROFILING_SPARSITY_MEDIUM default_profiling) by (cbn; lra).
  assert (H2 : PROFILING_SPARSITY_MEDIUM default_profiling
               <= PROFILING_SPARSITY_HIGH default_profiling) by (cbn; lra).
  split; [exact H1|]. split; [exact H2|].
  exact (proj1 (proj2 (sparsity_classes_are_intervals default_profiling 30 H1 H2))).
Defined.

End ProfileClassesWitness.

(** * The other classifiers *)

Section Grouping.
Import Py Model Analysis Classify Notions.

Lemma first_seen_elem (ks : list table_id) (k : table_id) :
  k ∈ first_seen ks <-> k ∈ ks.
Proof.
  induction ks as [|q ks IH]; simpl; [reflexivity|].
  rewrite !elem_of_cons, <- IH. split.
  - intros [H | H]; [left; exact H|]. right.
    apply list_elem_of_In, filter_In in H as [H _]. apply list_elem_of_In. exact H.
  - intros [H | H]; [left; exact H|].
    destruct (decide (k = q)) as [E | NE]; [left; exact E | right].
    apply list_elem_of_In, filter_In. split; [apply list_elem_of_In; exact H|].
    apply negb_true_iff, bool_decide_eq_false. exact NE.
Qed.

Lemma filter_NoDup {A : Type} (p : A -> bool) (l : list A) :
  NoDup l -> NoDup (List.filter p l).
Proof.
  induction 1 as [|x l Hx Hl IH]; simpl; [constructor|].
  destruct (p x); [|exact IH]. constructor; [|exact IH].
  intros Hin. apply Hx. apply list_elem_of_In, filter_In in Hin as [Hin _].
  apply list_elem_of_In. exact Hin.
Qed.

Lemma first_seen_NoDup (ks : list table_id) : NoDup (first_seen ks).
Proof.
  induction ks as [|q ks IH]; simpl; [constructor|].
  constructor; [|apply filter_NoDup; exact IH].
  intros Hin. apply list_elem_of_In, filter_In in Hin as [_ Hin].
  apply negb_true_iff, bool_decide_eq_false in Hin. contradiction Hin. reflexivity.
Qed.

Lemma first_seen_snoc (ks : list table_id) (key : table_id) :
  first_seen (ks ++ [key])
  = if bool_decide (key ∈ ks) then first_seen ks else (first_seen ks ++ [key])%list.
Proof.
  induction ks as [|q ks IH]; cbn [first_seen app].
  - cbn [List.filter]. rewrite bool_decide_eq_false_2; [reflexivity | apply not_elem_of_nil].
  - rewrite IH. destruct (decide (key ∈ ks)) as [Hin | Hin].
    + rewrite (bool_decide_eq_true_2 _ Hin).
      rewrite bool_decide_eq_true_2; [reflexivity | right; exact Hin].
    + rewrite (bool_decide_eq_false_2 _ Hin).
      destruct (decide (key = q)) as [E | NE].
      * subst q. rewrite (bool_decide_eq_true_2 (key ∈ key :: ks)); [|left].
        rewrite List.filter_app. cbn [List.filter].
        rewrite (bool_decide_eq_true_2 (key = key)); [|reflexivity].
        cbn [negb]. rewrite app_nil_r. reflexivity.
      * rewrite (bool_decide_eq_false_2 (key ∈ q :: ks)).
        2:{ intros H. apply elem_of_cons in H as [H | H]; contradiction. }
        rewrite List.filter_app. cbn [List.filter].
        rewrite (bool_decide_eq_false_2 (key = q)); [|exact NE].
        reflexivity.
Qed.

Lemma group_append_keyed {V : Type} (key : table_id) (val : V)
    (g : table_id -> list V) (ks : list table_id) :
  NoDup ks ->
  group_append key val (List.map (fun q => (q, g q)) ks)
  = if bool_decide (key ∈ ks)
    then List.map (fun q => (q, if bool_decide (q = key) then (g q ++ [val])%list else g q)) ks
    else (List.map (fun q => (q, g q)) ks ++ [(key, [val])])%list.
Proof.
  induction 1 as [|q ks Hq Hks IH]; cbn [List.map group_append app].
  - rewrite bool_decide_eq_false_2; [reflexivity | apply not_elem_of_nil].
  - destruct (decide (q = key)) as [E | NE].
    + subst q. rewrite (bool_decide_eq_true_2 (key = key)); [|reflexivity].
      rewrite (bool_decide_eq_true_2 (key ∈ key :: ks)); [|left].
      f_equal. apply map_ext_in. intros q Hin.
      rewrite bool_decide_eq_false_2; [reflexivity|].
      intros ->. apply Hq, list_elem_of_In. exact Hin.
    + rewrite (bool_decide_eq_false_2 (q = key)); [|exact NE].
      rewrite IH. destruct (decide (key ∈ ks)) as [Hin | Hin].
      * rewrite (bool_decide_eq_true_2 _ Hin).
        rewrite (bool_decide_eq_true_2 (key ∈ q :: ks)); [reflexivity | right; exact Hin].
      * rewrite (bool_decide_eq_false_2 _ Hin).
        rewrite (bool_decide_eq_false_2 (key ∈ q :: ks)); [reflexivity|].
        intros H. apply elem_of_cons in H as [H | H]; [congruence | contradiction].
Qed.

Lemma members_snoc {X : Type} (k : X -> table_id) (key : table_id) (xs : list X) (x : X) :
  members k key (xs ++ [x])
  = (members k key xs ++ if bool_decide (k x = key) then [x] else [])%list.
Proof. unfold members. rewrite List.filter_app. reflexivity. Qed.

Lemma members_none {X : Type} (k : X -> table_id) (key : table_id) (xs : list X) :
  key ∉ List.map k xs -> members k key xs = [].
Proof.
  intros Hno. unfold members. induction xs as [|x xs IH]; simpl; [reflexivity|].
  rewrite bool_decide_eq_false_2.
  - apply IH. intros H. apply Hno. simpl. right. exact H.
  - intros E. apply Hno. simpl. rewrite E. left.
Qed.

(** A [defaultdict(list)] filled row by row holds, in the order in which
    the keys first occur, the values of every key in the order of the
    rows. *)
Lemma group_fold {X V : Type} (k : X -> table_id) (v : X -> V) (xs : list X) :
  fold_left (fun d x => group_append (k x) (v x) d) xs []
  = List.map (fun key => (key, List.map v (members k key xs))) (first_seen (List.map k xs)).
Proof.
  induction xs as [|x xs IH] using rev_ind; [reflexivity|].
  rewrite fold_left_app. simpl. rewrite IH.
  rewrite (group_append_keyed (k x) (v x) (fun key => List.map v (members k key xs)));
    [|apply first_seen_NoDup].
  rewrite map_app. simpl. rewrite first_seen_snoc.
  destruct (decide (k x ∈ List.map k xs)) as [Hin | Hin].
  - rewrite (bool_decide_eq_true_2 _ Hin).
    rewrite bool_decide_eq_true_2; [|apply first_seen_elem; exact Hin].
    apply map_ext. intros q. rewrite members_snoc, map_app.
    destruct (decide (q = k x)) as [E | NE].
    + subst q. rewrite !(bool_decide_eq_true_2 (k x = k x)); reflexivity.
    + rewrite (bool_decide_eq_false_2 (q = k x)); [|exact NE].
      rewrite (bool_decide_eq_false_2 (k x = q)); [|congruence].
      simpl. rewrite app_nil_r. reflexivity.
  - rewrite (bool_decide_eq_false_2 _ Hin).
    rewrite bool_decide_eq_false_2; [|rewrite first_seen_elem; exact Hin].
    rewrite map_app. simpl. f_equal.
    + apply map_ext_in. intros q Hq. rewrite members_snoc, map_app.
      rewrite (bool_decide_eq_false_2 (k x = q)).
      * simpl. rewrite app_nil_r. reflexivity.
      * intros E. apply Hin. rewrite E. apply first_seen_elem, list_elem_of_In. exact Hq.
    + rewrite members_snoc, (members_none k (k x) xs Hin).
      rewrite (bool_decide_eq_true_2 (k x = k x)); reflexivity.
Qed.

Lemma fold_left_appending {A B : Type} (step : list B -> A -> list B) (xs : list A) :
  (forall acc x, step acc x = (acc ++ step [] x)%list) ->
  forall acc, fold_left step xs acc = (acc ++ flat_map (step []) xs)%list.
Proof.
  intros Hstep. induction xs as [|x xs IH]; intros acc; simpl.
  - rewrite app_nil_r. reflexivity.
  - rewrite IH, (Hstep acc x), <- app_assoc. reflexivity.
Qed.

End Grouping.

Section OtherClassifiers.
Import Py Model Spec Analysis Classify Notions.

Lemma mem_spec (x : string) (l : list string) : mem x l = true <-> In x l.
Proof.
  unfold mem. rewrite existsb_exists. split.
  - intros [y [Hin E]]. apply String.eqb_eq in E. subst y. exact Hin.
  - intros Hin. exists x. split; [exact Hin | apply String.eqb_refl].
Qed.

Lemma variant_step_flagged (row : column_row) (c : candidate) :
  In c (variant_step [] row) <->
  exists dt, variant_flagged row dt /\ c = variant_candidate row dt.
Proof.
  unfold variant_step, variant_flagged.
  destruct (r_data_type row) as [dt|] eqn:Edt.
  - destruct (truthyS dt && mem (upper dt) ["VARIANT"; "OBJECT"; "ARRAY"]) eqn:Ef.
    + apply andb_true_iff in Ef as [_ Hm]. apply mem_spec in Hm. split.
      * intros [<- | []]. exists dt. split; [split; [reflexivity | exact Hm] | reflexivity].
      * intros (dt' & [E _] & ->). injection E as <-. left. reflexivity.
    + split; [intros []|]. intros (dt' & [E Hm] & _). injection E as <-.
      pose proof (proj2 (mem_spec _ _) Hm) as Hb. rewrite Hb, andb_true_r in Ef.
      destruct dt; [|discriminate Ef]. simpl in Hm.
      destruct Hm as [H | [H | [H | []]]]; discriminate H.
  - split; [intros []|]. intros (dt & [E _] & _). discriminate E.
Qed.

Lemma variant_step_appends (acc : list candidate) (row : column_row) :
  variant_step acc row = (acc ++ variant_step [] row)%list.
Proof.
  unfold variant_step. destruct (r_data_type row) as [dt|]; [|rewrite app_nil_r; reflexivity].
  destruct (truthyS dt && _); [reflexivity | rewrite app_nil_r; reflexivity].
Qed.

Lemma identify_variant_candidates_flat_map (rows : list column_row) :
  identify_variant_candidates rows = flat_map (variant_step []) rows.
Proof.
  unfold identify_variant_candidates.
  apply (fold_left_appending variant_step rows variant_step_appends []).
Qed.

(** X8.  The Extract classifier returns, in the order of the rows, one
    candidate for every row whose upper-cased type is exactly VARIANT,
    OBJECT or ARRAY, and for no other row.  The candidate carries the
    identity, type and comment of the row, the feature "Cortex Extract"
    and no declared length. *)
Theorem variant_classifier_flags (rows : list column_row) :
  identify_variant_candidates rows = flat_map (variant_step []) rows
  /\ (forall c, In c (identify_variant_candidates rows) <->
                exists row dt, In row rows /\ variant_flagged row dt
                               /\ c = variant_candidate row dt)
  /\ (forall row dt,
        c_ai_feature (variant_candidate row dt) = "Cortex Extract"
        /\ c_reason (variant_candidate row dt) = "Semi-structured " +:+ dt +:+ " column"
        /\ c_max_length (variant_candidate row dt) = None
        /\ get_id (c_column (variant_candidate row dt)) = r_column row
        /\ row_table row = table_of (column_level (variant_candidate row dt)))
  /\ (List.length (identify_variant_candidates rows) <= List.length rows)%nat.
Proof.
  split; [apply identify_variant_candidates_flat_map|].
  split.
  { intros c. rewrite identify_variant_candidates_flat_map, in_flat_map. split.
    - intros [row [Hin Hc]]. apply variant_step_flagged in Hc as [dt [Hf Hc]].
      exists row, dt. auto.
    - intros [row [dt [Hin [Hf Hc]]]]. exists row. split; [exact Hin|].
      apply variant_step_flagged. exists dt. auto. }
  split.
  { intros row dt. repeat split; try reflexivity.
    - cbn. destruct (r_column row); reflexivity.
    - unfold table_of, row_table. cbn.
      destruct (r_database row), (r_schema row), (r_table row); reflexivity. }
  rewrite identify_variant_candidates_flat_map.
  induction rows as [|row rows IH]; simpl; [lia|].
  rewrite length_app.
  assert (H : (List.length (variant_step [] row) <= 1)%nat).
  { unfold variant_step. destruct (r_data_type row) as [dt|]; [|simpl; lia].
    destruct (truthyS dt && _); simpl; lia. }
  lia.
Qed.

End OtherClassifiers.
Section TableClassifiers.
Import Py Model Spec Analysis Classify Notions.

(** X9.  No row makes both an LLM and an Extract candidate, so the two
    classifiers together make at most one column candidate per row, and
    no candidate is in both lists. *)
Theorem column_candidates_disjoint (rows : list column_row) :
  (forall row, llm_step [] row = [] \/ variant_step [] row = [])
  /\ (List.length (identify_llm_candidates rows)
      + List.length (identify_variant_candidates rows) <= List.length rows)%nat
  /\ (forall c, In c (identify_llm_candidates rows) ->
                ~ In c (identify_variant_candidates rows)).
Proof.
  assert (Hrow : forall row,
             (llm_step [] row = [] /\ (List.length (variant_step [] row) <= 1)%nat)
             \/ (variant_step [] row = [] /\ (List.length (llm_step [] row) <= 1)%nat)).
  { intros row. unfold llm_step, variant_step.
    destruct (r_data_type row) as [dt|]; [|left; split; [reflexivity | simpl; lia]].
    destruct (truthyS dt) eqn:Et; cbn [negb andb];
      [|left; split; [reflexivity | simpl; lia]].
    destruct (mem (upper dt) ["VARIANT"; "OBJECT"; "ARRAY"]) eqn:Em.
    - left. split; [|simpl; lia].
      apply mem_spec in Em. simpl in Em.
      destruct Em as [<- | [<- | [<- | []]]]; reflexivity.
    - right. split; [reflexivity|].
      destruct (is_text_type _ && _); simpl; lia. }
  split; [|split].
  - intros row. destruct (Hrow row) as [[H _] | [H _]]; [left | right]; exact H.
  - rewrite identify_llm_candidates_flat_map, identify_variant_candidates_flat_map.
    induction rows as [|row rows IH]; simpl; [lia|].
    rewrite !length_app.
    destruct (Hrow row) as [[H1 H2] | [H1 H2]]; rewrite H1; simpl; lia.
  - intros c Hl Hv.
    rewrite identify_llm_candidates_flat_map in Hl.
    rewrite identify_variant_candidates_flat_map in Hv.
    apply in_flat_map in Hl as (row & _ & Hl). apply in_flat_map in Hv as (row' & _ & Hv).
    apply llm_step_flagged in Hl as (dt & _ & ->).
    apply variant_step_flagged in Hv as (dt' & _ & Hc).
    apply (f_equal c_ai_feature) in Hc. discriminate Hc.
Qed.

End TableClassifiers.
Section MlClassifier.
Import Py Model Spec Analysis Classify Notions.

Lemma filter_map_comm {A B : Type} (f : A -> B) (p : B -> bool) (l : list A) :
  List.filter p (List.map f l) = List.map f (List.filter (fun x => p (f x)) l).
Proof.
  induction l as [|x l IH]; simpl; [reflexivity|].
  destruct (p (f x)); simpl; rewrite IH; reflexivity.
Qed.

Lemma map_take_comm {A B : Type} (f : A -> B) (n : nat) (l : list A) :
  List.map f (take n l) = take n (List.map f l).
Proof.
  revert l. induction n as [|n IH]; intros [|x l]; simpl; try reflexivity.
  rewrite IH. reflexivity.
Qed.

Lemma members_In {X : Type} (k : X -> table_id) (key : table_id) (xs : list X) (x : X) :
  In x (members k key xs) <-> In x xs /\ k x = key.
Proof.
  unfold members. rewrite filter_In. split; intros [H1 H2]; (split; [exact H1|]).
  - apply bool_decide_eq_true in H2. exact H2.
  - apply bool_decide_eq_true. exact H2.
Qed.

Lemma table_of_table_level (key : table_id) (ai reason : string)
    (n t : option (list (option string))) :
  table_of {| common := table_level key ai reason; numeric_columns := n;
              text_columns := t |} = key.
Proof. destruct key as [[[d|] [s|]] [t'|]]; reflexivity. Qed.

Lemma table_of_ml_candidate (key : table_id) (l : list (option string * string)) :
  table_of (ml_candidate key l) = key.
Proof. apply table_of_table_level. Qed.

Lemma ml_entry_numeric (row : column_row) :
  truthyS (ml_entry row).2 && is_numeric_type (ml_entry row).2 = is_numeric_row row.
Proof.
  unfold ml_entry, is_numeric_row. cbn [snd].
  destruct (r_data_type row) as [dt|]; [|reflexivity].
  destruct dt; reflexivity.
Qed.

Lemma num_cols_entries (l : list column_row) :
  num_cols (List.map ml_entry l) = List.map ml_entry (List.filter is_numeric_row l).
Proof.
  unfold num_cols. rewrite filter_map_comm. f_equal.
  apply filter_ext. intros row. apply ml_entry_numeric.
Qed.

Lemma is_numeric_row_spec (row : column_row) :
  is_numeric_row row = true <-> numeric_row row.
Proof.
  unfold is_numeric_row, numeric_row. destruct (r_data_type row) as [dt|].
  - unfold is_numeric_type. rewrite any_in_spec. split.
    + intros (t & Hin & Hs). exists dt, t. auto.
    + intros (dt' & t & E & Hin & Hs). injection E as <-. exists t. auto.
  - split; [discriminate | intros (dt & t & E & _); discriminate E].
Qed.

Lemma has_timestamp_spec (l : list column_row) :
  has_timestamp (List.map ml_entry l) = true <-> exists row, In row l /\ temporal_row row.
Proof.
  unfold has_timestamp. rewrite existsb_exists. split.
  - intros (col & Hin & Ht). apply filter_In in Hin as [Hin Htr].
    apply in_map_iff in Hin as (row & <- & Hin). exists row. split; [exact Hin|].
    unfold ml_entry in Ht, Htr. cbn [snd] in Ht, Htr. unfold temporal_row.
    destruct (r_data_type row) as [dt|]; [|discriminate Htr].
    destruct (truthyS dt); [|discriminate Htr].
    exists dt. split; [reflexivity|]. unfold is_temporal in Ht.
    apply orb_true_iff in Ht as [Ht | Ht]; [left | right]; apply contains_spec; exact Ht.
  - intros (row & Hin & dt & Edt & Hs).
    assert (Hc : is_temporal dt = true).
    { unfold is_temporal. apply orb_true_iff.
      destruct Hs as [Hs | Hs]; [left | right]; apply contains_spec; exact Hs. }
    assert (Ht : truthyS dt = true).
    { destruct dt; [|reflexivity]. discriminate Hc. }
    exists (ml_entry row). unfold ml_entry. rewrite Edt, Ht. cbn [snd].
    split; [|exact Hc]. apply filter_In. split.
    + apply in_map_iff. exists row. unfold ml_entry. rewrite Edt, Ht.
      split; [reflexivity | exact Hin].
    + exact Ht.
Qed.

Lemma ml_step_appends (acc : list any_candidate)
    (item : table_id * list (option string * string)) :
  ml_step acc item = (acc ++ ml_step [] item)%list.
Proof.
  unfold ml_step. destruct item as [key cols].
  destruct (has_timestamp cols && _); [reflexivity | rewrite app_nil_r; reflexivity].
Qed.

Lemma identify_ml_candidates_closed (rows : list column_row) :
  identify_ml_candidates rows
  = flat_map
      (fun key =>
         if ml_flag rows key
         then [ml_candidate key
                 (List.map ml_entry
                    (List.filter is_numeric_row (members row_table key rows)))]
         else [])
      (first_seen (List.map row_table rows)).
Proof.
  unfold identify_ml_candidates.
  change (fold_left ml_collect rows [])
    with (fold_left (fun d row => group_append (row_table row) (ml_entry row) d) rows []).
  rewrite group_fold, (fold_left_appending ml_step _ ml_step_appends []).
  cbn [app]. rewrite flat_map_concat_map, List.map_map, <- flat_map_concat_map.
  apply flat_map_ext. intros key. unfold ml_step, ml_flag.
  rewrite num_cols_entries, length_map. reflexivity.
Qed.

Lemma flat_map_optional {A B : Type} (p : A -> bool) (f : A -> B) (l : list A) :
  flat_map (fun x => if p x then [f x] else []) l = List.map f (List.filter p l).
Proof.
  induction l as [|x l IH]; simpl; [reflexivity|].
  destruct (p x); simpl; rewrite IH; reflexivity.
Qed.

(** X10.  The ML classifier makes one table-level candidate for every
    table that has a row whose type contains TIMESTAMP or DATE and a row
    whose type contains NUMBER, FLOAT, DECIMAL, INTEGER or DOUBLE, and for
    no other table; the candidates come in the order in which their tables
    first occur in the rows.  A candidate has no column key, and its
    numeric columns are the names of the first five numeric rows of its
    table, while its reason counts all of them. *)
Theorem ml_classifier_flags (rows : list column_row) :
  let result := identify_ml_candidates rows in
  (forall key,
      (exists a, In a result /\ table_of a = key) <->
      (exists row, In row rows /\ row_table row = key /\ temporal_row row)
      /\ (exists row, In row rows /\ row_table row = key /\ numeric_row row))
  /\ NoDup (List.map table_of result)
  /\ List.map table_of result
     = List.filter (ml_flag rows) (first_seen (List.map row_table rows))
  /\ (forall a, In a result ->
        let numeric := List.filter is_numeric_row (members row_table (table_of a) rows) in
        c_column (common a) = Absent
        /\ c_ai_feature (common a) = "Cortex ML (Forecasting/Anomaly)"
        /\ c_reason (common a)
           = "Has timestamp + " +:+ pretty (List.length numeric) +:+ " numeric columns"
        /\ numeric_columns a = Some (take 5 (List.map r_column numeric))
        /\ text_columns a = None
        /\ c_total_score (common a) = None).
Proof.
  intros result. subst result. rewrite identify_ml_candidates_closed.
  rewrite (flat_map_optional (ml_flag rows)
             (fun key => ml_candidate key
                (List.map ml_entry
                   (List.filter is_numeric_row (members row_table key rows))))).
  assert (Htab : forall l,
    List.map table_of
      (List.map (fun key => ml_candidate key
         (List.map ml_entry (List.filter is_numeric_row (members row_table key rows)))) l)
    = l).
  { intros l. rewrite List.map_map. rewrite <- (map_id l) at 2.
    apply map_ext. intros key. apply table_of_ml_candidate. }
  assert (Hflag : forall key,
    ml_flag rows key = true <->
    (exists row, In row rows /\ row_table row = key /\ temporal_row row)
    /\ (exists row, In row rows /\ row_table row = key /\ numeric_row row)).
  { intros key. unfold ml_flag. rewrite andb_true_iff, has_timestamp_spec. split.
    - intros [(row & Hin & Ht) Hn]. apply members_In in Hin as [Hin Hk]. split.
      + exists row. auto.
      + apply Nat.leb_le in Hn.
        destruct (List.filter is_numeric_row (members row_table key rows))
          as [|row' l] eqn:El; [simpl in Hn; lia|].
        assert (Hin' : In row' (List.filter is_numeric_row (members row_table key rows)))
          by (rewrite El; left; reflexivity).
        apply filter_In in Hin' as [Hin' Hnum]. apply members_In in Hin' as [Hin' Hk'].
        exists row'. split; [exact Hin'|]. split; [exact Hk'|].
        apply is_numeric_row_spec. exact Hnum.
    - intros [(row & Hin & Hk & Ht) (row' & Hin' & Hk' & Hn)]. split.
      + exists row. split; [apply members_In; auto | exact Ht].
      + apply Nat.leb_le.
        assert (Hin2 : In row' (List.filter is_numeric_row (members row_table key rows))).
        { apply filter_In. split; [apply members_In; auto|].
          apply is_numeric_row_spec. exact Hn. }
        destruct (List.filter is_numeric_row (members row_table key rows));
          [destruct Hin2 | simpl; lia]. }
  split; [|split; [|split]].
  - intros key. rewrite <- Hflag. split.
    + intros (a & Hin & Ht). apply in_map_iff in Hin as (key' & <- & Hin).
      rewrite table_of_ml_candidate in Ht. subst key'.
      apply filter_In in Hin as [_ Hf]. exact Hf.
    + intros Hf. eexists. split; [|apply table_of_ml_candidate].
      apply in_map_iff. exists key. split; [reflexivity|].
      apply filter_In. split; [|exact Hf].
      apply list_elem_of_In, first_seen_elem, list_elem_of_In.
      apply Hflag in Hf as [(row & Hin & Hk & _) _]. rewrite <- Hk.
      apply in_map. exact Hin.
  - rewrite Htab. apply filter_NoDup, first_seen_NoDup.
  - apply Htab.
  - intros a Hin. apply in_map_iff in Hin as (key & <- & _).
    cbv zeta. rewrite table_of_ml_candidate. unfold ml_candidate.
    cbn [common numeric_columns text_columns table_level c_column c_ai_feature
         c_reason c_total_score].
    rewrite length_map. repeat split.
    rewrite map_take_comm, List.map_map. reflexivity.
Qed.

End MlClassifier.
Section SearchClassifier.
Import Py Model Spec Analysis Classify Notions.

(** The rows that [search_collect] files. *)
Lemma search_collect_filtered (rows : list column_row) :
  forall d,
    fold_left search_collect rows d
    = fold_left (fun d row => group_append (row_table row) (search_entry row) d)
        (List.filter is_search_text_row rows) d.
Proof.
  induction rows as [|row rows IH]; intros d; [reflexivity|].
  cbn [fold_left List.filter]. rewrite IH.
  unfold search_collect at 1. unfold is_search_text_row at 2.
  destruct (r_data_type row) as [dt|]; [|reflexivity].
  destruct dt as [|c dt]; [reflexivity|].
  change (truthyS (String c dt)) with true. cbn [andb].
  destruct (any_in _ _); reflexivity.
Qed.

Lemma members_filter_comm {X : Type} (k : X -> table_id) (p : X -> bool)
    (key : table_id) (xs : list X) :
  members k key (List.filter p xs) = List.filter p (members k key xs).
Proof.
  unfold members. induction xs as [|x xs IH]; simpl; [reflexivity|].
  destruct (p x) eqn:Ep, (bool_decide (k x = key)) eqn:Ek; simpl;
    rewrite ?Ep, ?Ek, IH; reflexivity.
Qed.

Lemma filter_filter {A : Type} (p q : A -> bool) (l : list A) :
  List.filter p (List.filter q l) = List.filter (fun x => q x && p x) l.
Proof.
  induction l as [|x l IH]; simpl; [reflexivity|].
  destruct (q x); simpl; [destruct (p x)|]; rewrite IH; reflexivity.
Qed.

Lemma long_text_entries (l : list column_row) :
  long_text (List.map search_entry (List.filter is_search_text_row l))
  = List.map r_column (List.filter is_long_text_row l).
Proof.
  unfold long_text. rewrite filter_map_comm, List.map_map, filter_filter.
  cbn [fst search_entry]. f_equal. apply filter_ext. intros row.
  unfold is_search_text_row, is_long_text_row, search_entry. cbn [snd].
  destruct (r_data_type row) as [dt|]; [|reflexivity].
  destruct (r_max_len row) as [n|]; [|rewrite andb_false_r; reflexivity].
  destruct (any_in _ _); [|reflexivity]. cbn [andb].
  unfold truthyZ. destruct (Z.eqb_spec n 0) as [-> | _]; reflexivity.
Qed.

Lemma is_long_text_row_spec (row : column_row) :
  is_long_text_row row = true <-> long_text_row row.
Proof.
  unfold is_long_text_row, long_text_row.
  destruct (r_data_type row) as [dt|], (r_max_len row) as [n|].
  - rewrite andb_true_iff, any_in_spec, Z.leb_le. split.
    + intros [(t & Hin & Hs) Hn]. exists dt, t, n. auto.
    + intros (dt' & t & n' & E & Hin & Hs & E' & Hn). injection E as <-.
      injection E' as <-. split; [exists t; auto | exact Hn].
  - split; [discriminate | intros (? & ? & ? & _ & _ & _ & E & _); discriminate E].
  - split; [discriminate | intros (? & ? & ? & E & _); discriminate E].
  - split; [discriminate | intros (? & ? & ? & E & _); discriminate E].
Qed.

Lemma search_step_appends (acc : list any_candidate)
    (item : table_id * list (option string * Z)) :
  search_step acc item = (acc ++ search_step [] item)%list.
Proof.
  unfold search_step. destruct item as [key cols].
  destruct (2 <=? _)%nat; [reflexivity | rewrite app_nil_r; reflexivity].
Qed.

Lemma table_of_search_candidate (key : table_id) (l : list (option string)) :
  table_of (search_candidate key l) = key.
Proof. apply table_of_table_level. Qed.

Lemma identify_search_candidates_closed (rows : list column_row) :
  identify_search_candidates rows
  = List.map
      (fun key => search_candidate key (List.map r_column (long_text_rows rows key)))
      (List.filter (fun key => (2 <=? List.length (long_text_rows rows key))%nat)
         (first_seen (List.map row_table (List.filter is_search_text_row rows)))).
Proof.
  unfold identify_search_candidates.
  rewrite search_collect_filtered, group_fold,
    (fold_left_appending search_step _ search_step_appends []).
  cbn [app]. rewrite flat_map_concat_map, List.map_map, <- flat_map_concat_map.
  rewrite <- (flat_map_optional
                (fun key => (2 <=? List.length (long_text_rows rows key))%nat)
                (fun key => search_candidate key
                              (List.map r_column (long_text_rows rows key)))).
  apply flat_map_ext. intros key.
  unfold search_step, long_text_rows.
  rewrite members_filter_comm, long_text_entries, length_map. reflexivity.
Qed.

(** X11.  The Search classifier makes one table-level candidate for
    every table with at least two rows of a type containing VARCHAR, TEXT
    or STRING and a declared length of at least 200, and for no other
    table; the candidates come in the order in which their tables first
    occur among the rows of such a type.  A candidate has no column key,
    and its text columns are the names of the first five long text rows of
    its table, while its reason counts all of them. *)
Theorem search_classifier_flags (rows : list column_row) :
  let result := identify_search_candidates rows in
  (forall key,
      (exists a, In a result /\ table_of a = key) <->
      (2 <= List.length (long_text_rows rows key))%nat)
  /\ (forall row key, In row (long_text_rows rows key) <->
                      In row rows /\ row_table row = key /\ long_text_row row)
  /\ NoDup (List.map table_of result)
  /\ List.map table_of result
     = List.filter (fun key => (2 <=? List.length (long_text_rows rows key))%nat)
         (first_seen (List.map row_table (List.filter is_search_text_row rows)))
  /\ (forall a, In a result ->
        let long := long_text_rows rows (table_of a) in
        c_column (common a) = Absent
        /\ c_ai_feature (common a) = "Cortex Search / RAG"
        /\ c_reason (common a)
           = pretty (List.length long) +:+ " substantial text columns"
        /\ text_columns a = Some (take 5 (List.map r_column long))
        /\ numeric_columns a = None
        /\ c_total_score (common a) = None).
Proof.
  intros result. subst result. rewrite identify_search_candidates_closed.
  set (flag := fun key => (2 <=? List.length (long_text_rows rows key))%nat).
  set (keys := first_seen (List.map row_table (List.filter is_search_text_row rows))).
  assert (Htab : forall l,
    List.map table_of
      (List.map (fun key => search_candidate key
                              (List.map r_column (long_text_rows rows key))) l) = l).
  { intros l. rewrite List.map_map. rewrite <- (map_id l) at 2.
    apply map_ext. intros key. apply table_of_search_candidate. }
  assert (Hrows : forall row key, In row (long_text_rows rows key) <->
                      In row rows /\ row_table row = key /\ long_text_row row).
  { intros row key. unfold long_text_rows.
    rewrite filter_In, members_In, is_long_text_row_spec. tauto. }
  assert (Hkeys : forall key, flag key = true -> In key keys).
  { intros key Hf. unfold flag in Hf. apply Nat.leb_le in Hf.
    destruct (long_text_rows rows key) as [|row l] eqn:El; [simpl in Hf; lia|].
    assert (Hin : In row (long_text_rows rows key)) by (rewrite El; left; reflexivity).
    unfold long_text_rows in Hin. apply filter_In in Hin as [Hin Hl].
    apply members_In in Hin as [Hin Hk].
    apply list_elem_of_In, first_seen_elem, list_elem_of_In.
    rewrite <- Hk. apply in_map. apply filter_In. split; [exact Hin|].
    unfold is_long_text_row in Hl. unfold is_search_text_row.
    destruct (r_data_type row); [|discriminate Hl].
    destruct (r_max_len row); [|discriminate Hl].
    apply andb_true_iff in Hl as [Hl _]. exact Hl. }
  split; [|split; [exact Hrows|split; [|split]]].
  - intros key. split.
    + intros (a & Hin & Ht). apply in_map_iff in Hin as (key' & <- & Hin).
      rewrite table_of_search_candidate in Ht. subst key'.
      apply filter_In in Hin as [_ Hf]. apply Nat.leb_le. exact Hf.
    + intros Hf. apply Nat.leb_le in Hf.
      eexists. split; [|apply table_of_search_candidate].
      apply in_map_iff. exists key. split; [reflexivity|].
      apply filter_In. split; [apply Hkeys|]; exact Hf.
  - rewrite Htab. apply filter_NoDup, first_seen_NoDup.
  - apply Htab.
  - intros a Hin. apply in_map_iff in Hin as (key & <- & _).
    cbv zeta. rewrite table_of_search_candidate. unfold search_candidate.
    cbn [common numeric_columns text_columns table_level c_column c_ai_feature
         c_reason c_total_score].
    rewrite length_map. repeat split.
Qed.

End SearchClassifier.
(** * Ranking *)

Section Ranking.
Import Py PyList Model Spec Analysis Classify Notions.

Context {A : Type} (key : A -> Q).

Lemma insert_desc_perm (x : A) (l : list A) : Permutation (insert_desc key x l) (x :: l).
Proof.
  induction l as [|y l IH]; simpl; [reflexivity|].
  destruct (lt (key x) (key y)); [|reflexivity].
  rewrite IH. apply perm_swap.
Qed.

Lemma sorted_desc_perm (l : list A) : Permutation (sorted_desc key l) l.
Proof.
  induction l as [|x l IH]; simpl; [reflexivity|].
  rewrite insert_desc_perm, IH. reflexivity.
Qed.

Lemma insert_desc_descending (x : A) (l : list A) :
  descending key l -> descending key (insert_desc key x l).
Proof.
  induction l as [|y l IH]; intros Hl.
  - simpl. split; [intros b []| exact I].
  - destruct Hl as [Hy Hl]. cbn [insert_desc].
    destruct (lt (key x) (key y)) eqn:E.
    + apply lt_spec in E. cbn [descending]. split; [|apply IH; exact Hl].
      intros b Hb. apply (Permutation_in _ (insert_desc_perm x l)) in Hb.
      destruct Hb as [<- | Hb]; [lra | apply Hy; exact Hb].
    + apply lt_false in E. cbn [descending]. split; [|split; assumption].
      intros b [<- | Hb]; [exact E|]. specialize (Hy b Hb). lra.
Qed.

Lemma sorted_desc_descending (l : list A) : descending key (sorted_desc key l).
Proof.
  induction l as [|x l IH]; simpl; [exact I|].
  apply insert_desc_descending. exact IH.
Qed.

Lemma insert_desc_keyed (q : Q) (x : A) (l : list A) :
  keyed key q (insert_desc key x l) = keyed key q (x :: l).
Proof.
  unfold keyed. induction l as [|y l IH]; [reflexivity|].
  cbn [insert_desc]. destruct (lt (key x) (key y)) eqn:E; [|reflexivity].
  apply lt_spec in E. cbn [List.filter] in *. rewrite IH.
  destruct (Qeq_bool (key x) q) eqn:Ex, (Qeq_bool (key y) q) eqn:Ey; try reflexivity.
  apply Qeq_bool_iff in Ex, Ey. rewrite Ex, Ey in E. exfalso. lra.
Qed.

Lemma sorted_desc_keyed (q : Q) (l : list A) :
  keyed key q (sorted_desc key l) = keyed key q l.
Proof.
  induction l as [|x l IH]; [reflexivity|].
  cbn [sorted_desc foldr]. fold (sorted_desc key l).
  rewrite insert_desc_keyed. unfold keyed in *. cbn [List.filter]. rewrite IH. reflexivity.
Qed.

Lemma descending_app (l1 l2 : list A) :
  descending key (l1 ++ l2) ->
  descending key l1 /\ descending key l2
  /\ forall a b, In a l1 -> In b l2 -> key b <= key a.
Proof.
  induction l1 as [|x l1 IH]; cbn [app descending].
  - intros H. split; [exact I|]. split; [exact H|]. intros a b [].
  - intros [Hx Hl]. destruct (IH Hl) as (H1 & H2 & H3).
    split; [split; [|exact H1]|split; [exact H2|]].
    + intros b Hb. apply Hx, in_or_app. left. exact Hb.
    + intros a b [<- | Ha] Hb; [apply Hx, in_or_app; right; exact Hb | apply H3; assumption].
Qed.

Lemma slice_to_split (n : Z) (l : list A) :
  exists rest, l = (slice_to n l ++ rest)%list
               /\ List.length (slice_to n l)
                  = Z.to_nat (if (0 <=? n)%Z then Z.min n (Z.of_nat (List.length l))
                              else Z.of_nat (List.length l) + n).
Proof.
  unfold slice_to. destruct (0 <=? n)%Z eqn:E.
  - exists (drop (Z.to_nat n) l). rewrite take_drop. split; [reflexivity|].
    rewrite length_take. apply Z.leb_le in E. lia.
  - exists (drop (Z.to_nat (Z.of_nat (List.length l) + n)) l). rewrite take_drop.
    split; [reflexivity|]. rewrite length_take. apply Z.leb_gt in E. lia.
Qed.

Lemma slice_to_In (n : Z) (l : list A) (x : A) : In x (slice_to n l) -> In x l.
Proof.
  intros H. destruct (slice_to_split n l) as (rest & E & _). rewrite E.
  apply in_or_app. left. exact H.
Qed.

End Ranking.

Section TopCandidates.
Import Py PyList Model Spec Analysis Classify Notions.

(** X12.  The top candidates are scorable candidates of the given list:
    they have a total score and the four identity keys.  Together with the
    scorable candidates left out they are a rearrangement of all the
    scorable ones; their scores never increase, no candidate left out has
    a higher score than one of them, and candidates of equal score keep
    the order of the given list.  For a limit that is not negative their
    number is the smaller of the limit and the number of scorable
    candidates; a negative limit drops that many from the end instead. *)
Theorem top_candidates_ranked (candidates : list any_candidate) (top_n : Z) :
  let scorable := List.filter is_scorable candidates in
  let top := identify_top_candidates candidates top_n in
  (forall a, In a top -> In a candidates /\ is_scorable a = true)
  /\ descending sort_key top
  /\ (exists rest,
         Permutation (top ++ rest) scorable
         /\ (forall a b, In a top -> In b rest -> sort_key b <= sort_key a)
         /\ (forall q, (keyed sort_key q top ++ keyed sort_key q rest)%list
                       = keyed sort_key q scorable))
  /\ List.length top
     = Z.to_nat (if (0 <=? top_n)%Z
                 then Z.min top_n (Z.of_nat (List.length scorable))
                 else Z.of_nat (List.length scorable) + top_n).
Proof.
  intros scorable top. subst top. unfold identify_top_candidates. fold scorable.
  destruct (slice_to_split top_n (sorted_desc sort_key scorable)) as (rest & Hsplit & Hlen).
  remember (slice_to top_n (sorted_desc sort_key scorable)) as top eqn:Etop.
  pose proof (sorted_desc_perm sort_key scorable) as Hperm.
  pose proof (sorted_desc_descending sort_key scorable) as Hdesc.
  rewrite Hsplit in Hdesc. apply descending_app in Hdesc as (H1 & _ & H3).
  split; [|split; [exact H1|split]].
  - intros a Ha.
    assert (Hin : In a scorable).
    { apply (Permutation_in _ Hperm). rewrite Hsplit. apply in_or_app. left. exact Ha. }
    apply filter_In in Hin. exact Hin.
  - exists rest. split; [rewrite <- Hsplit; exact Hperm|]. split; [exact H3|].
    intros q. rewrite <- (sorted_desc_keyed sort_key q scorable).
    rewrite Hsplit. unfold keyed. rewrite List.filter_app. reflexivity.
  - rewrite Hlen. rewrite (Permutation_length Hperm). reflexivity.
Qed.

End TopCandidates.
(** * The candidate flow *)

Section CandidateFlow.
Import Py PyList Model Spec Analysis Classify Pipeline Notions.

Lemma llm_candidates_unscored (rows : list column_row) (c : candidate) :
  In c (identify_llm_candidates rows) ->
  c_total_score c = None /\ c_scores c = None /\ c_ai_feature c = "Cortex LLM"
  /\ has_key (c_column c) = true /\ has_key (c_database c) = true
  /\ has_key (c_schema c) = true /\ has_key (c_table c) = true.
Proof.
  rewrite identify_llm_candidates_flat_map. intros H.
  apply in_flat_map in H as (row & _ & H). apply llm_step_flagged in H as (dt & _ & ->).
  cbn. destruct (r_column row), (r_database row), (r_schema row), (r_table row);
    repeat split.
Qed.

Lemma variant_candidates_unscored (rows : list column_row) (c : candidate) :
  In c (identify_variant_candidates rows) ->
  c_total_score c = None /\ c_scores c = None /\ c_ai_feature c = "Cortex Extract"
  /\ has_key (c_column c) = true /\ has_key (c_database c) = true
  /\ has_key (c_schema c) = true /\ has_key (c_table c) = true.
Proof.
  rewrite identify_variant_candidates_flat_map. intros H.
  apply in_flat_map in H as (row & _ & H).
  apply variant_step_flagged in H as (dt & _ & ->).
  cbn. destruct (r_column row), (r_database row), (r_schema row), (r_table row);
    repeat split.
Qed.

Lemma ml_candidates_table_level (rows : list column_row) (a : any_candidate) :
  In a (identify_ml_candidates rows) ->
  c_total_score (common a) = None /\ c_scores (common a) = None
  /\ c_ai_feature (common a) = "Cortex ML (Forecasting/Anomaly)"
  /\ c_column (common a) = Absent.
Proof.
  rewrite identify_ml_candidates_closed. intros H.
  apply in_flat_map in H as (key & _ & H).
  destruct (ml_flag rows key); [|destruct H].
  destruct H as [<- | []]. repeat split.
Qed.

Lemma search_candidates_table_level (rows : list column_row) (a : any_candidate) :
  In a (identify_search_candidates rows) ->
  c_total_score (common a) = None /\ c_scores (common a) = None
  /\ c_ai_feature (common a) = "Cortex Search / RAG"
  /\ c_column (common a) = Absent.
Proof.
  rewrite identify_search_candidates_closed. intros H.
  apply in_map_iff in H as (key & <- & _). repeat split.
Qed.

Lemma all_candidates_unscored (columns : list column_row) (a : any_candidate) :
  In a (all_candidates columns) ->
  c_total_score (common a) = None /\ c_scores (common a) = None.
Proof.
  unfold all_candidates. rewrite !in_app_iff, !in_map_iff.
  intros [(c & <- & H) | [(c & <- & H) | [H | H]]].
  - apply llm_candidates_unscored in H as (H1 & H2 & _). split; assumption.
  - apply variant_candidates_unscored in H as (H1 & H2 & _). split; assumption.
  - apply ml_candidates_table_level in H as (H1 & H2 & _). split; assumption.
  - apply search_candidates_table_level in H as (H1 & H2 & _). split; assumption.
Qed.

Lemma no_scorable_no_top (candidates : list any_candidate) (top_n : Z) :
  (forall a, In a candidates -> is_scorable a = false) ->
  identify_top_candidates candidates top_n = [].
Proof.
  intros H. unfold identify_top_candidates.
  assert (E : List.filter is_scorable candidates = []).
  { induction candidates as [|a l IH]; [reflexivity|]. simpl.
    rewrite (H a (or_introl eq_refl)). apply IH. intros b Hb. apply H. right. exact Hb. }
  rewrite E. unfold slice_to. simpl. destruct (0 <=? top_n)%Z; apply take_nil.
Qed.

(** X13.  The classifiers leave every candidate without scores and
    without a total score, and the metadata analysis of Phase 2B adds
    statistics only: on the candidates of a run from the first stage the
    selection of top candidates is empty, whatever the limit.  A
    table-level candidate, which has no column key, is never selected,
    not even once it is scored, while a scored column-level candidate
    can be. *)
Theorem fresh_run_selects_no_top_candidates
    (columns : list column_row)
    (meta_table_lookup : gmap Metadata.table_key table_meta)
    (meta_column_lookup : gmap Metadata.table_key (list column_meta))
    (text_profiles : list text_profile) (top_n : Z) :
  (forall a, In a (all_candidates columns) ->
             c_total_score (common a) = None /\ c_scores (common a) = None)
  /\ identify_top_candidates
       (List.map (on_common (analyze_metadata meta_table_lookup meta_column_lookup))
          (all_candidates columns)) top_n = []
  /\ identify_top_candidates
       (List.map (on_common (fun c => score_candidate c text_profiles))
          (identify_ml_candidates columns ++ identify_search_candidates columns))
       top_n = []
  /\ (forall candidates a,
         In a (identify_top_candidates candidates top_n) ->
         c_column (common a) <> Absent)
  /\ (forall c,
         In c (identify_llm_candidates columns ++ identify_variant_candidates columns) ->
         is_scorable (on_common (fun c => score_candidate c text_profiles)
                        (column_level c)) = true).
Proof.
  split; [apply all_candidates_unscored|]. split; [|split; [|split]].
  - apply no_scorable_no_top. intros a Ha.
    apply in_map_iff in Ha as (b & <- & Hb).
    apply all_candidates_unscored in Hb as [Hb _].
    unfold is_scorable, on_common, analyze_metadata. cbn. rewrite Hb. reflexivity.
  - apply no_scorable_no_top. intros a Ha.
    apply in_map_iff in Ha as (b & <- & Hb).
    assert (Hc : c_column (common b) = Absent).
    { apply in_app_iff in Hb as [Hb | Hb].
      - apply ml_candidates_table_level in Hb as (_ & _ & _ & H). exact H.
      - apply search_candidates_table_level in Hb as (_ & _ & _ & H). exact H. }
    unfold is_scorable, on_common, score_candidate. cbn. rewrite Hc.
    cbn. rewrite !andb_false_r. reflexivity.
  - intros candidates a Ha Hc.
    assert (Hs : is_scorable a = true).
    { unfold identify_top_candidates in Ha.
      destruct (slice_to_split top_n (sorted_desc sort_key (List.filter is_scorable candidates)))
        as (rest & Hsplit & _).
      assert (Hin : In a (sorted_desc sort_key (List.filter is_scorable candidates))).
      { rewrite Hsplit. apply in_or_app. left. exact Ha. }
      apply (Permutation_in _ (sorted_desc_perm sort_key _)) in Hin.
      apply filter_In in Hin as [_ Hin]. exact Hin. }
    unfold is_scorable in Hs. rewrite Hc in Hs. cbn in Hs.
    rewrite !andb_false_r in Hs. discriminate Hs.
  - intros c Hc. unfold is_scorable, on_common, score_candidate. cbn.
    apply in_app_iff in Hc as [Hc | Hc];
      [apply llm_candidates_unscored in Hc | apply variant_candidates_unscored in Hc];
      destruct Hc as (_ & _ & _ & H1 & H2 & H3 & H4); rewrite H1, H2, H3, H4; reflexivity.
Qed.

Lemma readiness_from_profiles_identity (c c' : candidate) (tps : list text_profile) (q : Q) :
  c_database c = c_database c' -> c_schema c = c_schema c' ->
  c_table c = c_table c' -> c_column c = c_column c' ->
  readiness_from_profiles c tps q = readiness_from_profiles c' tps q.
Proof.
  intros H1 H2 H3 H4. induction tps as [|p rest IH]; [reflexivity|].
  cbn [readiness_from_profiles]. unfold profile_matches. rewrite H1, H2, H3, H4, IH.
  reflexivity.
Qed.

Lemma score_candidate_reads (c c' : candidate) (tps : list text_profile) :
  c_database c = c_database c' -> c_schema c = c_schema c' ->
  c_table c = c_table c' -> c_column c = c_column c' ->
  c_ai_feature c = c_ai_feature c' -> c_comment c = c_comment c' ->
  c_scores (score_candidate c tps) = c_scores (score_candidate c' tps)
  /\ c_total_score (score_candidate c tps) = c_total_score (score_candidate c' tps).
Proof.
  intros H1 H2 H3 H4 H5 H6. unfold score_candidate. cbn [c_scores c_total_score set_scores].
  rewrite (readiness_from_profiles_identity c c' tps 3 H1 H2 H3 H4), H3, H4, H5, H6.
  split; reflexivity.
Qed.

Lemma score_candidate_ext (tps : list text_profile) (c1 c2 : candidate) :
  c_database c1 = c_database c2 -> c_schema c1 = c_schema c2 ->
  c_table c1 = c_table c2 -> c_column c1 = c_column c2 ->
  c_ai_feature c1 = c_ai_feature c2 -> c_comment c1 = c_comment c2 ->
  c_data_type c1 = c_data_type c2 -> c_max_length c1 = c_max_length c2 ->
  c_reason c1 = c_reason c2 -> c_statistics c1 = c_statistics c2 ->
  c_is_confirmed_candidate c1 = c_is_confirmed_candidate c2 ->
  c_confirmation_reasons c1 = c_confirmation_reasons c2 ->
  score_candidate c1 tps = score_candidate c2 tps.
Proof.
  intros H1 H2 H3 H4 H5 H6 H7 H8 H9 H10 H11 H12.
  unfold score_candidate, set_scores.
  rewrite (readiness_from_profiles_identity c1 c2 tps 3 H1 H2 H3 H4).
  rewrite H1, H2, H3, H4, H5, H6, H7, H8, H9, H10, H11, H12. reflexivity.
Qed.

Lemma score_after_rescore_metadata (c : candidate) (tps : list text_profile) :
  score_candidate (rescore_metadata c) tps = score_candidate c tps.
Proof.
  apply score_candidate_ext; unfold rescore_metadata;
    destruct (stats_empty (default no_stats (c_statistics c))); reflexivity.
Qed.

(** X14.  Scoring reads the identity, the feature and the comment of a
    candidate and nothing else: it gives the scores and the total it
    would give the candidate as classified, so that it discards the data
    readiness stored by any of the re-scoring passes, and scoring twice
    is scoring once.  The data readiness it stores is 3 unless a text
    profile of the same column raises it. *)
Theorem scoring_discards_rescoring
    (c : candidate) (text_profiles : list text_profile) (st : stats) :
  score_candidate (rescore_metadata c) text_profiles = score_candidate c text_profiles
  /\ score_candidate (rescore_sample c) text_profiles = score_candidate c text_profiles
  /\ score_candidate (rescore_full_scan c st) text_profiles
     = score_candidate (set_statistics c (Some st)) text_profiles
  /\ score_candidate (score_candidate c text_profiles) text_profiles
     = score_candidate c text_profiles
  /\ (forall c', c_database c = c_database c' -> c_schema c = c_schema c' ->
                 c_table c = c_table c' -> c_column c = c_column c' ->
                 c_ai_feature c = c_ai_feature c' -> c_comment c = c_comment c' ->
                 c_scores (score_candidate c text_profiles)
                 = c_scores (score_candidate c' text_profiles)
                 /\ c_total_score (score_candidate c text_profiles)
                    = c_total_score (score_candidate c' text_profiles))
  /\ ((forall p, In p text_profiles -> profile_matches c p = false) ->
      data_readiness_of (score_candidate c text_profiles) = 3).
Proof.
  pose proof (score_candidate_ext text_profiles) as Hfull.
  split; [|split; [|split; [|split; [|split]]]].
  - apply Hfull; unfold rescore_metadata;
      destruct (stats_empty (default no_stats (c_statistics c))); reflexivity.
  - apply Hfull; unfold rescore_sample;
      destruct (c_statistics c) eqn:E; cbn; rewrite ?E; reflexivity.
  - apply Hfull; unfold rescore_full_scan; cbn [set_statistics c_scores];
      destruct (c_scores c) eqn:E; cbn; rewrite ?E; reflexivity.
  - apply Hfull; reflexivity.
  - intros c'. apply score_candidate_reads.
  - clear Hfull. unfold data_readiness_of, score_candidate.
    cbn [c_scores set_scores data_readiness default].
    induction text_profiles as [|p rest IH]; intros Hno; [reflexivity|].
    cbn [readiness_from_profiles]. rewrite (Hno p (or_introl eq_refl)).
    apply IH. intros q Hq. apply Hno. right. exact Hq.
Qed.

End CandidateFlow.
Section EndToEnd.
Import Py PyList Model Spec Analysis Classify Pipeline Notions.

Variable meta_table_lookup : gmap Metadata.table_key table_meta.
Variable meta_column_lookup : gmap Metadata.table_key (list column_meta).
Variable text_profiles : list text_profile.
Variable cfg : config.

Lemma metadata_stats_shape (cm : column_meta) (tm : table_meta) :
  let st := Metadata.compute_column_metadata_stats cm tm in
  st_sparsity st = None /\ st_content_type st = None /\ st_json_structure st = None
  /\ st_null_percentage st
     = Some (if bool_decide (cm_is_nullable cm = Some "NO") then 0.0 else 20.0).
Proof.
  unfold Metadata.compute_column_metadata_stats.
  destruct (bool_decide (cm_is_nullable cm = Some "NO")); repeat split.
Qed.

Lemma flag_confirmed_verdict (c : candidate) :
  c_is_confirmed_candidate (flag_confirmed cfg c)
  = Some (fst (is_confirmed_candidate cfg c None))
  /\ c_statistics (flag_confirmed cfg c) = c_statistics c.
Proof.
  unfold flag_confirmed. destruct (is_confirmed_candidate cfg c None) as [b rs].
  split; reflexivity.
Qed.

(** The column metadata that Phase 2B finds for a candidate. *)
Lemma metadata_statistics_cases (c : candidate) :
  (exists key cols cm tm,
      candidate_table_key c = Some key /\ meta_column_lookup !! key = Some cols
      /\ find_column cols (col_name_of c) = Some cm
      /\ metadata_statistics meta_table_lookup meta_column_lookup c
         = Metadata.compute_column_metadata_stats cm tm)
  \/ ((forall key cols, candidate_table_key c = Some key ->
                        meta_column_lookup !! key = Some cols ->
                        find_column cols (col_name_of c) = None)
      /\ metadata_statistics meta_table_lookup meta_column_lookup c = default_statistics).
Proof.
  unfold metadata_statistics.
  destruct (candidate_table_key c) as [key|]; cbn [mbind option_bind].
  - destruct (meta_column_lookup !! key) as [cols|] eqn:Ecols;
      cbn [default from_option id].
    + destruct (find_column cols (col_name_of c)) as [cm|] eqn:Ef.
      * left. exists key, cols, cm, (default no_table_meta (meta_table_lookup !! key)).
        split; [reflexivity|]. split; [exact Ecols|]. split; [exact Ef | reflexivity].
      * right. split; [|reflexivity]. intros key' cols' E1 E2.
        injection E1 as <-. rewrite Ecols in E2. injection E2 as <-. exact Ef.
    + right. split; [|reflexivity]. intros key' cols' E1 E2.
      injection E1 as <-. rewrite Ecols in E2. discriminate E2.
  - right. split; [|reflexivity]. intros key cols E. discriminate E.
Qed.

(** X15.  A candidate that goes through the metadata analysis, the
    scoring and the confirmation of a run, with a maximal sparsity from
    20 to below 100, is confirmed if and only if its column is found in
    the column metadata and is not declared NOT NULL, its estimated
    average length, for an LLM or Search candidate, is zero or at least
    the minimal text length, and the data readiness that the text
    profiles give it reaches the minimal readiness.  So a candidate
    whose column is not in the metadata is never confirmed, and with a
    minimal readiness above 3 neither is a candidate that no text
    profile matches.  It makes no difference whether Phase 2E re-scored
    the candidate. *)
Theorem pipeline_confirmation (selected : bool) (c : candidate)
    (Hlow : 20 <= CONFIRM_MAX_SPARSITY cfg) (Hhigh : CONFIRM_MAX_SPARSITY cfg < 100) :
  let final :=
    analyze_score_confirm meta_table_lookup meta_column_lookup text_profiles cfg
      selected c in
  let st := metadata_statistics meta_table_lookup meta_column_lookup c in
  c_statistics final = Some st
  /\ (c_is_confirmed_candidate final = Some true <->
      (exists key cols cm,
          candidate_table_key c = Some key /\ meta_column_lookup !! key = Some cols
          /\ find_column cols (col_name_of c) = Some cm
          /\ cm_is_nullable cm <> Some "NO")
      /\ (text_feature (c_ai_feature c) = true ->
          forall a, st_avg_length st = Some a ->
                    a == 0 \/ CONFIRM_MIN_AVG_TEXT_LENGTH cfg <= a)
      /\ CONFIRM_MIN_DATA_READINESS cfg <= readiness_from_profiles c text_profiles 3)
  /\ (c_is_confirmed_candidate final = Some true
      \/ c_is_confirmed_candidate final = Some false)
  /\ ((forall key cols, candidate_table_key c = Some key ->
                        meta_column_lookup !! key = Some cols ->
                        find_column cols (col_name_of c) = None) ->
      c_is_confirmed_candidate final = Some false)
  /\ (3 < CONFIRM_MIN_DATA_READINESS cfg ->
      (forall p, In p text_profiles -> profile_matches c p = false) ->
      c_is_confirmed_candidate final = Some false).
Proof.
  intros final st.
  set (c0 := analyze_metadata meta_table_lookup meta_column_lookup c).
  set (c1 := if selected then rescore_metadata c0 else c0).
  set (c2 := score_candidate c1 text_profiles).
  assert (Hfinal : final = flag_confirmed cfg c2) by reflexivity.
  assert (Hkept : c_statistics c1 = c_statistics c0
                  /\ c_ai_feature c1 = c_ai_feature c0
                  /\ c_database c1 = c_database c0 /\ c_schema c1 = c_schema c0
                  /\ c_table c1 = c_table c0 /\ c_column c1 = c_column c0).
  { unfold c1, rescore_metadata. destruct selected; [|repeat split].
    destruct (stats_empty (default no_stats (c_statistics c0))); repeat split. }
  destruct Hkept as (Kst & Kai & Kd & Ks & Kt & Kc).
  destruct (flag_confirmed_verdict c2) as [Hverdict Hstats].
  rewrite <- Hfinal in Hverdict, Hstats.
  pose proof (is_confirmed_candidate_checks cfg c2 None) as Hchecks. cbv zeta in Hchecks.
  assert (Heff : effective_stats c2 None = st).
  { unfold effective_stats, c2, score_candidate. cbn [c_statistics set_scores].
    rewrite Kst. reflexivity. }
  assert (Hai : c_ai_feature c2 = c_ai_feature c).
  { unfold c2, score_candidate. cbn [c_ai_feature set_scores]. rewrite Kai. reflexivity. }
  assert (Hstats2 : c_statistics c2 = Some st).
  { unfold c2, score_candidate. cbn [c_statistics set_scores]. rewrite Kst. reflexivity. }
  rewrite Hstats2 in Hstats.
  rewrite Heff, Hai in Hchecks.
  assert (Hready : data_readiness_of c2 = readiness_from_profiles c text_profiles 3).
  { unfold data_readiness_of, c2, score_candidate.
    cbn [c_scores set_scores data_readiness default].
    apply readiness_from_profiles_identity; assumption. }
  (* the four checks on the metadata statistics *)
  assert (Hshape : st_sparsity st = None /\ st_content_type st = None
                   /\ st_json_structure st = None).
  { destruct (metadata_statistics_cases c) as [(key & cols & cm & tm & _ & _ & _ & E) | [_ E]];
      fold st in E; rewrite E.
    - destruct (metadata_stats_shape cm tm) as (H1 & H2 & H3 & _). auto.
    - repeat split. }
  destruct Hshape as (Hsp & Hct & Hjs).
  assert (Hstructure : passes (check_structure (c_ai_feature c) st) = true).
  { unfold passes, check_structure. rewrite Hjs. destruct (String.eqb _ _); reflexivity. }
  assert (Hreadiness :
    passes (check_readiness cfg c2) = true
    <-> CONFIRM_MIN_DATA_READINESS cfg <= readiness_from_profiles c text_profiles 3).
  { unfold passes, check_readiness. rewrite Hready.
    destruct (lt _ _) eqn:E; cbn.
    - apply lt_spec in E. split; [discriminate | intros H; exfalso; lra].
    - apply lt_false in E. split; [intros _; exact E | reflexivity]. }
  assert (Hcontent :
    passes (check_content cfg (c_ai_feature c) st) = true
    <-> (text_feature (c_ai_feature c) = true ->
         forall a, st_avg_length st = Some a ->
                   a == 0 \/ CONFIRM_MIN_AVG_TEXT_LENGTH cfg <= a)).
  { assert (Havg : (exists a, st_avg_length st = Some a /\ truthyQ a = true
                               /\ avg_len_of st = a)
                   \/ ((forall a, st_avg_length st = Some a -> a == 0)
                       /\ avg_len_of st = 0)).
    { unfold avg_len_of. rewrite Hct. destruct (st_avg_length st) as [a|].
      - destruct (truthyQ a) eqn:Et.
        + left. exists a. auto.
        + right. split; [|reflexivity]. intros b E. injection E as <-.
          apply truthyQ_false. exact Et.
      - right. split; [|reflexivity]. intros b E. discriminate E. }
    unfold passes, check_content, text_feature. rewrite Hct.
    destruct (mem (c_ai_feature c) _);
      [|split; [intros _ H; discriminate H | reflexivity]].
    destruct Havg as [(a & Ea & Et & ->) | [Hz ->]].
    - rewrite Et. cbn [andb]. destruct (lt a _) eqn:El; cbn [is_confirmed fail note start].
      + apply lt_spec in El. apply truthyQ_true in Et.
        split; [intros H; discriminate H|]. intros H.
        destruct (H eq_refl a Ea) as [H0 | H0]; [contradiction | exfalso; lra].
      + apply lt_false in El. split; [|reflexivity].
        intros _ _ b E. rewrite Ea in E. injection E as <-. right. exact El.
    - assert (E0 : truthyQ 0 = false) by reflexivity.
      rewrite E0. cbn [andb is_confirmed start]. split; [|reflexivity].
      intros _ _ b E. left. apply Hz. exact E. }
  assert (Hsparsity :
    passes (check_sparsity cfg st) = true
    <-> exists key cols cm,
          candidate_table_key c = Some key /\ meta_column_lookup !! key = Some cols
          /\ find_column cols (col_name_of c) = Some cm
          /\ cm_is_nullable cm <> Some "NO").
  { rewrite passes_sparsity.
    destruct (metadata_statistics_cases c)
      as [(key & cols & cm & tm & Hk & Hc & Hf & E) | [Hnone E]]; fold st in E.
    - destruct (metadata_stats_shape cm tm) as (_ & _ & _ & Hnull).
      rewrite <- E in Hnull. unfold sparsity_of. rewrite Hnull, Hsp.
      destruct (bool_decide (cm_is_nullable cm = Some "NO")) eqn:Eno.
      + apply bool_decide_eq_true in Eno.
        assert (E0 : truthyQ 0.0 = false) by reflexivity. rewrite E0.
        assert (Hgt : gt 100 (CONFIRM_MAX_SPARSITY cfg) = true) by (apply gt_spec; exact Hhigh).
        rewrite Hgt. cbn. split; [discriminate|].
        intros (key' & cols' & cm' & Hk' & Hc' & Hf' & Hn). exfalso.
        rewrite Hk in Hk'. injection Hk' as <-. rewrite Hc in Hc'. injection Hc' as <-.
        rewrite Hf in Hf'. injection Hf' as <-. contradiction.
      + apply bool_decide_eq_false in Eno.
        assert (E20 : truthyQ 20.0 = true) by reflexivity. rewrite E20.
        assert (Hgt : gt 20.0 (CONFIRM_MAX_SPARSITY cfg) = false).
        { apply gt_false. setoid_replace 20.0 with 20 using relation Qeq by reflexivity.
          exact Hlow. }
        rewrite Hgt. cbn. split; [|reflexivity]. intros _.
        exists key, cols, cm. auto.
    - rewrite E. unfold sparsity_of, default_statistics. cbn.
      assert (Hgt : gt 100 (CONFIRM_MAX_SPARSITY cfg) = true) by (apply gt_spec; exact Hhigh).
      rewrite Hgt. cbn. split; [discriminate|].
      intros (key & cols & cm & Hk & Hc & Hf & _). rewrite (Hnone key cols Hk Hc) in Hf.
      discriminate Hf. }
  rewrite Hverdict, Hchecks. cbn [fst]. rewrite Hstructure, andb_true_r.
  split; [exact Hstats|]. split; [|split; [|split]].
  - rewrite <- Hsparsity, <- Hcontent, <- Hreadiness.
    destruct (passes (check_sparsity cfg st)), (passes (check_content cfg _ st)),
      (passes (check_readiness cfg c2)); cbn; split;
      try (intros H; discriminate H); try (intros (H1 & H2 & H3); discriminate);
      try (intros _; repeat split); try reflexivity.
  - destruct (passes (check_sparsity cfg st)), (passes (check_content cfg _ st)),
      (passes (check_readiness cfg c2)); cbn; auto.
  - intros Hnone.
    assert (Hp : passes (check_sparsity cfg st) = false).
    { apply not_true_is_false. intros E.
      apply Hsparsity in E as (key & cols & cm & Hk & Hc & Hf & _).
      rewrite (Hnone key cols Hk Hc) in Hf. discriminate Hf. }
    rewrite Hp. reflexivity.
  - intros Hmin Hno.
    assert (H3 : readiness_from_profiles c text_profiles 3 = 3).
    { clear -Hno. induction text_profiles as [|p rest IH]; [reflexivity|].
      cbn [readiness_from_profiles]. rewrite (Hno p (or_introl eq_refl)).
      apply IH. intros q Hq. apply Hno. right. exact Hq. }
    assert (Hp : passes (check_readiness cfg c2) = false).
    { apply not_true_is_false. intros E.
      apply Hreadiness in E. rewrite H3 in E. lra. }
    rewrite Hp, andb_false_r. reflexivity.
Qed.

End EndToEnd.

Section EndToEndWitness.
Import Py PyList Model Spec Analysis Classify Pipeline Notions.

(** Without any column metadata the scenario candidate is not confirmed. *)
Lemma pipeline_confirmation_witness :
  20 <= CONFIRM_MAX_SPARSITY default_config
  /\ CONFIRM_MAX_SPARSITY default_config < 100
  /\ c_is_confirmed_candidate
       (analyze_score_confirm ∅ ∅ [] default_config false scenario_candidate) = Some false.
Proof.
  assert (H1 : 20 <= CONFIRM_MAX_SPARSITY default_config) by (cbn; lra).
  assert (H2 : CONFIRM_MAX_SPARSITY default_config < 100) by (cbn; lra).
  assert (Hnone : forall (key : Metadata.table_key) (cols : list column_meta),
             candidate_table_key scenario_candidate = Some key ->
             (∅ : gmap Metadata.table_key (list column_meta)) !! key = Some cols ->
             find_column cols (col_name_of scenario_candidate) = None).
  { intros key cols _ H. rewrite lookup_empty in H. discriminate H. }
  split; [exact H1|]. split; [exact H2|].
  exact (proj1 (proj2 (proj2 (proj2
           (pipeline_confirmation ∅ ∅ [] default_config false scenario_candidate H1 H2))))
           Hnone).
Defined.

End EndToEndWitness.
(** * Restoring and merging candidate lists *)

Section RestoreAndMerge.
Import Py PyList Model Spec Analysis Classify Pipeline Notions.

Lemma with_feature_all (label : string) (l : list any_candidate) :
  (forall a, In a l -> c_ai_feature (common a) = label) -> with_feature label l = l.
Proof.
  intros H. unfold with_feature. induction l as [|a l IH]; [reflexivity|].
  cbn [List.filter]. rewrite (H a (or_introl eq_refl)), String.eqb_refl.
  f_equal. apply IH. intros b Hb. apply H. right. exact Hb.
Qed.

Lemma with_feature_none (label other : string) (l : list any_candidate) :
  String.eqb other label = false ->
  (forall a, In a l -> c_ai_feature (common a) = other) -> with_feature label l = [].
Proof.
  intros Hne H. unfold with_feature. induction l as [|a l IH]; [reflexivity|].
  cbn [List.filter]. rewrite (H a (or_introl eq_refl)), Hne.
  apply IH. intros b Hb. apply H. right. exact Hb.
Qed.

Lemma with_feature_app (label : string) (l1 l2 : list any_candidate) :
  with_feature label (l1 ++ l2) = (with_feature label l1 ++ with_feature label l2)%list.
Proof. apply List.filter_app. Qed.

(** X16.  The lists a run restores from a saved candidate list, when it
    skips Phase 2, are the LLM, Extract and Search candidates as Phase 2
    made them, but no ML candidate at all: the restoring filter asks for
    the feature "Cortex ML", while the classifier writes "Cortex ML
    (Forecasting/Anomaly)".  This holds for the saved list after any pass
    that leaves the feature of a candidate alone. *)
Theorem restored_lists_lose_ml
    (columns : list column_row) (update : any_candidate -> any_candidate)
    (Hkeep : forall a, c_ai_feature (common (update a)) = c_ai_feature (common a)) :
  let saved := List.map update (all_candidates columns) in
  let r := restore_lists saved in
  llm_candidates r
  = List.map update (List.map column_level (identify_llm_candidates columns))
  /\ variant_candidates r
     = List.map update (List.map column_level (identify_variant_candidates columns))
  /\ search_candidates r = List.map update (identify_search_candidates columns)
  /\ ml_candidates r = []
  /\ (List.length (llm_candidates r) + List.length (variant_candidates r)
      + List.length (ml_candidates r) + List.length (search_candidates r)
      + List.length (identify_ml_candidates columns)
      = List.length saved)%nat.
Proof.
  intros saved r.
  set (l1 := List.map update (List.map column_level (identify_llm_candidates columns))).
  set (l2 := List.map update (List.map column_level (identify_variant_candidates columns))).
  set (l3 := List.map update (identify_ml_candidates columns)).
  set (l4 := List.map update (identify_search_candidates columns)).
  assert (Hsaved : saved = (l1 ++ l2 ++ l3 ++ l4)%list).
  { unfold saved, all_candidates. rewrite !map_app. reflexivity. }
  assert (H1 : forall a, In a l1 -> c_ai_feature (common a) = "Cortex LLM").
  { intros a Ha. apply in_map_iff in Ha as (b & <- & Hb).
    apply in_map_iff in Hb as (c & <- & Hc). rewrite Hkeep.
    apply llm_candidates_unscored in Hc as (_ & _ & H & _). exact H. }
  assert (H2 : forall a, In a l2 -> c_ai_feature (common a) = "Cortex Extract").
  { intros a Ha. apply in_map_iff in Ha as (b & <- & Hb).
    apply in_map_iff in Hb as (c & <- & Hc). rewrite Hkeep.
    apply variant_candidates_unscored in Hc as (_ & _ & H & _). exact H. }
  assert (H3 : forall a, In a l3 ->
                         c_ai_feature (common a) = "Cortex ML (Forecasting/Anomaly)").
  { intros a Ha. apply in_map_iff in Ha as (b & <- & Hb). rewrite Hkeep.
    apply ml_candidates_table_level in Hb as (_ & _ & H & _). exact H. }
  assert (H4 : forall a, In a l4 -> c_ai_feature (common a) = "Cortex Search / RAG").
  { intros a Ha. apply in_map_iff in Ha as (b & <- & Hb). rewrite Hkeep.
    apply search_candidates_table_level in Hb as (_ & _ & H & _). exact H. }
  assert (E1 : llm_candidates r = l1).
  { unfold r, restore_lists. cbn [llm_candidates]. rewrite Hsaved, !with_feature_app.
    rewrite (with_feature_all _ l1 H1), (with_feature_none "Cortex LLM" "Cortex Extract" l2 eq_refl H2),
      (with_feature_none "Cortex LLM" "Cortex ML (Forecasting/Anomaly)" l3 eq_refl H3), (with_feature_none "Cortex LLM" "Cortex Search / RAG" l4 eq_refl H4).
    rewrite !app_nil_r. reflexivity. }
  assert (E2 : variant_candidates r = l2).
  { unfold r, restore_lists. cbn [variant_candidates]. rewrite Hsaved, !with_feature_app.
    rewrite (with_feature_none "Cortex Extract" "Cortex LLM" l1 eq_refl H1), (with_feature_all _ l2 H2),
      (with_feature_none "Cortex Extract" "Cortex ML (Forecasting/Anomaly)" l3 eq_refl H3), (with_feature_none "Cortex Extract" "Cortex Search / RAG" l4 eq_refl H4).
    rewrite !app_nil_r. reflexivity. }
  assert (E3 : ml_candidates r = []).
  { unfold r, restore_lists. cbn [ml_candidates]. rewrite Hsaved, !with_feature_app.
    rewrite (with_feature_none "Cortex ML" "Cortex LLM" l1 eq_refl H1), (with_feature_none "Cortex ML" "Cortex Extract" l2 eq_refl H2),
      (with_feature_none "Cortex ML" "Cortex ML (Forecasting/Anomaly)" l3 eq_refl H3), (with_feature_none "Cortex ML" "Cortex Search / RAG" l4 eq_refl H4).
    reflexivity. }
  assert (E4 : search_candidates r = l4).
  { unfold r, restore_lists. cbn [search_candidates]. rewrite Hsaved, !with_feature_app.
    rewrite (with_feature_none "Cortex Search / RAG" "Cortex LLM" l1 eq_refl H1), (with_feature_none "Cortex Search / RAG" "Cortex Extract" l2 eq_refl H2),
      (with_feature_none "Cortex Search / RAG" "Cortex ML (Forecasting/Anomaly)" l3 eq_refl H3), (with_feature_all _ l4 H4).
    reflexivity. }
  split; [exact E1|]. split; [exact E2|]. split; [exact E4|]. split; [exact E3|].
  rewrite E1, E2, E3, E4, Hsaved, !length_app. unfold l3. rewrite !length_map.
  cbn [List.length]. lia.
Qed.

Lemma restored_lists_lose_ml_witness :
  (forall a, c_ai_feature (common (on_common (fun c => score_candidate c []) a))
             = c_ai_feature (common a))
  /\ ml_candidates
       (restore_lists
          (List.map (on_common (fun c => score_candidate c []))
             (all_candidates [description_row]))) = [].
Proof.
  assert (H : forall a, c_ai_feature (common (on_common (fun c => score_candidate c []) a))
                        = c_ai_feature (common a)) by reflexivity.
  split; [exact H|].
  exact (proj1 (proj2 (proj2 (proj2
           (restored_lists_lose_ml [description_row]
              (on_common (fun c => score_candidate c [])) H))))).
Defined.

Lemma fresh_all_seen (seen : list string) (new : list candidate) :
  (forall c, c ∈ new -> candidate_key c ∈ seen) -> fresh seen new = [].
Proof.
  intros H. induction new as [|c rest IH]; [reflexivity|]. cbn [fresh].
  rewrite bool_decide_eq_true_2; [|apply H; left].
  apply IH. intros d Hd. apply H. right. exact Hd.
Qed.

Lemma merge_candidates_fresh (existing new : list candidate) :
  merge_candidates existing new
  = ((existing ++ fresh (keys_of existing) new)%list,
     (List.length (fresh (keys_of existing) new),
      (List.length new - List.length (fresh (keys_of existing) new))%nat)).
Proof.
  unfold merge_candidates.
  set (m0 := {| m_existing := existing; m_existing_keys := collect_keys existing;
                m_added_count := O; m_updated_count := O |}).
  destruct (merge_fold new m0 (keys_of existing)) as (H1 & H2 & H3).
  { intros k. apply collect_keys_spec. }
  cbn [m_existing m_added_count m_updated_count m0] in H1, H2, H3.
  rewrite H1. f_equal. f_equal; lia.
Qed.

(** X17.  Merging is idempotent: merging the same new candidates into
    the merged list again changes nothing and reports every one of them
    as already existing.  Existing candidates with pairwise different
    keys stay so in the merged list. *)
Theorem merge_is_idempotent (existing new : list candidate) :
  let merged := (merge_candidates existing new).1 in
  merge_candidates merged new = (merged, (O, List.length new))
  /\ (NoDup (keys_of existing) -> NoDup (keys_of merged))
  /\ (forall c, c ∈ existing -> c ∈ merged).
Proof.
  intros merged. subst merged. rewrite (merge_candidates_fresh existing new). cbn [fst].
  split; [|split].
  - rewrite merge_candidates_fresh.
    assert (E : fresh (keys_of (existing ++ fresh (keys_of existing) new)) new = []).
    { apply fresh_all_seen. intros c Hc. unfold keys_of. rewrite map_app.
      apply elem_of_app. apply fresh_covers. exact Hc. }
    rewrite E, app_nil_r. cbn [List.length]. rewrite Nat.sub_0_r. reflexivity.
  - intros Hnd. unfold keys_of. rewrite map_app. apply NoDup_app. split; [exact Hnd|].
    split; [|apply fresh_keys_nodup].
    intros k Hk Hf. apply list_elem_of_fmap in Hf as (c & -> & Hc).
    apply fresh_not_seen in Hc. exact (Hc Hk).
  - intros c Hc. apply elem_of_app. left. exact Hc.
Qed.

Lemma merge_is_idempotent_witness :
  NoDup (keys_of [column_candidate "D"])
  /\ NoDup (keys_of (merge_candidates [column_candidate "D"]
                       [column_candidate "D"; column_candidate "E"]).1).
Proof.
  assert (H : NoDup (keys_of [column_candidate "D"])).
  { apply NoDup_cons. split; [apply not_elem_of_nil | apply NoDup_nil_2]. }
  split; [exact H|].
  exact (proj1 (proj2 (merge_is_idempotent [column_candidate "D"]
                         [column_candidate "D"; column_candidate "E"])) H).
Defined.

End RestoreAndMerge.
Section CandidateKeys.
Import Py PyList Model Spec Analysis Classify Pipeline Notions.

Lemma dot_split (s1 s2 r1 r2 : string) :
  dotless s1 = true -> dotless s2 = true ->
  s1 +:+ "." +:+ r1 = s2 +:+ "." +:+ r2 -> s1 = s2 /\ r1 = r2.
Proof.
  revert s2. induction s1 as [|c s1 IH]; intros [|d s2] H1 H2 E.
  - change ("" +:+ "." +:+ r1) with (String "." r1) in E.
    change ("" +:+ "." +:+ r2) with (String "." r2) in E.
    injection E as E. split; [reflexivity | exact E].
  - change ("" +:+ "." +:+ r1) with (String "." r1) in E.
    change ((String d s2) +:+ "." +:+ r2) with (String d (s2 +:+ "." +:+ r2)) in E.
    injection E as E1 E2. subst d. cbn in H2. discriminate H2.
  - change ((String c s1) +:+ "." +:+ r1) with (String c (s1 +:+ "." +:+ r1)) in E.
    change ("" +:+ "." +:+ r2) with (String "." r2) in E.
    injection E as E1 E2. subst c. cbn in H1. discriminate H1.
  - cbn [dotless] in H1, H2.
    apply andb_true_iff in H1 as [_ H1]. apply andb_true_iff in H2 as [_ H2].
    change ((String c s1) +:+ "." +:+ r1) with (String c (s1 +:+ "." +:+ r1)) in E.
    change ((String d s2) +:+ "." +:+ r2) with (String d (s2 +:+ "." +:+ r2)) in E.
    injection E as E1 E2. subst d.
    destruct (IH s2 H1 H2 E2) as [-> ->]. split; reflexivity.
Qed.

(** X18.  The merge key of a candidate tells columns apart as long as
    names hold no dot: for two candidates whose database, schema and table
    are strings without a dot and whose column is a string, the keys are
    equal exactly when the four identity parts are.  A dot in a name can
    make the keys of two different columns equal, and then a merge keeps
    only the first of them. *)
Theorem candidate_key_injective (c1 c2 : candidate)
    (Hplain1 : plain_identity c1) (Hplain2 : plain_identity c2) :
  (candidate_key c1 = candidate_key c2 <-> same_identity c1 c2)
  /\ (named_part (c_schema (identified "A.B" "C" "T" "X"))
      /\ ~ same_identity (identified "A.B" "C" "T" "X") (identified "A" "B.C" "T" "X")
      /\ candidate_key (identified "A.B" "C" "T" "X")
         = candidate_key (identified "A" "B.C" "T" "X")
      /\ forall existing,
           (merge_candidates existing
              [identified "A.B" "C" "T" "X"; identified "A" "B.C" "T" "X"]).1
           = (merge_candidates existing [identified "A.B" "C" "T" "X"]).1).
Proof.
  split.
  - destruct Hplain1 as ((d1 & Ed1 & Hd1) & (s1 & Es1 & Hs1) & (t1 & Et1 & Ht1) & (x1 & Ex1)).
    destruct Hplain2 as ((d2 & Ed2 & Hd2) & (s2 & Es2 & Hs2) & (t2 & Et2 & Ht2) & (x2 & Ex2)).
    unfold candidate_key, same_identity.
    rewrite Ed1, Es1, Et1, Ex1, Ed2, Es2, Et2, Ex2. cbn [str_or_empty]. split.
    + intros E.
      apply dot_split in E as [-> E]; [|assumption..].
      apply dot_split in E as [-> E]; [|assumption..].
      apply dot_split in E as [-> ->]; [|assumption..].
      repeat split.
    + intros (E1 & E2 & E3 & E4).
      injection E1 as ->. injection E2 as ->. injection E3 as ->. injection E4 as ->.
      reflexivity.
  - split; [exists "C"; reflexivity|]. split; [|split; [reflexivity|]].
    + intros (E & _). discriminate E.
    + intros existing. rewrite !merge_candidates_fresh. cbn [fst fresh].
      destruct (bool_decide (candidate_key (identified "A.B" "C" "T" "X")
                             ∈ keys_of existing)) eqn:E.
      * change (candidate_key (identified "A" "B.C" "T" "X"))
          with (candidate_key (identified "A.B" "C" "T" "X")).
        rewrite E. reflexivity.
      * rewrite bool_decide_eq_true_2; [reflexivity | left].
Qed.

Lemma candidate_key_injective_witness :
  plain_identity (column_candidate "D") /\ plain_identity (column_candidate "E")
  /\ (candidate_key (column_candidate "D") = candidate_key (column_candidate "E")
      <-> same_identity (column_candidate "D") (column_candidate "E")).
Proof.
  assert (H1 : plain_identity (column_candidate "D")).
  { repeat split; eexists; try split; reflexivity. }
  assert (H2 : plain_identity (column_candidate "E")).
  { repeat split; eexists; try split; reflexivity. }
  split; [exact H1|]. split; [exact H2|].
  exact (proj1 (candidate_key_injective (column_candidate "D") (column_candidate "E") H1 H2)).
Defined.

(** X19.  The merge key leaves the feature out: the ML candidate and the
    Search candidate of one table have the same key, so that a merge of
    the candidates of a run keeps, of the two, only the one that comes
    first. *)
Theorem table_candidates_share_key (rows : list column_row) (a b : any_candidate)
    (Ha : In a (identify_ml_candidates rows))
    (Hb : In b (identify_search_candidates rows))
    (Htable : table_of a = table_of b) :
  candidate_key (common a) = candidate_key (common b)
  /\ c_ai_feature (common a) <> c_ai_feature (common b)
  /\ forall existing,
       (merge_candidates existing [common a; common b]).1
       = (merge_candidates existing [common a]).1
       /\ (merge_candidates existing [common b; common a]).1
          = (merge_candidates existing [common b]).1.
Proof.
  assert (Hkey : candidate_key (common a) = candidate_key (common b)).
  { rewrite identify_ml_candidates_closed in Ha. apply in_flat_map in Ha as (k & _ & Ha).
    destruct (ml_flag rows k); [|destruct Ha]. destruct Ha as [<- | []].
    rewrite identify_search_candidates_closed in Hb.
    apply in_map_iff in Hb as (k' & <- & _).
    rewrite table_of_ml_candidate, table_of_search_candidate in Htable. subst k'.
    reflexivity. }
  split; [exact Hkey|]. split.
  - apply ml_candidates_table_level in Ha as (_ & _ & -> & _).
    apply search_candidates_table_level in Hb as (_ & _ & -> & _). discriminate.
  - intros existing. rewrite !merge_candidates_fresh. cbn [fst fresh]. rewrite Hkey.
    split.
    + destruct (bool_decide (candidate_key (common b) ∈ keys_of existing)) eqn:E.
      * reflexivity.
      * rewrite bool_decide_eq_true_2; [reflexivity | left].
    + destruct (bool_decide (candidate_key (common b) ∈ keys_of existing)) eqn:E.
      * reflexivity.
      * rewrite bool_decide_eq_true_2; [reflexivity | left].
Qed.

Lemma table_candidates_share_key_witness :
  In events_ml (identify_ml_candidates events_rows)
  /\ In events_search (identify_search_candidates events_rows)
  /\ table_of events_ml = table_of events_search
  /\ candidate_key (common events_ml) = candidate_key (common events_search).
Proof.
  assert (Ha : In events_ml (identify_ml_candidates events_rows))
    by (vm_compute; left; reflexivity).
  assert (Hb : In events_search (identify_search_candidates events_rows))
    by (vm_compute; left; reflexivity).
  assert (Ht : table_of events_ml = table_of events_search) by reflexivity.
  split; [exact Ha|]. split; [exact Hb|]. split; [exact Ht|].
  exact (proj1 (table_candidates_share_key events_rows events_ml events_search Ha Hb Ht)).
Defined.

End CandidateKeys.
(** * Scores of all tables *)

Section AllTableScores.
Import Py PyList Model Spec Metadata MetadataAnalysis Notions.

Variable parse : string -> option datetime.
Variable now : Z.
Variable table_lookup : gmap table_key table_meta.
Variable column_lookup : gmap table_key (list column_meta).
Variable constraints_lookup : gmap table_key (list constraint_meta).
Variable storage_lookup : gmap table_key storage_meta.

Lemma weighted_total_range (c d f k n : Q) :
  in_percent_range c -> in_percent_range d -> in_percent_range f ->
  in_percent_range k -> in_percent_range n ->
  in_percent_range
    (round2 (c * (WEIGHT_COMMENTS / 100) + d * (WEIGHT_DATA_TYPES / 100)
             + f * (WEIGHT_FRESHNESS / 100) + k * (WEIGHT_CLUSTERING / 100)
             + n * (WEIGHT_CONSTRAINTS / 100))).
Proof.
  intros [L1 U1] [L2 U2] [L3 U3] [L4 U4] [L5 U5].
  unfold WEIGHT_COMMENTS, WEIGHT_DATA_TYPES, WEIGHT_FRESHNESS, WEIGHT_CLUSTERING,
    WEIGHT_CONSTRAINTS.
  apply (round2_bounds _ 0 100);
    [change (inject_Z 0) with 0 | change (inject_Z 100) with 100];
    setoid_replace (25 / 100) with (1 # 4) using relation Qeq by reflexivity;
    setoid_replace (20 / 100) with (1 # 5) using relation Qeq by reflexivity;
    setoid_replace (15 / 100) with (3 # 20) using relation Qeq by reflexivity;
    lra.
Qed.

Lemma readiness_total_range (key : table_key) :
  in_percent_range
    (rs_total_score (compute_table_readiness_score parse now key table_lookup
                       column_lookup constraints_lookup storage_lookup)).
Proof.
  unfold compute_table_readiness_score. cbn [rs_total_score].
  apply weighted_total_range.
  - apply score_comments_ok.
  - apply score_data_types_ok.
  - apply score_freshness_ok.
  - apply score_clustering_ok.
  - apply score_constraints_ok.
Qed.

Lemma scored_table_key (key : table_key) :
  scored_table (compute_table_readiness_score parse now key table_lookup
                  column_lookup constraints_lookup storage_lookup) = key.
Proof. destruct key as [[d s] t]. reflexivity. Qed.

(** Two descending rearrangements of each other are equal when no two
    elements have the same key. *)
Lemma descending_unique {A : Type} (key : A -> Q) (l1 l2 : list A) :
  descending key l1 -> descending key l2 -> Permutation l1 l2 ->
  (forall a b, In a l1 -> In b l1 -> key a == key b -> a = b) ->
  l1 = l2.
Proof.
  revert l2. induction l1 as [|a l1 IH]; intros l2 H1 H2 Hp Hd.
  - apply Permutation_nil in Hp. symmetry. exact Hp.
  - destruct l2 as [|b l2].
    { apply Permutation_sym, Permutation_nil in Hp. discriminate Hp. }
    destruct H1 as [Ha H1], H2 as [Hb H2].
    assert (Eab : a = b).
    { assert (Hin_a : In a (b :: l2)) by (apply (Permutation_in _ Hp); left; reflexivity).
      assert (Hin_b : In b (a :: l1))
        by (apply (Permutation_in _ (Permutation_sym Hp)); left; reflexivity).
      destruct Hin_a as [E | Hin_a]; [symmetry; exact E|].
      destruct Hin_b as [E | Hin_b]; [exact E|].
      apply Hd; [left; reflexivity | right; exact Hin_b|].
      specialize (Ha b Hin_b). specialize (Hb a Hin_a). lra. }
    subst b. f_equal. apply IH; [exact H1 | exact H2 | |].
    + apply (Permutation_cons_inv Hp).
    + intros x y Hx Hy. apply Hd; right; assumption.
Qed.

(** X20.  Whatever the order in which the loop visits the set of table
    keys, as long as it visits each once: there is exactly one score
    record for every table of the table lookup or of the column lookup,
    tables without table metadata included; every total lies between 0
    and 100, and the records are in descending order of their totals.
    Two visiting orders give the same records, and the very same list
    when no two tables have the same total. *)
Theorem readiness_scores_ranked
    (iteration : gset table_key -> list table_key) (Hiter : visits_once iteration) :
  let table_scores :=
    compute_all_readiness_scores parse now iteration table_lookup column_lookup
      constraints_lookup storage_lookup in
  (forall r, In r table_scores <->
             exists key, (is_Some (table_lookup !! key) \/ is_Some (column_lookup !! key))
                         /\ r = compute_table_readiness_score parse now key table_lookup
                                  column_lookup constraints_lookup storage_lookup)
  /\ NoDup (List.map scored_table table_scores)
  /\ List.length table_scores = size (dom table_lookup ∪ dom column_lookup)
  /\ descending rs_total_score table_scores
  /\ (forall r, In r table_scores -> in_percent_range (rs_total_score r))
  /\ (forall iteration', visits_once iteration' ->
        let table_scores' :=
          compute_all_readiness_scores parse now iteration' table_lookup column_lookup
            constraints_lookup storage_lookup in
        Permutation table_scores table_scores'
        /\ ((forall a b, In a table_scores -> In b table_scores ->
                         rs_total_score a == rs_total_score b -> a = b) ->
            table_scores = table_scores')).
Proof.
  intros table_scores. subst table_scores. unfold compute_all_readiness_scores.
  set (keys := dom table_lookup ∪ dom column_lookup).
  set (score := fun key => compute_table_readiness_score parse now key table_lookup
                             column_lookup constraints_lookup storage_lookup).
  destruct (Hiter keys) as [Hnd Hin].
  pose proof (sorted_desc_perm rs_total_score (List.map score (iteration keys))) as Hperm.
  assert (Hkeys : forall key, key ∈ keys <->
                    is_Some (table_lookup !! key) \/ is_Some (column_lookup !! key)).
  { intros key. unfold keys. rewrite elem_of_union, !elem_of_dom. reflexivity. }
  assert (Hmap : List.map scored_table (List.map score (iteration keys)) = iteration keys).
  { rewrite List.map_map. rewrite <- (map_id (iteration keys)) at 2.
    apply map_ext. intros key. apply scored_table_key. }
  split; [|split; [|split; [|split; [|split]]]].
  - intros r. split.
    + intros Hr. apply (Permutation_in _ Hperm) in Hr.
      apply in_map_iff in Hr as (key & <- & Hk). exists key. split; [|reflexivity].
      apply Hkeys, Hin, list_elem_of_In. exact Hk.
    + intros (key & Hk & ->). apply (Permutation_in _ (Permutation_sym Hperm)).
      change (In (score key) (List.map score (iteration keys))).
      apply in_map. apply list_elem_of_In, Hin, Hkeys. exact Hk.
  - rewrite (Permutation_map scored_table Hperm), Hmap. exact Hnd.
  - rewrite (Permutation_length Hperm), length_map.
    unfold size, set_size. cbn. apply Permutation_length.
    apply NoDup_Permutation; [exact Hnd | apply NoDup_elements|].
    intros k. rewrite Hin, elem_of_elements. reflexivity.
  - apply sorted_desc_descending.
  - intros r Hr. apply (Permutation_in _ Hperm) in Hr.
    apply in_map_iff in Hr as (key & <- & _). apply readiness_total_range.
  - intros iteration' Hiter'. cbv zeta. fold keys. fold score.
    destruct (Hiter' keys) as [Hnd' Hin'].
    pose proof (sorted_desc_perm rs_total_score (List.map score (iteration' keys)))
      as Hperm'.
    assert (Hp : Permutation (sorted_desc rs_total_score (List.map score (iteration keys)))
                   (sorted_desc rs_total_score (List.map score (iteration' keys)))).
    { rewrite Hperm, Hperm'. apply Permutation_map.
      apply NoDup_Permutation; [exact Hnd | exact Hnd'|].
      intros k. rewrite Hin, Hin'. reflexivity. }
    split; [exact Hp|]. intros Hties.
    apply (descending_unique rs_total_score); [apply sorted_desc_descending.. | exact Hp
                                               | exact Hties].
Qed.

(** X21.  A table that has no entry in the table lookup gets a freshness
    of 0, at most 60 for its comments and at most 10 for clustering, so
    that its total is at most 51.5 and it never counts as a table of high
    readiness. *)
Theorem table_without_metadata_scores_low (key : table_key)
    (Hmissing : table_lookup !! key = None) :
  let r := compute_table_readiness_score parse now key table_lookup column_lookup
             constraints_lookup storage_lookup in
  let d := rs_dimension_scores r in
  ds_freshness d == 0
  /\ ds_comments d <= 60
  /\ ds_clustering d <= 10
  /\ rs_total_score r <= 51.5
  /\ geq (rs_total_score r) 70 = false.
Proof.
  intros r d. subst d r. unfold compute_table_readiness_score. rewrite Hmissing.
  cbn [default from_option rs_dimension_scores rs_total_score ds_freshness ds_comments
       ds_clustering].
  set (cols := default [] (column_lookup !! key)).
  set (cons := default [] (constraints_lookup !! key)).
  set (storage := storage_lookup !! key).
  destruct (reported_ok _ (score_comments_ok no_table_meta cols)) as [R1 E1].
  destruct (reported_ok _ (score_data_types_ok cols)) as [R2 E2].
  destruct (reported_ok _ (score_clustering_ok no_table_meta storage)) as [R4 E4].
  destruct (reported_ok _ (score_constraints_ok cons)) as [R5 E5].
  assert (Hf : score_freshness parse now no_table_meta = 0) by reflexivity.
  assert (Hc : score_comments no_table_meta cols <= 60).
  { unfold score_comments. cbn [table_comment no_table_meta].
    change (truthyS (strip "")) with false. cbv iota.
    assert (Hr : forall x, x <= 60 -> Py.min (round2 x) 100 <= 60).
    { intros x Hx.
      assert (Hx' : round2 x <= 60).
      { apply (round2_bounds x (Qfloor x) 60); [apply Qfloor_le | exact Hx]. }
      destruct (min_spec (round2 x) 100) as [[Hlt E] | [Hle E]]; rewrite E; lra. }
    apply Hr. destruct cols as [|c cols']; [lra|]. cbv zeta.
    assert (Hle : of_nat (commented_columns (c :: cols'))
                  <= of_nat (List.length (c :: cols'))).
    { unfold of_nat, commented_columns. rewrite <- Zle_Qle. apply inj_le.
      apply filter_length_le. }
    assert (Hpos : 0 < of_nat (List.length (c :: cols'))).
    { unfold of_nat. change 0 with (inject_Z 0). rewrite <- Zlt_Qlt.
      cbn [List.length]. lia. }
    assert (Hratio : of_nat (commented_columns (c :: cols'))
                     / of_nat (List.length (c :: cols')) <= 1).
    { apply Qle_shift_div_r; [exact Hpos | lra]. }
    set (ratio := _ / _) in *. clearbody ratio. lra. }
  assert (Hk : score_clustering no_table_meta storage <= 10).
  { unfold score_clustering. cbn [clustering_key no_table_meta].
    change (truthyS (strip "")) with false. cbv iota zeta.
    assert (H0 : Py.min (round2 0) 100 <= 10) by (vm_compute; discriminate).
    assert (H10 : Py.min (round2 (0 + 10)) 100 <= 10) by (vm_compute; discriminate).
    destruct storage as [sm|]; [|exact H0].
    rewrite andb_false_r.
    destruct (truthyZ (active_bytes sm) && _); [exact H10 | exact H0]. }
  split; [reflexivity|]. split; [rewrite E1; exact Hc|]. split; [rewrite E4; exact Hk|].
  assert (Htotal :
    round2 (score_comments no_table_meta cols * (WEIGHT_COMMENTS / 100)
            + score_data_types cols * (WEIGHT_DATA_TYPES / 100)
            + score_freshness parse now no_table_meta * (WEIGHT_FRESHNESS / 100)
            + score_clustering no_table_meta storage * (WEIGHT_CLUSTERING / 100)
            + score_constraints cons * (WEIGHT_CONSTRAINTS / 100)) <= 51.5).
  { rewrite Hf. destruct R1 as [L1 _], R2 as [L2 U2], R4 as [L4 _], R5 as [L5 U5].
    rewrite E1 in L1. rewrite E2 in L2, U2. rewrite E4 in L4. rewrite E5 in L5, U5.
    set (c := score_comments no_table_meta cols) in *.
    set (dty := score_data_types cols) in *.
    set (k := score_clustering no_table_meta storage) in *.
    set (n := score_constraints cons) in *.
    clearbody c dty k n.
    unfold WEIGHT_COMMENTS, WEIGHT_DATA_TYPES, WEIGHT_FRESHNESS, WEIGHT_CLUSTERING,
      WEIGHT_CONSTRAINTS.
    set (x := _ + _ + _ + _ + _).
    assert (Hx : x * 100 <= inject_Z 5150).
    { unfold x. change (inject_Z 5150) with 5150.
      setoid_replace (25 / 100) with (1 # 4) using relation Qeq by reflexivity.
      setoid_replace (20 / 100) with (1 # 5) using relation Qeq by reflexivity.
      setoid_replace (15 / 100) with (3 # 20) using relation Qeq by reflexivity.
      lra. }
    destruct (round_half_even_bounds (x * 100) (Qfloor (x * 100)) 5150
                (Qfloor_le _) Hx) as [_ Hup].
    unfold round2. rewrite Qred_correct. rewrite Zle_Qle in Hup.
    change (inject_Z 5150) with 5150 in Hup.
    set (rr := inject_Z (round_half_even (x * 100))) in *. clearbody rr.
    apply Qle_shift_div_r; lra. }
  split; [exact Htotal|]. apply geq_false. lra.
Qed.

End AllTableScores.
Section AllTableScoresWitness.
Import Py PyList Model Spec Metadata MetadataAnalysis Notions.

Lemma elements_visits_once : visits_once elements.
Proof.
  intros s. split; [apply NoDup_elements|]. intros k. apply elem_of_elements.
Qed.

Lemma readiness_scores_ranked_witness :
  visits_once elements
  /\ descending rs_total_score
       (compute_all_readiness_scores (fun _ => None) 0%Z elements
          ∅ {[ orders_key := seven_columns ]} ∅ ∅).
Proof.
  split; [exact elements_visits_once|].
  exact (proj1 (proj2 (proj2 (proj2
           (readiness_scores_ranked (fun _ => None) 0%Z
              ∅ {[ orders_key := seven_columns ]} ∅ ∅ elements elements_visits_once))))).
Defined.

Lemma table_without_metadata_scores_low_witness :
  (∅ : gmap table_key table_meta) !! orders_key = None
  /\ rs_total_score
       (compute_table_readiness_score (fun _ => None) 0%Z orders_key
          ∅ {[ orders_key := seven_columns ]} ∅ ∅) <= 51.5.
Proof.
  assert (H : (∅ : gmap table_key table_meta) !! orders_key = None)
    by apply lookup_empty.
  split; [exact H|].
  exact (proj1 (proj2 (proj2 (proj2
           (table_without_metadata_scores_low (fun _ => None) 0%Z
              ∅ {[ orders_key := seven_columns ]} ∅ ∅ orders_key H))))).
Defined.

End AllTableScoresWitness.

Section Summary.
Import Py PyList Model Spec Metadata MetadataAnalysis Notions.

Lemma bands_partition (l : list readiness_score) :
  (List.length (List.filter (fun s => geq (rs_total_score s) 70) l)
   + List.length
       (List.filter (fun s => leq 40 (rs_total_score s) && lt (rs_total_score s) 70) l)
   + List.length (List.filter (fun s => lt (rs_total_score s) 40) l)
   = List.length l)%nat.
Proof.
  induction l as [|s l IH]; [reflexivity|]. cbn [List.filter List.length].
  destruct (geq (rs_total_score s) 70) eqn:E1,
           (leq 40 (rs_total_score s)) eqn:E2,
           (lt (rs_total_score s) 70) eqn:E3,
           (lt (rs_total_score s) 40) eqn:E4; cbn [andb List.length];
    try lia; exfalso;
    repeat match goal with
           | H : geq _ _ = true |- _ => apply geq_spec in H
           | H : geq _ _ = false |- _ => apply geq_false in H
           | H : leq _ _ = true |- _ => apply leq_spec in H
           | H : leq _ _ = false |- _ => apply leq_false in H
           | H : lt _ _ = true |- _ => apply lt_spec in H
           | H : lt _ _ = false |- _ => apply lt_false in H
           end; lra.
Qed.

Lemma sum_scores_range (l : list readiness_score) :
  (forall s, In s l -> in_percent_range (rs_total_score s)) ->
  0 <= sum_scores l /\ sum_scores l <= 100 * of_nat (List.length l).
Proof.
  unfold sum_scores.
  assert (H : forall acc n,
            0 <= acc /\ acc <= 100 * of_nat n ->
            (forall s, In s l -> in_percent_range (rs_total_score s)) ->
            0 <= fold_left (fun a s => a + rs_total_score s) l acc
            /\ fold_left (fun a s => a + rs_total_score s) l acc
               <= 100 * of_nat (n + List.length l)).
  { induction l as [|s l IH]; intros acc n Hacc Hl; cbn [fold_left List.length].
    - rewrite Nat.add_0_r. exact Hacc.
    - replace (n + S (List.length l))%nat with (S n + List.length l)%nat by lia.
      apply IH; [|intros t Ht; apply Hl; right; exact Ht].
      destruct (Hl s (or_introl eq_refl)) as [L U]. destruct Hacc as [L0 U0].
      assert (E : of_nat (S n) == of_nat n + 1).
      { unfold of_nat. rewrite Nat2Z.inj_succ, <- Z.add_1_r, inject_Z_plus. reflexivity. }
      rewrite E. split; lra. }
  intros Hl. apply (H 0 O); [|exact Hl]. split; [lra|].
  change (of_nat 0) with 0. lra.
Qed.

(** X22.  In the summary of a metadata analysis every table counts in
    exactly one of the three readiness bands: high from 70, medium from
    40 to below 70, low below 40, so that the three counts add up to the
    number of tables.  When every total lies between 0 and 100 so does the
    average, and without tables the average and the counts are 0. *)
Theorem summary_counts_partition
    (table_scores : list readiness_score) (columns_rows constraints_rows : nat) :
  let s := summarize table_scores columns_rows constraints_rows in
  total_tables s = List.length table_scores
  /\ (high_readiness_count s + medium_readiness_count s + low_readiness_count s
      = total_tables s)%nat
  /\ (forall r, In r table_scores ->
        (70 <= rs_total_score r -> (1 <= high_readiness_count s)%nat)
        /\ (40 <= rs_total_score r < 70 -> (1 <= medium_readiness_count s)%nat)
        /\ (rs_total_score r < 40 -> (1 <= low_readiness_count s)%nat))
  /\ ((forall r, In r table_scores -> in_percent_range (rs_total_score r)) ->
      in_percent_range (average_score s))
  /\ (table_scores = [] ->
      average_score s == 0 /\ high_readiness_count s = O
      /\ medium_readiness_count s = O /\ low_readiness_count s = O).
Proof.
  intros s. subst s. unfold summarize. destruct table_scores as [|r0 l].
  - cbn. split; [reflexivity|]. split; [reflexivity|]. split; [intros r []|].
    split; [intros _; split; vm_compute; discriminate|].
    intros _. split; [reflexivity|]. repeat split.
  - set (ts := r0 :: l).
    cbn [total_tables high_readiness_count medium_readiness_count low_readiness_count
         average_score].
    split; [reflexivity|]. split; [apply bands_partition|]. split; [|split].
    + assert (Hone : forall (p : readiness_score -> bool) r,
                 In r ts -> p r = true -> (1 <= List.length (List.filter p ts))%nat).
      { intros p r Hr Hp.
        assert (Hin : In r (List.filter p ts)) by (apply filter_In; split; assumption).
        destruct (List.filter p ts); [destruct Hin | cbn [List.length]; lia]. }
      intros r Hr. split; [|split].
      * intros H. apply (Hone _ r Hr). apply geq_spec. exact H.
      * intros [H1 H2]. apply (Hone _ r Hr). apply andb_true_iff.
        split; [apply leq_spec | apply lt_spec]; assumption.
      * intros H. apply (Hone _ r Hr). apply lt_spec. exact H.
    + intros Hl. destruct (sum_scores_range ts Hl) as [L U].
      assert (Hpos : 0 < of_nat (List.length ts)).
      { unfold of_nat. change 0 with (inject_Z 0). rewrite <- Zlt_Qlt.
        unfold ts. cbn [List.length]. lia. }
      apply (round2_bounds _ 0 100).
      * change (inject_Z 0) with 0. apply Qle_shift_div_l; [exact Hpos | lra].
      * change (inject_Z 100) with 100. apply Qle_shift_div_r; [exact Hpos | lra].
    + intros E. discriminate E.
Qed.

End Summary.
(** * Text profiles and the number of confirmed candidates *)

Section TextProfiles.
Import Py PyList Model Spec Analysis Classify Pipeline Notions.

Lemma profile_fold (rows : list text_rich_row) :
  forall seen acc,
    exists chosen,
      (fold_left profile_step rows (seen, acc)).2
      = (acc ++ List.map metadata_profile chosen)%list
      /\ chosen `sublist_of` rows
      /\ NoDup (List.map profile_table_key chosen)
      /\ (forall row, In row chosen -> profile_table_key row ∉ seen).
Proof.
  induction rows as [|row rows IH]; intros seen acc.
  - exists []. cbn. rewrite app_nil_r. split; [reflexivity|].
    split; [constructor|]. split; [constructor | intros row []].
  - cbn [fold_left]. unfold profile_step at 2.
    destruct (decide (profile_table_key row ∉ seen)) as [Hnew | Hold].
    + rewrite (bool_decide_eq_true_2 _ Hnew).
      destruct (IH ({[profile_table_key row]} ∪ seen)
                  (acc ++ [metadata_profile row])%list)
        as (chosen & E & Hsub & Hnd & Hseen).
      exists (row :: chosen). rewrite E, <- app_assoc. split; [reflexivity|].
      split; [apply sublist_skip; exact Hsub|]. split.
      * cbn [List.map]. apply NoDup_cons. split; [|exact Hnd].
        intros Hin. apply list_elem_of_In, in_map_iff in Hin as (r & Er & Hr).
        apply (Hseen r Hr). rewrite Er. apply elem_of_union_l, elem_of_singleton.
        reflexivity.
      * intros r [<- | Hr]; [exact Hnew|].
        intros Hin. apply (Hseen r Hr). apply elem_of_union_r. exact Hin.
    + rewrite (bool_decide_eq_false_2 _ Hold).
      destruct (IH seen acc) as (chosen & E & Hsub & Hnd & Hseen).
      exists chosen. split; [exact E|]. split; [apply sublist_cons; exact Hsub|].
      split; assumption.
Qed.


(** With profiles that report no counts, the readiness is decided by the
    average length of the first profile of the same column. *)
Lemma readiness_without_counts (c : candidate) (tps : list text_profile) (q : Q) :
  (forall p, In p tps -> tp_non_null_count p = 0%Z) ->
  readiness_from_profiles c tps q
  = match List.find (profile_matches c) tps with
    | Some p => if gt (tp_avg_length p) 100 then 4 else q
    | None => q
    end.
Proof.
  intros H. induction tps as [|p rest IH]; [reflexivity|].
  cbn [readiness_from_profiles List.find].
  destruct (profile_matches c p).
  - rewrite (H p (or_introl eq_refl)). reflexivity.
  - apply IH. intros r Hr. apply H. right. exact Hr.
Qed.



End TextProfiles.
Section ConfirmedCount.
Import Py PyList Model Spec Analysis Classify Pipeline Notions.

Variable meta_table_lookup : gmap Metadata.table_key table_meta.
Variable meta_column_lookup : gmap Metadata.table_key (list column_meta).
Variable cfg : config.

Lemma rescoring_irrelevant (tps : list text_profile) (selected : bool) (c : candidate) :
  analyze_score_confirm meta_table_lookup meta_column_lookup tps cfg selected c
  = analyze_score_confirm meta_table_lookup meta_column_lookup tps cfg false c.
Proof.
  destruct selected; [|reflexivity]. unfold analyze_score_confirm.
  rewrite score_after_rescore_metadata. reflexivity.
Qed.













Lemma filter_none {A : Type} (p : A -> bool) (l : list A) :
  (forall x, In x l -> p x = false) -> List.filter p l = [].
Proof.
  intros H. induction l as [|x l IH]; [reflexivity|]. cbn [List.filter].
  rewrite (H x (or_introl eq_refl)). apply IH. intros y Hy. apply H. right. exact Hy.
Qed.


End ConfirmedCount.

Section ConfirmedCountWitness.
Import Py PyList Model Spec Analysis Classify Pipeline Notions.


End ConfirmedCountWitness.
(** * Adaptive sampling *)

Section AdaptiveSampling.
Import Py Identifiers Sampling Notions.

Variable run_query : string -> string -> string -> string -> bool -> Z -> attempt.

Lemma sample_loop_sampled (db schema table column : string) (is_numeric : bool)
    (sizes : list Z) (st : sample_statistics) (size : Z) :
  sample_loop run_query db schema table column is_numeric sizes = Sampled st size <->
  exists before after r,
    sizes = (before ++ size :: after)%list
    /\ no_row (run_query db schema table column is_numeric) before
    /\ run_query db schema table column is_numeric size = Row r
    /\ st = build_statistics is_numeric r.
Proof.
  set (query := run_query db schema table column is_numeric).
  induction sizes as [|s rest IH].
  - split; [discriminate|]. intros (before & after & r & E & _).
    destruct before; discriminate E.
  - cbn [sample_loop]. fold query.
    assert (Hskip : (forall r, query s <> Row r) ->
              (sample_loop run_query db schema table column is_numeric rest
               = Sampled st size <->
               exists before after r,
                 s :: rest = (before ++ size :: after)%list
                 /\ no_row query before /\ query size = Row r
                 /\ st = build_statistics is_numeric r)).
    { intros Hs. rewrite IH. split.
      - intros (before & after & r & -> & Hno & Hr & Hst).
        exists (s :: before), after, r. split; [reflexivity|]. split; [|auto].
        intros x [<- | Hx]; [exact Hs | apply Hno; exact Hx].
      - intros (before & after & r & E & Hno & Hr & Hst).
        destruct before as [|b before].
        + injection E as -> _. exfalso. exact (Hs r Hr).
        + injection E as _ ->. exists before, after, r. split; [reflexivity|].
          split; [|auto]. intros x Hx. apply Hno. right. exact Hx. }
    destruct (query s) as [e | | r0] eqn:Eq.
    + destruct rest as [|s' rest'].
      * split; [discriminate|]. intros (before & after & r & E & Hno & Hr & _).
        destruct before as [|b before].
        -- injection E as -> _. fold query in Hr. congruence.
        -- injection E as _ E. destruct before; discriminate E.
      * apply Hskip. intros r. discriminate.
    + apply Hskip. intros r. discriminate.
    + split.
      * intros E. injection E as <- <-. exists [], rest, r0.
        split; [reflexivity|]. split; [intros x []|]. split; [exact Eq | reflexivity].
      * intros (before & after & r & E & Hno & Hr & ->).
        destruct before as [|b before].
        -- injection E as -> _. fold query in Hr. rewrite Eq in Hr. injection Hr as ->.
           reflexivity.
        -- injection E as <- _. exfalso. apply (Hno s (or_introl eq_refl) r0). exact Eq.
Qed.

Lemma sample_loop_failed (db schema table column : string) (is_numeric : bool)
    (sizes : list Z) (msg : string) :
  sample_loop run_query db schema table column is_numeric sizes = Failed msg <->
  no_row (run_query db schema table column is_numeric) sizes
  /\ msg = failure_message (run_query db schema table column is_numeric) sizes.
Proof.
  set (query := run_query db schema table column is_numeric).
  induction sizes as [|s rest IH].
  - cbn. split.
    + intros E. injection E as <-. split; [intros x [] | reflexivity].
    + intros [_ ->]. reflexivity.
  - cbn [sample_loop]. fold query.
    assert (Hno : forall P : Prop, (forall r, query s <> Row r) ->
              (no_row query rest /\ P <-> no_row query (s :: rest) /\ P)).
    { intros P Hs. split; intros [H HP]; (split; [|exact HP]).
      - intros x [<- | Hx]; [exact Hs | apply H; exact Hx].
      - intros x Hx. apply H. right. exact Hx. }
    assert (Hlast : forall s' rest', failure_message query (s :: s' :: rest')
                                     = failure_message query (s' :: rest')).
    { intros s' rest'. reflexivity. }
    destruct (query s) as [e | | r0] eqn:Eq.
    + destruct rest as [|s' rest'].
      * unfold failure_message. cbn [last]. rewrite Eq. split.
        -- intros E. injection E as <-. split; [|reflexivity].
           intros x [<- | []] r. congruence.
        -- intros [_ ->]. reflexivity.
      * rewrite IH, Hlast. apply Hno. intros r. discriminate.
    + destruct rest as [|s' rest'].
      * rewrite IH. unfold failure_message. cbn [last]. rewrite Eq.
        apply Hno. intros r. discriminate.
      * rewrite IH, Hlast. apply Hno. intros r. discriminate.
    + split; [discriminate|]. intros [H _]. exfalso.
      apply (H s (or_introl eq_refl) r0). exact Eq.
Qed.

Lemma null_percentage_range (r : sample_row) :
  (0 <= res_non_null_count r <= res_row_count r)%Z ->
  0 <= null_percentage_of r /\ null_percentage_of r <= 100.
Proof.
  intros [H0 H1]. unfold null_percentage_of.
  destruct (0 <? res_row_count r)%Z eqn:E; [|split; vm_compute; discriminate].
  apply Z.ltb_lt in E.
  assert (Hpos : 0 < inject_Z (res_row_count r)).
  { change 0 with (inject_Z 0). rewrite <- Zlt_Qlt. exact E. }
  assert (Hn0 : 0 <= inject_Z (res_non_null_count r)).
  { change 0 with (inject_Z 0). rewrite <- Zle_Qle. exact H0. }
  assert (Hn1 : inject_Z (res_non_null_count r) <= inject_Z (res_row_count r)).
  { rewrite <- Zle_Qle. exact H1. }
  assert (Hr0 : 0 <= inject_Z (res_non_null_count r) / inject_Z (res_row_count r)).
  { apply Qle_shift_div_l; [exact Hpos | lra]. }
  assert (Hr1 : inject_Z (res_non_null_count r) / inject_Z (res_row_count r) <= 1).
  { apply Qle_shift_div_r; [exact Hpos | lra]. }
  set (ratio := _ / _) in *. clearbody ratio.
  apply (round2_bounds _ 0 100);
    [change (inject_Z 0) with 0 | change (inject_Z 100) with 100]; lra.
Qed.

(** X25.  Adaptive sampling checks the four identifiers before any
    query, in the order database, schema, table, column, and raises for
    the first invalid one whatever the database would answer.  With valid
    identifiers it never raises: it returns the statistics of the first
    sample size, in the configured order, whose attempt gives a row, and
    it fails exactly when no attempt gives a row, with the error of the
    last attempt when that one raised and with "All sampling attempts
    failed" otherwise, so also for an empty list of sizes.  The NULL
    percentage of the statistics lies between 0 and 100 when the counts
    are consistent, and is 100 for an empty sample. *)
Theorem adaptive_sample_ladder
    (SAMPLE_SIZES : list Z) (db schema table column data_type : string) :
  let result :=
    run_adaptive_sample run_query SAMPLE_SIZES db schema table column data_type in
  let query := run_query db schema table column (sampled_as_numeric data_type) in
  (match_identifier db = false -> result = Raised ("Invalid database: " +:+ db))
  /\ (match_identifier db = true -> match_identifier schema = false ->
      result = Raised ("Invalid schema: " +:+ schema))
  /\ (match_identifier db = true -> match_identifier schema = true ->
      match_identifier table = false ->
      result = Raised ("Invalid table: " +:+ table))
  /\ (match_identifier db = true -> match_identifier schema = true ->
      match_identifier table = true -> match_identifier column = false ->
      result = Raised ("Invalid column: " +:+ column))
  /\ (match_identifier db = true -> match_identifier schema = true ->
      match_identifier table = true -> match_identifier column = true ->
      exists o,
        result = Returned o
        /\ (forall st size,
              o = Sampled st size <->
              exists before after r,
                SAMPLE_SIZES = (before ++ size :: after)%list
                /\ no_row query before /\ query size = Row r
                /\ st = build_statistics (sampled_as_numeric data_type) r)
        /\ (forall msg,
              o = Failed msg <->
              no_row query SAMPLE_SIZES /\ msg = failure_message query SAMPLE_SIZES))
  /\ (forall is_numeric r,
        null_percentage (build_statistics is_numeric r) = null_percentage_of r
        /\ ((0 <= res_non_null_count r <= res_row_count r)%Z ->
            0 <= null_percentage_of r /\ null_percentage_of r <= 100)
        /\ ((res_row_count r <= 0)%Z -> null_percentage_of r = 100.0)).
Proof.
  intros result query. subst result.
  unfold run_adaptive_sample, validate_snowflake_identifier.
  split; [intros ->; reflexivity|].
  split; [intros -> ->; reflexivity|].
  split; [intros -> -> ->; reflexivity|].
  split; [intros -> -> -> ->; reflexivity|].
  split.
  - intros -> -> -> ->. cbn [negb]. eexists. split; [reflexivity|]. split.
    + intros st size. apply sample_loop_sampled.
    + intros msg. apply sample_loop_failed.
  - intros is_numeric r. split; [destruct is_numeric; reflexivity|].
    split; [apply null_percentage_range|].
    intros H. unfold null_percentage_of.
    rewrite (proj2 (Z.ltb_ge _ _) H). reflexivity.
Qed.

End AdaptiveSampling.
(** * The first priority of the roadmap *)

Section RoadmapPriority.
Import Py PyList Model Spec Analysis Classify Pipeline Roadmap Notions.

(** Whether a scored candidate qualifies for the first priority. *)
Lemma scored_priority (c : candidate) (tps : list text_profile) :
  (forall p, In p tps -> tp_non_null_count p = 0%Z) ->
  c_ai_feature c <> "Cortex ML (Forecasting/Anomaly)" \/ c_comment c = None ->
  geq (default 0 (c_total_score (score_candidate c tps))) 15
  && leq (governance_risk_of (score_candidate c tps)) 3 = false.
Proof.
  intros Hzero Hc.
  unfold governance_risk_of, score_candidate.
  cbn [c_total_score c_scores set_scores default from_option id governance_risk].
  rewrite (readiness_without_counts c tps 3 Hzero).
  unfold sum_values.
  cbn [business_potential data_readiness metadata_quality governance_risk].
  set (dr := match List.find (profile_matches c) tps with
             | Some p => if gt (tp_avg_length p) 100 then 4 else 3
             | None => 3
             end).
  assert (Hdr : dr = 3 \/ dr = 4).
  { unfold dr. destruct (List.find _ _) as [p|]; [|left; reflexivity].
    destruct (gt _ _); [right | left]; reflexivity. }
  clearbody dr.
  destruct Hdr as [-> | ->];
    destruct (existsb _ pii_indicators);
    destruct (String.eqb (c_ai_feature c) "Cortex LLM") eqn:E1;
    destruct (String.eqb (c_ai_feature c) "Cortex ML (Forecasting/Anomaly)") eqn:E2;
    destruct (String.eqb (c_ai_feature c) "Cortex Search / RAG");
    destruct (String.eqb (c_ai_feature c) "Cortex Extract");
    destruct (truthy_opt truthyS (c_comment c)) eqn:Ec;
    try reflexivity;
    apply String.eqb_eq in E2;
    (destruct Hc as [Hc | Hc]; [contradiction | rewrite Hc in Ec; discriminate Ec]).
Qed.

Lemma pii_is_never_first (c : candidate) (tps : list text_profile) :
  existsb (fun ind => contains ind (upper (str_or_empty (c_column c)))
                      || contains ind (upper (str_or_empty (c_table c))))
    pii_indicators = true ->
  leq (governance_risk_of (score_candidate c tps)) 3 = false.
Proof.
  intros H. unfold governance_risk_of, score_candidate.
  cbn [c_scores set_scores default from_option id governance_risk]. rewrite H. reflexivity.
Qed.

Lemma enhanced_search_features (rows : list text_rich_row) (a : any_candidate) :
  In a (enhanced_search rows) ->
  c_ai_feature (common a) = "Cortex Search / RAG".
Proof.
  unfold enhanced_search.
  assert (Happ : forall acc item,
             enhanced_search_step acc item = (acc ++ enhanced_search_step [] item)%list).
  { intros acc [key cols]. unfold enhanced_search_step.
    destruct (2 <=? _)%nat; [reflexivity | rewrite app_nil_r; reflexivity]. }
  rewrite (fold_left_appending enhanced_search_step _ Happ []). cbn [app].
  intros H. apply in_flat_map in H as ([key cols] & _ & H).
  unfold enhanced_search_step in H. destruct (2 <=? _)%nat; [|destruct H].
  destruct H as [<- | []]. reflexivity.
Qed.

Lemma filter_sorted_none {A : Type} (key : A -> Q) (p : A -> bool) (l : list A) :
  (forall x, In x l -> p x = false) -> List.filter p (sorted_desc key l) = [].
Proof.
  intros H. apply filter_none. intros x Hx. apply H.
  apply (Permutation_in _ (sorted_desc_perm key l)). exact Hx.
Qed.

Variable meta_table_lookup : gmap Metadata.table_key table_meta.
Variable meta_column_lookup : gmap Metadata.table_key (list column_meta).
Variable cfg : config.

Lemma flow_scores (tps : list text_profile) (selected : bool) (c : candidate) :
  c_scores (analyze_score_confirm meta_table_lookup meta_column_lookup tps cfg selected c)
  = c_scores (score_candidate c tps)
  /\ c_total_score
       (analyze_score_confirm meta_table_lookup meta_column_lookup tps cfg selected c)
     = c_total_score (score_candidate c tps).
Proof.
  rewrite rescoring_irrelevant. unfold analyze_score_confirm, flag_confirmed.
  destruct (is_confirmed_candidate cfg _ None) as [b rs].
  cbn [c_scores c_total_score set_confirmation].
  apply score_candidate_reads; reflexivity.
Qed.

(** X26.  The first priority of the roadmap is empty in every run that
    scores with the metadata text profiles of Phase 4 and does not append
    to the candidates of earlier runs: of the candidates of the run and
    the enhanced candidates of Phase 3 none reaches a total
    of 15 with a governance risk of at most 3, since that takes the
    business potential of an ML candidate together with a comment and a
    text profile, and ML candidates have neither a comment nor a column.
    In any run a candidate whose column or table name contains a PII
    indicator is left out of the first priority. *)
Theorem roadmap_priority_one_is_empty
    (columns : list column_row) (text_rich_columns : list text_rich_row)
    (selected : nat -> bool) :
  let text_profiles := metadata_text_profiles text_rich_columns in
  let all :=
    imap (fun i => on_common
                     (analyze_score_confirm meta_table_lookup meta_column_lookup
                        text_profiles cfg (selected i)))
      (all_candidates columns) in
  let candidates :=
    roadmap_candidates all
      (score_all text_profiles (enhanced_llm text_rich_columns))
      (score_all text_profiles (enhanced_search text_rich_columns)) in
  priority_1 candidates = []
  /\ (forall (c : candidate) (tps : list text_profile) (others : list any_candidate),
        existsb (fun ind => contains ind (upper (str_or_empty (c_column c)))
                            || contains ind (upper (str_or_empty (c_table c))))
          pii_indicators = true ->
        ~ In (column_level (score_candidate c tps))
             (priority_1 (column_level (score_candidate c tps) :: others))).
Proof.
  intros text_profiles all candidates. split.
  - unfold priority_1. apply filter_sorted_none. intros a Ha.
    assert (Hzero : forall p, In p text_profiles -> tp_non_null_count p = 0%Z).
    { unfold text_profiles, metadata_text_profiles.
      destruct (profile_fold (slice_to 15 text_rich_columns) ∅ []) as (chosen & E & _).
      rewrite E. cbn [app]. intros p Hp. apply in_map_iff in Hp as (row & <- & _).
      reflexivity. }
    assert (Hscored : exists c,
               (c_ai_feature c <> "Cortex ML (Forecasting/Anomaly)" \/ c_comment c = None)
               /\ c_scores (common a) = c_scores (score_candidate c text_profiles)
               /\ c_total_score (common a)
                  = c_total_score (score_candidate c text_profiles)).
    { unfold candidates, roadmap_candidates in Ha.
      apply in_app_iff in Ha as [Ha | Ha]; [|apply in_app_iff in Ha as [Ha | Ha]].
      - unfold all in Ha. apply list_elem_of_In, elem_of_lookup_imap in Ha
          as (i & b & -> & Hb).
        apply list_elem_of_lookup_2, list_elem_of_In in Hb.
        exists (common b). split; [|apply flow_scores].
        unfold all_candidates in Hb. rewrite !in_app_iff, !in_map_iff in Hb.
        destruct Hb as [(c & <- & H) | [(c & <- & H) | [H | H]]].
        + apply llm_candidates_unscored in H as (_ & _ & H & _). left.
          cbn [common column_level]. rewrite H. discriminate.
        + apply variant_candidates_unscored in H as (_ & _ & H & _). left.
          cbn [common column_level]. rewrite H. discriminate.
        + right. rewrite identify_ml_candidates_closed in H.
          apply in_flat_map in H as (key & _ & H).
          destruct (ml_flag columns key); [|destruct H]. destruct H as [<- | []].
          reflexivity.
        + apply search_candidates_table_level in H as (_ & _ & H & _). left.
          rewrite H. discriminate.
      - assert (Hin : In a (score_all text_profiles (enhanced_llm text_rich_columns)))
          by (apply (slice_to_In 100); exact Ha).
        unfold score_all, enhanced_llm in Hin. rewrite List.map_map in Hin.
        apply in_map_iff in Hin as (row & <- & _).
        exists (enhanced_llm_candidate row). split; [left; discriminate|].
        split; reflexivity.
      - assert (Hin : In a (score_all text_profiles (enhanced_search text_rich_columns)))
          by (apply (slice_to_In 50); exact Ha).
        unfold score_all in Hin. apply in_map_iff in Hin as (b & <- & Hb).
        apply enhanced_search_features in Hb.
        exists (common b). split; [left; rewrite Hb; discriminate|].
        split; reflexivity. }
    destruct Hscored as (c & Hc & Hs & Ht).
    unfold sort_key, governance_risk_of. rewrite Hs, Ht.
    apply (scored_priority c text_profiles Hzero Hc).
  - intros c tps others Hpii Ha. unfold priority_1 in Ha.
    apply filter_In in Ha as [_ Ha]. apply andb_true_iff in Ha as [_ Ha].
    cbn [common column_level] in Ha. rewrite (pii_is_never_first c tps Hpii) in Ha.
    discriminate Ha.
Qed.

End RoadmapPriority.
(** * Metadata readiness of a column *)

Section ColumnReadiness.
Import Py Model Spec Metadata.

Lemma metadata_stats_fields (cm : column_meta) (tm : table_meta) :
  let st := compute_column_metadata_stats cm tm in
  stats_empty st = false
  /\ st_null_percentage st
     = Some (if bool_decide (cm_is_nullable cm = Some "NO") then 0.0 else 20.0)
  /\ st_is_nullable st = cm_is_nullable cm
  /\ (text_column cm = false -> st_avg_length st = None)
  /\ (forall tm', st_avg_length (compute_column_metadata_stats cm tm') = st_avg_length st)
  /\ (forall tm', st_has_comment (compute_column_metadata_stats cm tm') = st_has_comment st).
Proof.
  unfold compute_column_metadata_stats, text_column.
  destruct (bool_decide (cm_is_nullable cm = Some "NO")); cbn;
    (split; [reflexivity|]); (split; [reflexivity|]); (split; [reflexivity|]);
    (split; [intros ->; reflexivity|]); split; reflexivity.
Qed.

(** X27.  The metadata readiness of a column, the score that Phase 2E
    stores for statistics estimated from the catalogue, depends on the
    column alone, not on the candidate or on the table.  It lies between
    1.5 and 5; it is at least 2 for a NOT NULL column and at most 4 for any
    other; and for a column that is not a text column it is at most 3, and
    at most 2 unless the column is NOT NULL. *)
Theorem metadata_readiness_of_column (c : candidate) (cm : column_meta) (tm : table_meta) :
  let score :=
    enhance_data_readiness_score_metadata c (compute_column_metadata_stats cm tm) in
  1.5 <= score /\ score <= 5
  /\ (cm_is_nullable cm = Some "NO" -> 2 <= score)
  /\ (cm_is_nullable cm <> Some "NO" -> score <= 4)
  /\ (text_column cm = false ->
      score <= 3 /\ (cm_is_nullable cm <> Some "NO" -> score <= 2))
  /\ (forall c' tm',
        enhance_data_readiness_score_metadata c' (compute_column_metadata_stats cm tm')
        == score).
Proof.
  intros score. subst score.
  destruct (metadata_stats_fields cm tm) as (Hne & Hnull & Hnn & Htext & Havg & Hcom).
  pose proof (metadata_score_components c _ Hne) as E.
  rewrite Hnull in E. cbn [default from_option id] in E.
  unfold not_nullable in E. rewrite Hnn in E.
  pose proof (content_points_range
                (st_avg_length (compute_column_metadata_stats cm tm))) as [C0 C2].
  assert (Hq : forall a b, 0 <= quality_points a b /\ quality_points a b <= 1
                           /\ (b = false -> quality_points a b <= 0.5)).
  { intros [|] [|]; repeat split; try (vm_compute; discriminate); intros H; discriminate H. }
  assert (N0 : null_rate_points 0.0 == 2) by reflexivity.
  assert (N20 : null_rate_points 20.0 == 1.5) by reflexivity.
  assert (Hindep : forall c' tm',
            enhance_data_readiness_score_metadata c' (compute_column_metadata_stats cm tm')
            == enhance_data_readiness_score_metadata c (compute_column_metadata_stats cm tm)).
  { intros c' tm'.
    destruct (metadata_stats_fields cm tm') as (Hne' & Hnull' & Hnn' & _).
    rewrite (metadata_score_components c' _ Hne'), E, Hnull'.
    cbn [default from_option id]. unfold not_nullable, has_comment.
    rewrite Hnn', (Havg tm'), (Hcom tm'). reflexivity. }
  set (b := bool_decide (cm_is_nullable cm = Some "NO")) in *.
  assert (Hb : b = true <-> cm_is_nullable cm = Some "NO") by apply bool_decide_eq_true.
  destruct (Hq (has_comment (compute_column_metadata_stats cm tm)) b) as (Q0 & Q1 & Q2).
  set (q := quality_points _ b) in *. set (cp := content_points _) in *.
  assert (Ecp : text_column cm = false -> cp == 0).
  { intros Ht. unfold cp. rewrite (Htext Ht). reflexivity. }
  clearbody q cp. clearbody b.
  set (score := enhance_data_readiness_score_metadata c _) in *. clearbody score.
  split; [|split; [|split; [|split; [|split]]]].
  - rewrite E. destruct b; [rewrite N0 | rewrite N20]; lra.
  - rewrite E. destruct b; [rewrite N0 | rewrite N20]; lra.
  - intros Hno. apply Hb in Hno. subst b. rewrite E, N0. lra.
  - intros Hyes. destruct b; [contradiction Hyes; apply Hb; reflexivity|].
    specialize (Q2 eq_refl). rewrite E, N20. lra.
  - intros Ht. specialize (Ecp Ht). split.
    + rewrite E, Ecp. destruct b; [rewrite N0 | rewrite N20]; lra.
    + intros Hyes. destruct b; [contradiction Hyes; apply Hb; reflexivity|].
      specialize (Q2 eq_refl). rewrite E, Ecp, N20. lra.
  - exact Hindep.
Qed.

End ColumnReadiness.
